(** * Debug-information generation of the CPU backend (lib/Backends/CPU/DebugInfo.cpp)

    A shallow embedding of the methods of [LLVMIRGen] that attach DWARF debug
    information to the LLVM module generated for a Glow IR function, and the
    properties of them that the specification states.

    Conventions of the embedding.
    - A pointer to an LLVM or Glow object is a handle (an index or an
      identifier); [nullptr] is [None].
    - Every [DIBuilder::create*] call allocates a fresh metadata node in
      the LLVM context; the handle of a node is its position there.
    - A method is a function in the state-and-abort monad [M] over the
      members of [LLVMIRGen] it touches.  [assert] and [llvm_unreachable]
      abort, as do a call through a null receiver and a read past the end
      of an array; null arguments are handed to LLVM as they are.
    - [size_t], [uint64_t] and pointers are 64 bits wide, [unsigned] and
      [float] 32 bits (an LP64 host); [int64_t] is the two's complement
      reading of 64 bits. *)

From stdpp Require Import gmap strings list.
From Stdlib Require Import ZArith Ascii DecimalString DecimalPos DecimalN.

Open Scope Z_scope.

(** ** Machine integers *)

Definition wrap (bits : Z) (x : Z) : Z := x mod 2 ^ bits.
Definition to_size_t (x : Z) : Z := wrap 64 x.
Definition to_unsigned (x : Z) : Z := wrap 32 x.
Definition to_uint64 (x : Z) : Z := wrap 64 x.
(** The conversion of an integer to [int64_t]. *)
Definition to_int64 (x : Z) : Z :=
  let y := wrap 64 x in
  if y <? 2 ^ 63 then y else y - 2 ^ 64.

(** [std::to_string] on an unsigned number. *)
Definition to_string (n : N) : string := NilZero.string_of_uint (N.to_uint n).

(** ** The abort monad over a state *)

Inductive Fatal :=
| Unreachable (msg : string)
| AssertionFailed (msg : string)
| NullDereference
| OutOfBounds.

Inductive Res (A : Type) :=
| Ok (a : A)
| Abort (e : Fatal).
Arguments Ok {A} a.
Arguments Abort {A} e.

Definition M (S A : Type) : Type := S -> Res (A * S).

Definition ret {S A} (a : A) : M S A := fun st => Ok (a, st).
Definition bind {S A B} (c : M S A) (k : A -> M S B) : M S B :=
  fun st => match c st with
            | Ok (a, st') => k a st'
            | Abort e => Abort e
            end.
Definition abort {S A} (e : Fatal) : M S A := fun _ => Abort e.
Definition gets {S A} (f : S -> A) : M S A := fun st => Ok (f st, st).
Definition modify {S} (f : S -> S) : M S unit := fun st => Ok (tt, f st).
Definition cassert {S} (b : bool) (msg : string) : M S unit :=
  if b then ret tt else abort (AssertionFailed msg).
(** Dereference of a pointer that may be null. *)
Definition deref {S A} (p : option A) : M S A :=
  match p with Some a => ret a | None => abort NullDereference end.

Notation "x <- c ;; k" := (bind c (fun x => k))
  (at level 100, c at next level, right associativity).
Notation "c ;;; k" := (bind c (fun _ => k))
  (at level 100, right associativity).

(** A [for] loop over a range or a container. *)
Fixpoint forM_ {S A} (l : list A) (body : A -> M S unit) : M S unit :=
  match l with
  | [] => ret tt
  | x :: l' => body x ;;; forM_ l' body
  end.

Fixpoint mapM {S A B} (l : list A) (body : A -> M S B) : M S (list B) :=
  match l with
  | [] => ret []
  | x :: l' => y <- body x ;; ys <- mapM l' body ;; ret (y :: ys)
  end.

(** ** LLVM types *)

(** [OtherTy] stands for every type that is none of the other four (double,
    struct, array, function, ...); the number tells such types apart. *)
Inductive Ty :=
| VoidTy
| FloatTy
| IntegerTy (bits : N)
| PointerTy (elt : Ty)
| OtherTy (id : N).

Global Instance Ty_eq_dec : EqDecision Ty.
Proof. solve_decision. Defined.

Fixpoint ty_depth (t : Ty) : nat :=
  match t with PointerTy e => S (ty_depth e) | _ => O end.

Fixpoint ty_base (t : Ty) : (N + N) + bool :=
  match t with
  | PointerTy e => ty_base e
  | VoidTy => inr true
  | FloatTy => inr false
  | IntegerTy n => inl (inl n)
  | OtherTy n => inl (inr n)
  end.

Definition ty_of_base (b : (N + N) + bool) : Ty :=
  match b with
  | inr true => VoidTy
  | inr false => FloatTy
  | inl (inl n) => IntegerTy n
  | inl (inr n) => OtherTy n
  end.

Global Instance Ty_countable : Countable Ty.
Proof.
  refine (inj_countable' (fun t => (ty_depth t, ty_base t))
            (fun p => Nat.iter (fst p) PointerTy (ty_of_base (snd p))) _).
  induction x as [| |n|e IH|n]; simpl in *; try reflexivity.
  by rewrite IH.
Defined.

(** ** Debug metadata *)

(** Handle of a metadata node. *)
Definition MDRef := nat.

Definition DW_ATE_float : Z := 4.
Definition DW_ATE_unsigned : Z := 8.
Definition DW_LANG_C : Z := 2.
Definition DW_OP_deref : Z := 6.
Definition DW_OP_constu : Z := 16.
Definition DW_OP_plus : Z := 34.
Definition DEBUG_METADATA_VERSION : Z := 3.
Definition FlagPrototyped : Z := 256.
Definition FullDebug : Z := 1.

(** The nodes the file creates, each with the arguments passed where it is
    created. *)
Inductive DINode :=
| DIBasicType (name : string) (sizeInBits : Z) (encoding : Z)
| DIPointerType (pointee : option MDRef) (sizeInBits : Z)
| DISubroutineType (types : list (option MDRef))
| DISubprogram (scope : option MDRef) (name linkageName : string)
    (file : option MDRef) (lineNo : Z) (ty : option MDRef)
    (isLocalToUnit isDefinition : bool) (scopeLine : Z) (flags : Z)
    (isOptimized : bool)
| DIFile (filename directory : string)
| DICompileUnit (lang : Z) (file : option MDRef) (producer : string)
    (isOptimized : bool) (flags : string) (runtimeVersion : Z)
    (splitName : string) (kind : Z) (dwoId : Z)
    (splitDebugInlining debugInfoForProfiling : bool)
| DILocalVariable (scope : option MDRef) (name : string) (argNo : Z)
    (file : option MDRef) (lineNo : Z) (ty : option MDRef)
    (alwaysPreserve : bool)
| DIArrayType (sizeInBits alignInBits : Z) (elemTy : option MDRef)
    (subscripts : list Z)
| DIExpression (ops : list Z)
| DIGlobalVariableExpression (context : option MDRef)
    (name linkageName : string) (file : option MDRef) (lineNo : Z)
    (ty : option MDRef) (isLocalToUnit : bool) (expr : option MDRef).

(** [llvm::DILocation]: uniqued by its contents, so a value. *)
Record DILocation := {
  loc_line : Z;
  loc_column : Z;
  loc_scope : option MDRef
}.

(** [llvm::DILocation::get(ctx, Line, Column, Scope)]: [Line] is an
    [unsigned]. *)
Definition DILocation_get (line column : Z) (scope : option MDRef)
  : DILocation :=
  {| loc_line := to_unsigned line; loc_column := column; loc_scope := scope |}.

(** What a [DIBuilder] keeps besides the nodes, which belong to the
    context. *)
Record DIBuilder := {
  di_finalizedSubprograms : list (option MDRef);
  di_finalized : bool
}.

Definition DIBuilder_new : DIBuilder :=
  {| di_finalizedSubprograms := []; di_finalized := false |}.

Definition DIBuilder_finalizeSubprogram (sp : option MDRef) (b : DIBuilder)
  : DIBuilder :=
  {| di_finalizedSubprograms := di_finalizedSubprograms b ++ [sp];
     di_finalized := di_finalized b |}.

Definition DIBuilder_finalize (b : DIBuilder) : DIBuilder :=
  {| di_finalizedSubprograms := di_finalizedSubprograms b;
     di_finalized := true |}.

(** [DIScope::getName] of the scope a handle names. *)
Definition DIScope_getName (nodes : list DINode) (scope : option MDRef)
  : string :=
  match scope with
  | None => ""
  | Some h =>
      match nodes !! h with
      | Some (DISubprogram _ name _ _ _ _ _ _ _ _ _) => name
      | Some (DIBasicType name _ _) => name
      | _ => ""
      end
  end.

(** ** The LLVM module *)

Definition FuncRef := nat.
Definition GVRef := nat.
Definition InstId := nat.

Inductive llvm_Value :=
| VArg (f : FuncRef) (i : nat)
| VGlobal (g : GVRef)
| VInst (i : InstId)
| VNullPtr (ty : Ty).

(** The instructions this file creates; [OtherOp] is any instruction the
    code generator emitted. *)
Inductive Opcode :=
| Alloca (ty : Ty)
| Store (val ptr : llvm_Value)
| DbgDeclare (storage : llvm_Value) (var : option MDRef) (expr : option MDRef)
| OtherOp (tag : N).

Record llvm_Instruction := {
  i_id : InstId;
  i_op : Opcode;
  i_debugLoc : option DILocation
}.

Record llvm_Function := {
  fn_name : string;
  fn_returnType : Ty;
  fn_paramTypes : list Ty;
  fn_subprogram : option MDRef;
  fn_blocks : list (list llvm_Instruction)
}.

Record llvm_GlobalVariable := {
  gv_name : string;
  gv_type : Ty;
  gv_isConstant : bool;
  gv_internal : bool;
  gv_initializer : option llvm_Value;
  gv_debugInfo : list (option MDRef)
}.

Record llvm_Module := {
  m_flags : list (string * Z);
  m_globals : list llvm_GlobalVariable;
  m_functions : list llvm_Function;
  m_nextInst : InstId
}.

(** The insertion point of an [IRBuilder]: a block, and the instruction to
    insert before ([None]: the end of the block). *)
Record IRBuilder := {
  b_insertPoint : option (FuncRef * nat * option InstId);
  b_currentDebugLoc : option DILocation
}.

(** ** The Glow IR *)

(** Identity of an IR value (its address). *)
Definition ValueId := positive.

(** [glow::Type]: an element kind ([ElemKind], by its number) and a shape. *)
Record Type_ := {
  elemKind : N;
  dims : list Z
}.

(** The operand structure of a value is fixed once the IR is built; the
    name of a value can change and lives in the name table of the
    function, under the value's identity. *)
Inductive Value :=
| WeightVar (id : ValueId) (ty : Type_)
| AllocActivationInst (id : ValueId) (ty : Type_)
| TensorViewInst (id : ValueId) (ty : Type_) (src : Value)
| OtherInst (id : ValueId) (opcode : N).

Definition valueId (v : Value) : ValueId :=
  match v with
  | WeightVar id _ | AllocActivationInst id _ | TensorViewInst id _ _
  | OtherInst id _ => id
  end.

(** [Value::getType]; an instruction that defines no tensor has the empty
    type. *)
Definition getType (v : Value) : Type_ :=
  match v with
  | WeightVar _ ty | AllocActivationInst _ ty | TensorViewInst _ ty _ => ty
  | OtherInst _ _ => {| elemKind := 0%N; dims := [] |}
  end.

Definition isWeightVar (v : Value) : bool :=
  match v with WeightVar _ _ => true | _ => false end.
Definition isAllocActivationInst (v : Value) : bool :=
  match v with AllocActivationInst _ _ => true | _ => false end.
Definition isTensorViewInst (v : Value) : bool :=
  match v with TensorViewInst _ _ _ => true | _ => false end.

(** The IR function: the weights of its variables (what
    [getWeightForNode] gives for each of [getVars()]), its instructions in
    order, and the names. *)
Record IRFunction := {
  ir_weights : list Value;
  ir_instrs : list Value;
  ir_names : gmap ValueId string
}.

Definition getName (F : IRFunction) (v : Value) : string :=
  default "" (ir_names F !! valueId v).

Definition setName (v : Value) (name : string) (F : IRFunction) : IRFunction :=
  {| ir_weights := ir_weights F;
     ir_instrs := ir_instrs F;
     ir_names := <[valueId v := name]> (ir_names F) |}.

(** Modelled from the spec: [getOrigin] is defined outside this file; "if
    it is a view into another tensor, resolve to the underlying
    allocation". *)
Fixpoint getOrigin (v : Value) : Value :=
  match v with
  | TensorViewInst _ _ src => getOrigin src
  | _ => v
  end.

(** Modelled from the spec: [InstructionNumbering] is defined outside this
    file; "a total, injective numbering established once over all IR
    instructions in the function", instructions indexed [0..k-1].  An
    instruction that is not numbered has number -1. *)
Definition InstructionNumbering := list ValueId.

Definition InstructionNumbering_new (F : IRFunction) : InstructionNumbering :=
  map valueId (ir_instrs F).

Fixpoint index_of (x : ValueId) (l : list ValueId) (i : Z) : Z :=
  match l with
  | [] => -1
  | y :: l' => if decide (x = y) then i else index_of x l' (i + 1)
  end.

Definition getInstrNumber (num : InstructionNumbering) (I : Value) : Z :=
  index_of (valueId I) num 0.

(** [AllocationsInfo]: what the allocation planner assigned. *)
Inductive ValueKind :=
| ConstantWeight
| MutableWeight
| Activation.

Record AllocationsInfo := {
  valueNumbers_ : gmap ValueId (ValueKind * Z);
  allocatedAddressed_ : gmap ValueId Z
}.

(** ** The code generator's state *)

Record DebugInfo := {
  mainFile_ : option MDRef;
  mainF_ : option MDRef;
  mainFileFirstInstrLineNo_ : Z;
  compilationUnit_ : option MDRef;
  DITypes_ : gmap Ty (option MDRef);
  constWeightsBaseAddressGV_ : option GVRef;
  mutableWeightsBaseAddressGV_ : option GVRef;
  activationsBaseAddressGV_ : option GVRef
}.

(** The debug context of a new code generator. *)
Definition DebugInfo_new : DebugInfo :=
  {| mainFile_ := None; mainF_ := None; mainFileFirstInstrLineNo_ := 0;
     compilationUnit_ := None; DITypes_ := ∅;
     constWeightsBaseAddressGV_ := None;
     mutableWeightsBaseAddressGV_ := None;
     activationsBaseAddressGV_ := None |}.

(** The members of [LLVMIRGen] the file uses, with the command-line flag
    [-g] and the files written. *)
Record LLVMIRGen := {
  emitDebugInfo : bool;
  ctx_ : list DINode;
  F_ : IRFunction;
  allocationsInfo_ : AllocationsInfo;
  instrNumbering_ : InstructionNumbering;
  llmodule_ : llvm_Module;
  builder_ : IRBuilder;
  DIBuilder_ : option DIBuilder;
  dbgInfo_ : DebugInfo;
  mainEntryName : string;
  outputDir : string;
  files : gmap string string
}.

Definition set_ctx (f : list DINode -> list DINode) (g : LLVMIRGen)
  : LLVMIRGen :=
  {| emitDebugInfo := emitDebugInfo g; ctx_ := f (ctx_ g); F_ := F_ g;
     allocationsInfo_ := allocationsInfo_ g;
     instrNumbering_ := instrNumbering_ g; llmodule_ := llmodule_ g;
     builder_ := builder_ g; DIBuilder_ := DIBuilder_ g;
     dbgInfo_ := dbgInfo_ g; mainEntryName := mainEntryName g;
     outputDir := outputDir g; files := files g |}.

Definition set_F (f : IRFunction -> IRFunction) (g : LLVMIRGen) : LLVMIRGen :=
  {| emitDebugInfo := emitDebugInfo g; ctx_ := ctx_ g; F_ := f (F_ g);
     allocationsInfo_ := allocationsInfo_ g;
     instrNumbering_ := instrNumbering_ g; llmodule_ := llmodule_ g;
     builder_ := builder_ g; DIBuilder_ := DIBuilder_ g;
     dbgInfo_ := dbgInfo_ g; mainEntryName := mainEntryName g;
     outputDir := outputDir g; files := files g |}.

Definition set_allocationsInfo (f : AllocationsInfo -> AllocationsInfo)
  (g : LLVMIRGen) : LLVMIRGen :=
  {| emitDebugInfo := emitDebugInfo g; ctx_ := ctx_ g; F_ := F_ g;
     allocationsInfo_ := f (allocationsInfo_ g);
     instrNumbering_ := instrNumbering_ g; llmodule_ := llmodule_ g;
     builder_ := builder_ g; DIBuilder_ := DIBuilder_ g;
     dbgInfo_ := dbgInfo_ g; mainEntryName := mainEntryName g;
     outputDir := outputDir g; files := files g |}.

Definition set_llmodule (f : llvm_Module -> llvm_Module) (g : LLVMIRGen)
  : LLVMIRGen :=
  {| emitDebugInfo := emitDebugInfo g; ctx_ := ctx_ g; F_ := F_ g;
     allocationsInfo_ := allocationsInfo_ g;
     instrNumbering_ := instrNumbering_ g; llmodule_ := f (llmodule_ g);
     builder_ := builder_ g; DIBuilder_ := DIBuilder_ g;
     dbgInfo_ := dbgInfo_ g; mainEntryName := mainEntryName g;
     outputDir := outputDir g; files := files g |}.

Definition set_DIBuilder (f : option DIBuilder -> option DIBuilder)
  (g : LLVMIRGen) : LLVMIRGen :=
  {| emitDebugInfo := emitDebugInfo g; ctx_ := ctx_ g; F_ := F_ g;
     allocationsInfo_ := allocationsInfo_ g;
     instrNumbering_ := instrNumbering_ g; llmodule_ := llmodule_ g;
     builder_ := builder_ g; DIBuilder_ := f (DIBuilder_ g);
     dbgInfo_ := dbgInfo_ g; mainEntryName := mainEntryName g;
     outputDir := outputDir g; files := files g |}.

Definition set_dbgInfo (f : DebugInfo -> DebugInfo) (g : LLVMIRGen)
  : LLVMIRGen :=
  {| emitDebugInfo := emitDebugInfo g; ctx_ := ctx_ g; F_ := F_ g;
     allocationsInfo_ := allocationsInfo_ g;
     instrNumbering_ := instrNumbering_ g; llmodule_ := llmodule_ g;
     builder_ := builder_ g; DIBuilder_ := DIBuilder_ g;
     dbgInfo_ := f (dbgInfo_ g); mainEntryName := mainEntryName g;
     outputDir := outputDir g; files := files g |}.

Definition set_files (f : gmap string string -> gmap string string)
  (g : LLVMIRGen) : LLVMIRGen :=
  {| emitDebugInfo := emitDebugInfo g; ctx_ := ctx_ g; F_ := F_ g;
     allocationsInfo_ := allocationsInfo_ g;
     instrNumbering_ := instrNumbering_ g; llmodule_ := llmodule_ g;
     builder_ := builder_ g; DIBuilder_ := DIBuilder_ g;
     dbgInfo_ := dbgInfo_ g; mainEntryName := mainEntryName g;
     outputDir := outputDir g; files := f (files g) |}.

Definition set_DITypes (f : gmap Ty (option MDRef) -> gmap Ty (option MDRef))
  (d : DebugInfo) : DebugInfo :=
  {| mainFile_ := mainFile_ d; mainF_ := mainF_ d;
     mainFileFirstInstrLineNo_ := mainFileFirstInstrLineNo_ d;
     compilationUnit_ := compilationUnit_ d; DITypes_ := f (DITypes_ d);
     constWeightsBaseAddressGV_ := constWeightsBaseAddressGV_ d;
     mutableWeightsBaseAddressGV_ := mutableWeightsBaseAddressGV_ d;
     activationsBaseAddressGV_ := activationsBaseAddressGV_ d |}.

(** A method's monad. *)
Abbreviation Gen := (M LLVMIRGen).

(** A call [DIBuilder_->create...(...)]. *)
Definition DIBuilder_call (n : DINode) : Gen (option MDRef) :=
  b <- gets DIBuilder_ ;;
  _ <- deref b ;;
  h <- gets (fun g => length (ctx_ g)) ;;
  modify (set_ctx (fun nodes => nodes ++ [n])) ;;;
  ret (Some h).

(** ** [LLVMIRGen::setCurrentDebugLocation] *)

Definition SetCurrentDebugLocation (loc : option DILocation) (b : IRBuilder)
  : IRBuilder :=
  {| b_insertPoint := b_insertPoint b; b_currentDebugLoc := loc |}.

Definition setCurrentDebugLocation (g : LLVMIRGen) (builder : IRBuilder)
  (I : Value) : IRBuilder :=
  if negb (emitDebugInfo g) then builder
  else
    let instrNum := getInstrNumber (instrNumbering_ g) I in
    let DILoc :=
      DILocation_get
        (to_size_t (mainFileFirstInstrLineNo_ (dbgInfo_ g) + instrNum))
        0 (mainF_ (dbgInfo_ g)) in
    SetCurrentDebugLocation (Some DILoc) builder.

(** ** [LLVMIRGen::getDebugType] *)

Definition sizeof_float : Z := 4.
Definition sizeof_size_t : Z := 8.
Definition sizeof_pointer : Z := 8.

Fixpoint getDebugType (ty : Ty) : Gen (option MDRef) :=
  cached <- gets (fun g => DITypes_ (dbgInfo_ g) !! ty) ;;
  match cached with
  | Some d => ret d
  | None =>
      DITy <-
        match ty with
        | VoidTy => ret None
        | FloatTy =>
            DIBuilder_call
              (DIBasicType "float" (sizeof_float * 8) DW_ATE_float)
        | IntegerTy w =>
            if decide (Z.of_N w = sizeof_size_t * 8) then
              DIBuilder_call
                (DIBasicType "size_t" (sizeof_size_t * 8) DW_ATE_unsigned)
            else
              let tyName := "int" +:+ to_string w in
              DIBuilder_call (DIBasicType tyName (Z.of_N w) DW_ATE_unsigned)
        | PointerTy elt =>
            pointee <- getDebugType elt ;;
            DIBuilder_call (DIPointerType pointee (sizeof_pointer * 8))
        | OtherTy _ =>
            abort
              (Unreachable "Cannot create DWARF debug type for an LLVM type")
        end ;;
      modify (set_dbgInfo (set_DITypes (fun m => <[ty := DITy]> m))) ;;;
      ret DITy
  end.

(** ** Operations on the module *)

Definition set_functions (f : list llvm_Function -> list llvm_Function)
  (m : llvm_Module) : llvm_Module :=
  {| m_flags := m_flags m; m_globals := m_globals m;
     m_functions := f (m_functions m); m_nextInst := m_nextInst m |}.

Definition set_globals (f : list llvm_GlobalVariable -> list llvm_GlobalVariable)
  (m : llvm_Module) : llvm_Module :=
  {| m_flags := m_flags m; m_globals := f (m_globals m);
     m_functions := m_functions m; m_nextInst := m_nextInst m |}.

Definition addModuleFlag (key : string) (val : Z) (m : llvm_Module)
  : llvm_Module :=
  {| m_flags := m_flags m ++ [(key, val)]; m_globals := m_globals m;
     m_functions := m_functions m; m_nextInst := m_nextInst m |}.

Definition bump_nextInst (m : llvm_Module) : llvm_Module :=
  {| m_flags := m_flags m; m_globals := m_globals m;
     m_functions := m_functions m; m_nextInst := S (m_nextInst m) |}.

Definition set_blocks
  (f : list (list llvm_Instruction) -> list (list llvm_Instruction))
  (fn : llvm_Function) : llvm_Function :=
  {| fn_name := fn_name fn; fn_returnType := fn_returnType fn;
     fn_paramTypes := fn_paramTypes fn; fn_subprogram := fn_subprogram fn;
     fn_blocks := f (fn_blocks fn) |}.

Definition setSubprogram (sp : option MDRef) (fn : llvm_Function)
  : llvm_Function :=
  {| fn_name := fn_name fn; fn_returnType := fn_returnType fn;
     fn_paramTypes := fn_paramTypes fn; fn_subprogram := sp;
     fn_blocks := fn_blocks fn |}.

Definition setDebugLoc (loc : option DILocation) (I : llvm_Instruction)
  : llvm_Instruction :=
  {| i_id := i_id I; i_op := i_op I; i_debugLoc := loc |}.

Definition addDebugInfo (d : option MDRef) (gv : llvm_GlobalVariable)
  : llvm_GlobalVariable :=
  {| gv_name := gv_name gv; gv_type := gv_type gv;
     gv_isConstant := gv_isConstant gv; gv_internal := gv_internal gv;
     gv_initializer := gv_initializer gv;
     gv_debugInfo := gv_debugInfo gv ++ [d] |}.

Definition setInitializer (v : option llvm_Value) (gv : llvm_GlobalVariable)
  : llvm_GlobalVariable :=
  {| gv_name := gv_name gv; gv_type := gv_type gv;
     gv_isConstant := gv_isConstant gv; gv_internal := gv_internal gv;
     gv_initializer := v; gv_debugInfo := gv_debugInfo gv |}.

Definition isDeclaration (fn : llvm_Function) : bool :=
  match fn_blocks fn with [] => true | _ => false end.

(** [Module::getFunction(name)]. *)
Fixpoint find_function (name : string) (fns : list llvm_Function) (i : FuncRef)
  : option FuncRef :=
  match fns with
  | [] => None
  | fn :: fns' =>
      if decide (fn_name fn = name) then Some i
      else find_function name fns' (S i)
  end.

Definition Module_getFunction (name : string) (m : llvm_Module)
  : option FuncRef :=
  find_function name (m_functions m) O.

(** The function a pointer names. *)
Definition theFunction (F : FuncRef) : Gen llvm_Function :=
  fn <- gets (fun g => m_functions (llmodule_ g) !! F) ;;
  deref fn.

(** Insertion of an instruction before the instruction [x] of a block. *)
Fixpoint insert_before (x : InstId) (ins : llvm_Instruction)
  (bb : list llvm_Instruction) : list llvm_Instruction :=
  match bb with
  | [] => [ins]
  | y :: bb' =>
      if decide (i_id y = x) then ins :: y :: bb'
      else y :: insert_before x ins bb'
  end.

Definition insert_at (before : option InstId) (ins : llvm_Instruction)
  (bb : list llvm_Instruction) : list llvm_Instruction :=
  match before with
  | None => bb ++ [ins]
  | Some x => insert_before x ins bb
  end.

Definition Module_insert (ip : FuncRef * nat * option InstId)
  (ins : llvm_Instruction) (m : llvm_Module) : llvm_Module :=
  let '(F, bb, before) := ip in
  set_functions (alter (set_blocks (alter (insert_at before ins) bb)) F) m.

(** [IRBuilder::Insert]: the new instruction takes the builder's current
    debug location and goes to its insertion point. *)
Definition IRBuilder_Insert (builder : IRBuilder) (op : Opcode) : Gen InstId :=
  id <- gets (fun g => m_nextInst (llmodule_ g)) ;;
  let ins :=
    {| i_id := id; i_op := op; i_debugLoc := b_currentDebugLoc builder |} in
  modify (set_llmodule (fun m =>
    bump_nextInst
      match b_insertPoint builder with
      | Some ip => Module_insert ip ins m
      | None => m
      end)) ;;;
  ret id.

Definition CreateAlloca (builder : IRBuilder) (ty : Ty) : Gen InstId :=
  IRBuilder_Insert builder (Alloca ty).

Definition CreateStore (builder : IRBuilder) (val ptr : llvm_Value)
  : Gen InstId :=
  IRBuilder_Insert builder (Store val ptr).

(** [llvm::DebugLoc::get]: no scope, no location. *)
Definition DebugLoc_get (line col : Z) (scope : option MDRef)
  : option DILocation :=
  match scope with
  | None => None
  | Some _ => Some (DILocation_get line col scope)
  end.

(** [DIBuilder::insertDeclare(storage, var, expr, DL, insertBefore)], for an
    [insertBefore] that stands in block [bb] of [F]. *)
Definition insertDeclare (F : FuncRef) (bb : nat) (storage : llvm_Value)
  (var expr : option MDRef) (DL : option DILocation) (insertBefore : InstId)
  : Gen unit :=
  b <- gets DIBuilder_ ;;
  _ <- deref b ;;
  id <- gets (fun g => m_nextInst (llmodule_ g)) ;;
  let ins :=
    {| i_id := id; i_op := DbgDeclare storage var expr; i_debugLoc := DL |} in
  modify (set_llmodule (fun m =>
    bump_nextInst (Module_insert (F, bb, Some insertBefore) ins m))).

(** ** [LLVMIRGen::getOrCreateFunctionDebugInfo] *)

Definition startswith (s pre : string) : bool := String.prefix pre s.

(** [F->args().begin() + i] handed to LLVM as a value: the function has
    the arguments [0 .. arg_size() - 1], and what is behind the last is
    not one. *)
Definition Function_arg (F : FuncRef) (i : nat) : Gen llvm_Value :=
  fn <- theFunction F ;;
  if bool_decide (i < length (fn_paramTypes fn))%nat then ret (VArg F i)
  else abort OutOfBounds.

Definition getSubprogram (F : FuncRef) : Gen (option MDRef) :=
  fn <- theFunction F ;;
  ret (fn_subprogram fn).

Definition getOrCreateFunctionDebugInfo (F : FuncRef)
  (scope file : option MDRef) (lineNo : Z) : Gen (option MDRef) :=
  fn <- theFunction F ;;
  if bool_decide (fn_name fn = "") || startswith (fn_name fn) "llvm." then
    ret None
  else
    DIFunction <-
      match fn_subprogram fn with
      | Some sp => ret (Some sp)
      | None =>
          returnTy <- getDebugType (fn_returnType fn) ;;
          argTys <- mapM (fn_paramTypes fn) getDebugType ;;
          let paramTys := returnTy :: argTys in
          DIFunctionTy <- DIBuilder_call (DISubroutineType paramTys) ;;
          DIFunction <-
            DIBuilder_call
              (DISubprogram scope (fn_name fn) "" file lineNo DIFunctionTy
                 false true lineNo FlagPrototyped true) ;;
          cassert (bool_decide (is_Some DIFunction)) "DIFunction" ;;;
          modify (set_llmodule
                    (set_functions (alter (setSubprogram DIFunction) F))) ;;;
          ret DIFunction
      end ;;
    sp <- getSubprogram F ;;
    cassert (bool_decide (sp = DIFunction))
      "Function has been assigned wrong debug information" ;;;
    ret DIFunction.

(** ** [LLVMIRGen::generateFunctionDebugInfo] *)

(** The loop of lines 114-122: instructions of a function with a
    subprogram that have no location get line 0 in its scope. *)
Definition fillDebugLoc (scope : option MDRef) (I : llvm_Instruction)
  : llvm_Instruction :=
  match i_debugLoc I with
  | Some _ => I
  | None => setDebugLoc (Some (DILocation_get 0 0 scope)) I
  end.

Definition fillDebugLocs (scope : option MDRef) (fn : llvm_Function)
  : llvm_Function :=
  set_blocks
    (map (fun BB =>
            match scope with
            | None => BB
            | Some _ => map (fillDebugLoc scope) BB
            end)) fn.

(** The body of the loop over the parameters (lines 87-107). *)
Definition shadowArgument (F : FuncRef) (fn : llvm_Function)
  (builder : IRBuilder) (currentScope file : option MDRef) (lineNo : Z)
  (i : nat) : Gen unit :=
  paramTy <- deref (fn_paramTypes fn !! i) ;;
  paramAlloca <- CreateAlloca builder paramTy ;;
  let paramName := "arg" +:+ to_string (N.of_nat (i + 1)) in
  paramDITy <- getDebugType paramTy ;;
  param <-
    DIBuilder_call
      (DILocalVariable currentScope paramName (Z.of_nat (i + 1)) file
         lineNo paramDITy true) ;;
  store <- CreateStore builder (VArg F i) (VInst paramAlloca) ;;
  expr <- DIBuilder_call (DIExpression []) ;;
  insertDeclare F O (VInst paramAlloca) param expr
    (DebugLoc_get lineNo 0 currentScope) store.

Definition generateFunctionDebugInfo (F : FuncRef) : Gen unit :=
  flag <- gets emitDebugInfo ;;
  if negb flag then ret tt
  else
    mainFile <- gets (fun g => mainFile_ (dbgInfo_ g)) ;;
    DIFunction <- getOrCreateFunctionDebugInfo F mainFile mainFile 0 ;;
    let lineNo := 0 in
    let file := mainFile in
    let currentScope := DIFunction in
    fn <- theFunction F ;;
    entry <- deref (head (fn_blocks fn)) ;;
    let builder :=
      {| b_insertPoint := Some (F, O, i_id <$> head entry);
         b_currentDebugLoc := None |} in
    forM_ (seq 0 (length (fn_paramTypes fn)))
      (shadowArgument F fn builder currentScope file lineNo) ;;;
    sp <- getSubprogram F ;;
    b <- gets DIBuilder_ ;;
    b <- deref b ;;
    modify (set_DIBuilder
              (fun _ => Some (DIBuilder_finalizeSubprogram sp b))) ;;;
    let scope := sp in
    modify (set_llmodule (set_functions (alter (fillDebugLocs scope) F))).

(** ** The name normalization of [LLVMIRGen::initDebugInfo] *)

Definition isalpha (c : ascii) : bool :=
  let n := N_of_ascii c in
  ((65 <=? n) && (n <=? 90) || (97 <=? n) && (n <=? 122))%N.

Definition isdigit (c : ascii) : bool :=
  let n := N_of_ascii c in
  ((48 <=? n) && (n <=? 57))%N.

Definition underscore : ascii := "_"%char.

(** The loop over the characters of the name: the new name, and whether a
    character changed. *)
Fixpoint normalizeChars (name : string) : string * bool :=
  match name with
  | EmptyString => (EmptyString, false)
  | String c rest =>
      let '(rest', changed) := normalizeChars rest in
      if negb (isalpha c) && negb (isdigit c)
         && negb (bool_decide (c = underscore))
      then (String underscore rest', true)
      else (String c rest', changed)
  end.

Definition normalizeName (v : Value) : Gen unit :=
  name <- gets (fun g => getName (F_ g) v) ;;
  let '(name', changed) := normalizeChars name in
  if changed then modify (set_F (setName v name')) else ret tt.

(** ** The scan for the first instruction's line *)

Definition newline : ascii := ascii_of_N 10.

(** The lines that successive calls of [getline] read from a stream over
    [s]. *)
Fixpoint getlines (s : string) : list string :=
  match s with
  | EmptyString => []
  | String c rest =>
      if bool_decide (c = newline) then EmptyString :: getlines rest
      else
        match getlines rest with
        | [] => [String c EmptyString]
        | l :: ls => String c l :: ls
        end
  end.

Definition isCodeLine (s : string) : bool :=
  bool_decide (String.substring 0 6 s = "code {").

(** The [while (getline(in, s))] loop of lines 255-262: what is stored
    into [mainFileFirstInstrLineNo_], if anything. *)
Fixpoint findFirstInstrLineNo (ls : list string) (lineNo : Z) : option Z :=
  match ls with
  | [] => None
  | s :: ls' =>
      let lineNo := to_size_t (lineNo + 1) in
      if isCodeLine s then Some (to_size_t (lineNo + 1))
      else findFirstInstrLineNo ls' lineNo
  end.

Definition set_mainFileFirstInstrLineNo (n : Z) (d : DebugInfo) : DebugInfo :=
  {| mainFile_ := mainFile_ d; mainF_ := mainF_ d;
     mainFileFirstInstrLineNo_ := n;
     compilationUnit_ := compilationUnit_ d; DITypes_ := DITypes_ d;
     constWeightsBaseAddressGV_ := constWeightsBaseAddressGV_ d;
     mutableWeightsBaseAddressGV_ := mutableWeightsBaseAddressGV_ d;
     activationsBaseAddressGV_ := activationsBaseAddressGV_ d |}.

(** Lines 252-264. *)
Definition scanForFirstInstr (irContent : string) : Gen unit :=
  match findFirstInstrLineNo (getlines irContent) 0 with
  | Some n => modify (set_dbgInfo (set_mainFileFirstInstrLineNo n))
  | None => ret tt
  end ;;;
  first <- gets (fun g => mainFileFirstInstrLineNo_ (dbgInfo_ g)) ;;
  cassert (negb (first =? 0))
    "No IR code was found in the textual IR representation".

Definition set_mainFile (r : option MDRef) (d : DebugInfo) : DebugInfo :=
  {| mainFile_ := r; mainF_ := mainF_ d;
     mainFileFirstInstrLineNo_ := mainFileFirstInstrLineNo_ d;
     compilationUnit_ := compilationUnit_ d; DITypes_ := DITypes_ d;
     constWeightsBaseAddressGV_ := constWeightsBaseAddressGV_ d;
     mutableWeightsBaseAddressGV_ := mutableWeightsBaseAddressGV_ d;
     activationsBaseAddressGV_ := activationsBaseAddressGV_ d |}.

Definition set_mainF (r : option MDRef) (d : DebugInfo) : DebugInfo :=
  {| mainFile_ := mainFile_ d; mainF_ := r;
     mainFileFirstInstrLineNo_ := mainFileFirstInstrLineNo_ d;
     compilationUnit_ := compilationUnit_ d; DITypes_ := DITypes_ d;
     constWeightsBaseAddressGV_ := constWeightsBaseAddressGV_ d;
     mutableWeightsBaseAddressGV_ := mutableWeightsBaseAddressGV_ d;
     activationsBaseAddressGV_ := activationsBaseAddressGV_ d |}.

Definition set_compilationUnit (r : option MDRef) (d : DebugInfo)
  : DebugInfo :=
  {| mainFile_ := mainFile_ d; mainF_ := mainF_ d;
     mainFileFirstInstrLineNo_ := mainFileFirstInstrLineNo_ d;
     compilationUnit_ := r; DITypes_ := DITypes_ d;
     constWeightsBaseAddressGV_ := constWeightsBaseAddressGV_ d;
     mutableWeightsBaseAddressGV_ := mutableWeightsBaseAddressGV_ d;
     activationsBaseAddressGV_ := activationsBaseAddressGV_ d |}.

Definition set_baseAddressGVs (c m a : option GVRef) (d : DebugInfo)
  : DebugInfo :=
  {| mainFile_ := mainFile_ d; mainF_ := mainF_ d;
     mainFileFirstInstrLineNo_ := mainFileFirstInstrLineNo_ d;
     compilationUnit_ := compilationUnit_ d; DITypes_ := DITypes_ d;
     constWeightsBaseAddressGV_ := c;
     mutableWeightsBaseAddressGV_ := m;
     activationsBaseAddressGV_ := a |}.

Definition Int8PtrTy : Ty := PointerTy (IntegerTy 8).

(** [new llvm::GlobalVariable(module, ty, false, InternalLinkage, nullptr,
    name)]. *)
Definition newGlobalVariable (ty : Ty) (name : string) : Gen GVRef :=
  r <- gets (fun g => length (m_globals (llmodule_ g))) ;;
  modify (set_llmodule (set_globals (fun gs =>
    gs ++ [{| gv_name := name; gv_type := ty; gv_isConstant := false;
              gv_internal := true; gv_initializer := None;
              gv_debugInfo := [] |}]))) ;;;
  ret r.

(** A call of a method of the global variable [gv] points to. *)
Definition GlobalVariable_call (gv : option GVRef)
  (f : llvm_GlobalVariable -> llvm_GlobalVariable) : Gen unit :=
  r <- deref gv ;;
  modify (set_llmodule (set_globals (alter f r))).

(** [cast<WeightVar>(v)]. *)
Definition cast_WeightVar (v : Value) : Gen Value :=
  cassert (isWeightVar v) "cast<WeightVar>() argument of incompatible type" ;;;
  ret v.

(** The address program of a logical global variable (lines 325-335). *)
Definition addressOps (offset : Z) : list Z :=
  [DW_OP_deref; DW_OP_constu; offset; DW_OP_plus].

(** The DWARF stack machine on the three operations of [addressOps], over
    64-bit addresses; [mem] is the memory of the debugged process. *)
Fixpoint evalDwarf (mem : Z -> option Z) (ops : list Z) (stack : list Z)
  : option Z :=
  match ops with
  | [] => head stack
  | op :: ops' =>
      if decide (op = DW_OP_deref) then
        match stack with
        | a :: stack' =>
            match mem a with
            | Some v => evalDwarf mem ops' (v :: stack')
            | None => None
            end
        | [] => None
        end
      else if decide (op = DW_OP_constu) then
        match ops' with
        | c :: ops'' => evalDwarf mem ops'' (c :: stack)
        | [] => None
        end
      else if decide (op = DW_OP_plus) then
        match stack with
        | a :: b :: stack' => evalDwarf mem ops' (to_uint64 (b + a) :: stack')
        | _ => None
        end
      else None
  end.

Section Backend.

(** What the file calls and this repository defines elsewhere. *)

(** [IRFunction::dump], as the text it writes. *)
Variable dump : IRFunction -> string.
(** [LLVMIRGen::getElementType(builder, val)]. *)
Variable getElementType : Value -> Ty.
(** [Type::getSizeInBytes]. *)
Variable getSizeInBytes : Type_ -> Z.
(** The enumerator of [AllocationsInfo::ValueKind] numbered 0: what
    [valueNumbers_[val]] holds for a value the planner did not number. *)
Variable ValueKind_zero : ValueKind.

(** What the file calls of LLVM and the host. *)

(** [llvm::sys::fs::make_absolute]; [None] is an error code. *)
Variable make_absolute : string -> option string.
(** Whether [raw_fd_ostream] opens the path without an error code. *)
Variable canOpen : string -> bool.
(** [llvm::verifyModule]: whether the module is broken, and whether its
    debug information is. *)
Variable verifyModule : llvm_Module -> list DINode -> bool * bool.

(** ** [LLVMIRGen::initDebugInfo] *)

(** The call of [createCompileUnit] has ten arguments.  The parameters of
    [DIBuilder::createCompileUnit] behind [Kind] are [DWOId],
    [SplitDebugInlining] and [DebugInfoForProfiling]: the two [true] that
    end the call are the [DWOId], converted to 1, and
    [SplitDebugInlining]; [DebugInfoForProfiling] keeps its default
    [false]. *)
Definition initDebugInfo : Gen unit :=
  flag <- gets emitDebugInfo ;;
  if negb flag then ret tt
  else
    modify (set_llmodule
              (addModuleFlag "Debug Info Version" DEBUG_METADATA_VERSION)) ;;;
    modify (set_llmodule (addModuleFlag "Dwarf Version" 4)) ;;;
    main <- gets (fun g => Module_getFunction "main" (llmodule_ g)) ;;
    cw <- newGlobalVariable Int8PtrTy "constWeightsBaseAddress" ;;
    mw <- newGlobalVariable Int8PtrTy "mutableWeightsBaseAddress" ;;
    ac <- newGlobalVariable Int8PtrTy "activationsBaseAddress" ;;
    modify (set_dbgInfo (set_baseAddressGVs (Some cw) (Some mw) (Some ac))) ;;;
    GlobalVariable_call (Some cw) (setInitializer (Some (VNullPtr Int8PtrTy))) ;;;
    GlobalVariable_call (Some mw) (setInitializer (Some (VNullPtr Int8PtrTy))) ;;;
    GlobalVariable_call (Some ac) (setInitializer (Some (VNullPtr Int8PtrTy))) ;;;
    builder <- gets builder_ ;;
    mainFn <- deref main ;;
    arg0 <- Function_arg mainFn 0 ;;
    _ <- CreateStore builder arg0 (VGlobal cw) ;;
    arg1 <- Function_arg mainFn 1 ;;
    _ <- CreateStore builder arg1 (VGlobal mw) ;;
    arg2 <- Function_arg mainFn 2 ;;
    _ <- CreateStore builder arg2 (VGlobal ac) ;;
    modify (set_DIBuilder (fun _ => Some DIBuilder_new)) ;;;
    weights <- gets (fun g => ir_weights (F_ g)) ;;
    forM_ weights (fun v => w <- cast_WeightVar v ;; normalizeName w) ;;;
    instrs <- gets (fun g => ir_instrs (F_ g)) ;;
    forM_ instrs (fun I =>
      if negb (isAllocActivationInst I) && negb (isTensorViewInst I)
      then ret tt
      else normalizeName I) ;;;
    irContent <- gets (fun g => dump (F_ g)) ;;
    entryName <- gets mainEntryName ;;
    let irfileName := entryName +:+ ".glow" in
    dir <- gets outputDir ;;
    cassert (bool_decide (is_Some (make_absolute dir)))
      "Could not create absolute path for a file" ;;;
    let path := default dir (make_absolute dir) in
    let irfileFullPath := path +:+ "/" +:+ irfileName in
    cassert (canOpen irfileFullPath) "Error opening output file" ;;;
    modify (set_files (fun fs => <[irfileFullPath := irContent]> fs)) ;;;
    scanForFirstInstr irContent ;;;
    mainFile <- DIBuilder_call (DIFile irfileName path) ;;
    modify (set_dbgInfo (set_mainFile mainFile)) ;;;
    cu <-
      DIBuilder_call
        (DICompileUnit DW_LANG_C mainFile "Glow Compiler" false "" 0 ""
           FullDebug (Z.b2z true) true false) ;;
    modify (set_dbgInfo (set_compilationUnit cu)) ;;;
    mainF <-
      match main with
      | Some mainFn => getOrCreateFunctionDebugInfo mainFn mainFile mainFile 0
      | None => ret None
      end ;;
    modify (set_dbgInfo (set_mainF mainF)).

(** ** [LLVMIRGen::emitDebugGlobalVariableForValue] *)

(** [valueNumbers_[val]]: a missing key is inserted with the zero value. *)
Definition valueNumbers_at (val : Value) : Gen (ValueKind * Z) :=
  e <- gets (fun g => valueNumbers_ (allocationsInfo_ g) !! valueId val) ;;
  match e with
  | Some kn => ret kn
  | None =>
      modify (set_allocationsInfo (fun a =>
        {| valueNumbers_ :=
             <[valueId val := (ValueKind_zero, 0)]> (valueNumbers_ a);
           allocatedAddressed_ := allocatedAddressed_ a |})) ;;;
      ret (ValueKind_zero, 0)
  end.

Definition baseAddressGV (kind : ValueKind) (d : DebugInfo) : option GVRef :=
  match kind with
  | Activation => activationsBaseAddressGV_ d
  | ConstantWeight => constWeightsBaseAddressGV_ d
  | MutableWeight => mutableWeightsBaseAddressGV_ d
  end.

(** [DISubrange::get] takes the count as [int64_t]: each dimension, a
    [size_t], is converted. *)
Definition emitDebugGlobalVariableForValue (val : Value) : Gen unit :=
  name <- gets (fun g => getName (F_ g) val) ;;
  let val := getOrigin val in
  let ty := getType val in
  let dims := dims ty in
  dbgElemTy <- getDebugType (getElementType val) ;;
  let subranges := to_int64 <$> dims in
  dbgArrayTy <-
    DIBuilder_call
      (DIArrayType (to_uint64 (getSizeInBytes ty * 8)) sizeof_float dbgElemTy
         subranges) ;;
  kn <- valueNumbers_at val ;;
  baseAddress <- gets (fun g => baseAddressGV (fst kn) (dbgInfo_ g)) ;;
  addr <- gets (fun g => allocatedAddressed_ (allocationsInfo_ g) !! valueId val) ;;
  cassert (bool_decide (is_Some addr)) "The weight should be in the map" ;;;
  let offset := default 0 addr in
  let ops := addressOps offset in
  DIexpr <- DIBuilder_call (DIExpression ops) ;;
  cu <- gets (fun g => compilationUnit_ (dbgInfo_ g)) ;;
  mainFile <- gets (fun g => mainFile_ (dbgInfo_ g)) ;;
  DIgv <-
    DIBuilder_call
      (DIGlobalVariableExpression cu name "" mainFile 0 dbgArrayTy false
         DIexpr) ;;
  GlobalVariable_call baseAddress (addDebugInfo DIgv).

(** ** [LLVMIRGen::generateDebugInfo] *)

(** Lines 350-358. *)
Definition checkFunctionsHaveDebugInfo : Gen unit :=
  fns <- gets (fun g => m_functions (llmodule_ g)) ;;
  forM_ fns (fun fn =>
    if isDeclaration fn then ret tt
    else if bool_decide (is_Some (fn_subprogram fn)) then ret tt
    else
      abort (Unreachable
        "Expected all functions to have debug information at this point")).

(** Lines 373-380, for one instruction of a function named [fname] with
    subprogram [scope]. *)
Definition sweepInstruction (fname : string) (scope : option MDRef)
  (I : llvm_Instruction) : Gen llvm_Instruction :=
  nodes <- gets ctx_ ;;
  skip <-
    match i_debugLoc I with
    | Some loc =>
        _ <- deref (loc_scope loc) ;;
        ret (negb (bool_decide
                     (DIScope_getName nodes (loc_scope loc) = fname)))
    | None => ret false
    end ;;
  if (skip : bool) then ret I
  else ret (setDebugLoc (Some (DILocation_get 0 0 scope)) I).

(** Lines 365-382. *)
Definition sweepFunction (fn : llvm_Function) : Gen llvm_Function :=
  if isDeclaration fn then ret fn
  else
    let scope := fn_subprogram fn in
    match scope with
    | None => ret fn
    | Some _ =>
        blocks <-
          mapM (fn_blocks fn) (fun BB =>
            mapM BB (sweepInstruction (fn_name fn) scope)) ;;
        ret (set_blocks (fun _ => blocks) fn)
    end.

Definition sweepModule : Gen unit :=
  fns <- gets (fun g => m_functions (llmodule_ g)) ;;
  fns' <- mapM fns sweepFunction ;;
  modify (set_llmodule (set_functions (fun _ => fns'))).

(** Lines 386-395. *)
Definition emitDebugGlobalVariables : Gen unit :=
  weights <- gets (fun g => ir_weights (F_ g)) ;;
  forM_ weights (fun v =>
    w <- cast_WeightVar v ;; emitDebugGlobalVariableForValue w) ;;;
  instrs <- gets (fun g => ir_instrs (F_ g)) ;;
  forM_ instrs (fun I =>
    if negb (isAllocActivationInst I) && negb (isTensorViewInst I)
    then ret tt
    else emitDebugGlobalVariableForValue I).

Definition generateDebugInfo : Gen unit :=
  flag <- gets emitDebugInfo ;;
  if negb flag then ret tt
  else
    checkFunctionsHaveDebugInfo ;;;
    sweepModule ;;;
    emitDebugGlobalVariables ;;;
    b <- gets DIBuilder_ ;;
    b <- deref b ;;
    modify (set_DIBuilder (fun _ => Some (DIBuilder_finalize b))) ;;;
    v <- gets (fun g => verifyModule (llmodule_ g) (ctx_ g)) ;;
    cassert (negb (fst v)) "LLVM module verification error" ;;;
    cassert (negb (snd v)) "Debug information is broken".

(** ** The calls the code generator makes *)

Definition set_builder (f : IRBuilder -> IRBuilder) (g : LLVMIRGen)
  : LLVMIRGen :=
  {| emitDebugInfo := emitDebugInfo g; ctx_ := ctx_ g; F_ := F_ g;
     allocationsInfo_ := allocationsInfo_ g;
     instrNumbering_ := instrNumbering_ g; llmodule_ := llmodule_ g;
     builder_ := f (builder_ g); DIBuilder_ := DIBuilder_ g;
     dbgInfo_ := dbgInfo_ g; mainEntryName := mainEntryName g;
     outputDir := outputDir g; files := files g |}.

(** The entry points of the file, as the code generator calls them;
    [setCurrentDebugLocation] is called on the generator's builder. *)
Inductive Call :=
| CallInitDebugInfo
| CallGenerateFunctionDebugInfo (F : FuncRef)
| CallSetCurrentDebugLocation (I : Value)
| CallGenerateDebugInfo.

Definition runCall (c : Call) : Gen unit :=
  match c with
  | CallInitDebugInfo => initDebugInfo
  | CallGenerateFunctionDebugInfo F => generateFunctionDebugInfo F
  | CallSetCurrentDebugLocation instr =>
      modify (fun g =>
        set_builder (fun b => setCurrentDebugLocation g b instr) g)
  | CallGenerateDebugInfo => generateDebugInfo
  end.

Definition runCalls (cs : list Call) : Gen unit := forM_ cs runCall.

(** ** What the specification says of the scan *)

(** The number of the first line exactly equal to the marker, lines
    counted from [lineNo + 1]. *)
Fixpoint spec_markerLine (ls : list string) (lineNo : Z) : option Z :=
  match ls with
  | [] => None
  | s :: ls' =>
      if bool_decide (s = "code {") then Some (lineNo + 1)
      else spec_markerLine ls' (lineNo + 1)
  end.

(** The first instruction's line as the specification gives it: the
    marker's line plus one; [None] where it demands a fatal failure. *)
Definition spec_firstInstructionLine (irContent : string) : option Z :=
  (fun n => n + 1) <$> spec_markerLine (getlines irContent) 0.

(** ** Example inputs *)

Definition LF : string := String newline EmptyString.

(** A code generator before any method of the file has run. *)
Definition emptyModule : llvm_Module :=
  {| m_flags := []; m_globals := []; m_functions := []; m_nextInst := O |}.

Definition emptyIR : IRFunction :=
  {| ir_weights := []; ir_instrs := []; ir_names := ∅ |}.

Definition newLLVMIRGen (flag : bool) (F : IRFunction) (a : AllocationsInfo)
  (m : llvm_Module) : LLVMIRGen :=
  {| emitDebugInfo := flag; ctx_ := []; F_ := F; allocationsInfo_ := a;
     instrNumbering_ := InstructionNumbering_new F; llmodule_ := m;
     builder_ := {| b_insertPoint := None; b_currentDebugLoc := None |};
     DIBuilder_ := None; dbgInfo_ := DebugInfo_new;
     mainEntryName := "main"; outputDir := "/out"; files := ∅ |}.

Definition noAllocations : AllocationsInfo :=
  {| valueNumbers_ := ∅; allocatedAddressed_ := ∅ |}.

(** A dump whose body opens with a remark behind the brace, and one that
    holds the marker line after such a line. *)
Definition dump_remark : string :=
  "function main" +:+ LF +:+ "code { // body" +:+ LF +:+ "}" +:+ LF.

Definition dump_two_markers : string :=
  "code { // body" +:+ LF +:+ "code {" +:+ LF +:+ "}" +:+ LF.

Definition dump_plain : string :=
  "function main" +:+ LF +:+ "code {" +:+ LF +:+ "  %1 = copy" +:+ LF
  +:+ "}" +:+ LF.

(** ** The closed set of supported types *)

(** The types [getDebugType] has a case for: all but [OtherTy], behind any
    number of pointers. *)
Fixpoint supported (ty : Ty) : bool :=
  match ty with
  | OtherTy _ => false
  | PointerTy e => supported e
  | _ => true
  end.

(** A type with the types it points to, directly or not: what a call of
    [getDebugType] requests of the cache. *)
Fixpoint subtypes (ty : Ty) : gset Ty :=
  match ty with
  | PointerTy e => {[ty]} ∪ subtypes e
  | _ => {[ty]}
  end.

Definition subtypes_list (tys : list Ty) : gset Ty :=
  ⋃ (subtypes <$> tys).

(** A cache that holds a pointer type holds its pointee. *)
Definition cache_closed (m : gmap Ty (option MDRef)) : Prop :=
  forall e, is_Some (m !! PointerTy e) -> is_Some (m !! e).

(** The state [g] with other metadata nodes and another type cache. *)
Definition with_types (nodes : list DINode) (m : gmap Ty (option MDRef))
  (g : LLVMIRGen) : LLVMIRGen :=
  set_dbgInfo (set_DITypes (fun _ => m)) (set_ctx (fun _ => nodes) g).

(** An entry function of five instructions, located with its dump's
    marker on line 10. *)
Definition tensor_2x3 : Type_ := {| elemKind := 0%N; dims := [2; 3] |}.

Definition fiveInstrs : IRFunction :=
  {| ir_weights := [];
     ir_instrs :=
       [AllocActivationInst 1%positive tensor_2x3; OtherInst 2%positive 1;
        TensorViewInst 3%positive tensor_2x3
          (AllocActivationInst 1%positive tensor_2x3);
        OtherInst 4%positive 2; OtherInst 5%positive 3];
     ir_names := ∅ |}.

Definition locating : LLVMIRGen :=
  set_dbgInfo (set_mainF (Some 5%nat))
    (set_dbgInfo (set_mainFileFirstInstrLineNo 11)
       (newLLVMIRGen true fiveInstrs noAllocations emptyModule)).

(** A module whose function [main] has a subprogram of that name, one
    instruction located on line 11 of it and one without a location. *)
Definition located_main : llvm_Function :=
  {| fn_name := "main"; fn_returnType := VoidTy; fn_paramTypes := [];
     fn_subprogram := Some O;
     fn_blocks :=
       [[{| i_id := O; i_op := OtherOp 1;
            i_debugLoc := Some (DILocation_get 11 0 (Some O)) |};
         {| i_id := 1%nat; i_op := OtherOp 2; i_debugLoc := None |}]] |}.

Definition swept : LLVMIRGen :=
  set_ctx (fun _ =>
    [DISubprogram None "main" "" None 0 None false true 0 FlagPrototyped
       true])
    (newLLVMIRGen true emptyIR noAllocations
       {| m_flags := []; m_globals := []; m_functions := [located_main];
          m_nextInst := 2%nat |}).

(** The types a cache [m'] holds and [m] does not, [void] apart: those a
    node was created for. *)
Definition newTypes (m m' : gmap Ty (option MDRef)) : gset Ty :=
  (dom m' ∖ dom m) ∖ {[VoidTy]}.

(** ** What the properties are stated with *)

(** A character of an identifier: a letter, a digit or an underscore. *)
Definition isIdentChar (c : ascii) : bool :=
  isalpha c || isdigit c || bool_decide (c = underscore).


(** The records attached to the globals of a module, in the order of the
    globals. *)
Definition debugRecords (m : llvm_Module) : list (option MDRef) :=
  concat (gv_debugInfo <$> m_globals m).


Definition isAllocOrView (v : Value) : bool :=
  isAllocActivationInst v || isTensorViewInst v.

(** The values [generateDebugInfo] passes to the emitter: the weights,
    then the activations and the tensor views among the instructions. *)
Definition emittedValues (F : IRFunction) : list Value :=
  ir_weights F ++ List.filter isAllocOrView (ir_instrs F).

Definition isSubprogram (n : DINode) : bool :=
  match n with
  | DISubprogram _ _ _ _ _ _ _ _ _ _ _ => true
  | _ => false
  end.

(** The subprogram nodes of the context. *)
Definition subprograms (nodes : list DINode) : list DINode :=
  List.filter isSubprogram nodes.

(** The names [getOrCreateFunctionDebugInfo] makes no subprogram for. *)
Definition isInternalName (name : string) : bool :=
  bool_decide (name = "") || startswith name "llvm.".

(** The instructions [generateFunctionDebugInfo] puts in front of the
    entry block for the parameters of types [tys], numbered from [j], when
    the next fresh instruction is [id]: for each parameter a stack slot,
    the declaration of its variable ([vars] gives the variable and the
    expression of each), and the store of the incoming argument into the
    slot. *)
Fixpoint shadowArgs (F : FuncRef) (scope : option MDRef) (j : nat)
  (id : InstId) (tys : list Ty) (vars : list (option MDRef * option MDRef))
  : list llvm_Instruction :=
  match tys, vars with
  | ty :: tys', (var, expr) :: vars' =>
      {| i_id := id; i_op := Alloca ty; i_debugLoc := None |}
      :: {| i_id := S (S id);
            i_op := DbgDeclare (VInst id) var expr;
            i_debugLoc := DebugLoc_get 0 0 scope |}
      :: {| i_id := S id; i_op := Store (VArg F j) (VInst id);
            i_debugLoc := None |}
      :: shadowArgs F scope (S j) (3 + id)%nat tys' vars'
  | _, _ => []
  end.

Definition isAlloca (I : llvm_Instruction) : bool :=
  match i_op I with Alloca _ => true | _ => false end.

(** The state after [k] rounds of the loop: the shadows of the first [k]
    parameters stand in front of the entry block, and the variable of
    parameter [j] is named [arg] with [j + 1]. *)
Definition shadowInv (F : FuncRef) (b : DIBuilder) (fn : llvm_Function)
  (entry : list llvm_Instruction) (rest : list (list llvm_Instruction))
  (sp : MDRef) (file : option MDRef) (n0 : InstId) (k : nat)
  (vars : list (option MDRef * option MDRef)) (g : LLVMIRGen) : Prop :=
  DIBuilder_ g = Some b
  /\ m_nextInst (llmodule_ g) = (3 * k + n0)%nat
  /\ m_functions (llmodule_ g) !! F
     = Some (set_blocks (fun _ =>
               (shadowArgs F (Some sp) 0 n0 (take k (fn_paramTypes fn)) vars
                ++ entry) :: rest) fn)
  /\ length vars = k
  /\ (forall j var expr,
        vars !! j = Some (var, expr) ->
        exists hv dty,
          var = Some hv
          /\ ctx_ g !! hv
             = Some (DILocalVariable (Some sp)
                       ("arg" +:+ to_string (N.of_nat (j + 1)))
                       (Z.of_nat (j + 1)) file 0 dty true)).

(** The parts of the backend defined elsewhere, as the examples take
    them. *)
Definition example_dump (F : IRFunction) : string := dump_plain.

Definition example_getElementType (v : Value) : Ty := FloatTy.

Definition example_getSizeInBytes (ty : Type_) : Z :=
  4 * fold_right Z.mul 1 (dims ty).

Definition example_make_absolute (path : string) : option string := Some path.

Definition example_canOpen (path : string) : bool := true.

Definition example_verifyModule (m : llvm_Module) (nodes : list DINode)
  : bool * bool := (false, false).

(** An activation and a view of it, the activation at offset 64 of the
    activations area; the three base-address globals and the [DIBuilder]
    are in place, as [initDebugInfo] leaves them. *)
Definition example_act : Value := AllocActivationInst 1%positive tensor_2x3.

Definition example_view : Value :=
  TensorViewInst 2%positive {| elemKind := 0%N; dims := [6] |} example_act.

Definition act_and_view : IRFunction :=
  {| ir_weights := [];
     ir_instrs := [example_act; example_view];
     ir_names := <[1%positive := "act"]> (<[2%positive := "view"]> ∅) |}.

Definition baseAddressGlobal (name : string) : llvm_GlobalVariable :=
  {| gv_name := name; gv_type := Int8PtrTy; gv_isConstant := false;
     gv_internal := true; gv_initializer := Some (VNullPtr Int8PtrTy);
     gv_debugInfo := [] |}.

Definition emitting : LLVMIRGen :=
  set_DIBuilder (fun _ => Some DIBuilder_new)
    (set_dbgInfo (set_baseAddressGVs (Some O) (Some 1%nat) (Some 2%nat))
       (newLLVMIRGen true act_and_view
          {| valueNumbers_ := {[1%positive := (Activation, 0)]};
             allocatedAddressed_ := {[1%positive := 64]} |}
          {| m_flags := [];
             m_globals :=
               [baseAddressGlobal "constWeightsBaseAddress";
                baseAddressGlobal "mutableWeightsBaseAddress";
                baseAddressGlobal "activationsBaseAddress"];
             m_functions := []; m_nextInst := O |})).

(** The state a run leaves, if it returns. *)
Definition stateAfter {A} (r : Res (A * LLVMIRGen)) : option LLVMIRGen :=
  match r with
  | Ok (_, g) => Some g
  | Abort _ => None
  end.


(** A module whose [main] takes the three base addresses, before any
    debug information is made for it; the [DIBuilder] is in place. *)
Definition main_of_three_pointers : llvm_Function :=
  {| fn_name := "main"; fn_returnType := VoidTy;
     fn_paramTypes := [Int8PtrTy; Int8PtrTy; Int8PtrTy];
     fn_subprogram := None;
     fn_blocks :=
       [[{| i_id := O; i_op := OtherOp 1; i_debugLoc := None |}]] |}.

Definition describing : LLVMIRGen :=
  set_DIBuilder (fun _ => Some DIBuilder_new)
    (newLLVMIRGen true emptyIR noAllocations
       {| m_flags := []; m_globals := [];
          m_functions := [main_of_three_pointers]; m_nextInst := 1%nat |}).

(** The parameter variables and the entry block of [main] after the
    call. *)
Definition parameterVariables (nodes : list DINode) : list (string * Z) :=
  omap (fun n =>
          match n with
          | DILocalVariable _ name argNo _ _ _ _ => Some (name, argNo)
          | _ => None
          end) nodes.

Definition entryBlockOf (F : FuncRef) (g : LLVMIRGen) : list Opcode :=
  match m_functions (llmodule_ g) !! F with
  | Some fn => i_op <$> default [] (head (fn_blocks fn))
  | None => []
  end.

(** * Properties *)

(** ** The monad *)

Lemma bind_Ok {S A B} (c : M S A) (k : A -> M S B) st a st' :
  c st = Ok (a, st') -> bind c k st = k a st'.
Proof. intros H. unfold bind. by rewrite H. Qed.

Lemma bind_inv {S A B} (c : M S A) (k : A -> M S B) st r :
  bind c k st = Ok r ->
  exists a st', c st = Ok (a, st') /\ k a st' = Ok r.
Proof.
  unfold bind. destruct (c st) as [[a st']|e]; [eauto | discriminate].
Qed.

(** ** Name normalization *)

Lemma isIdentChar_underscore : isIdentChar underscore = true.
Proof. reflexivity. Qed.

Lemma normalizeChars_length s :
  String.length (normalizeChars s).1 = String.length s.
Proof.
  induction s as [|c s IH]; simpl; [done|].
  destruct (normalizeChars s) as [r ch]; simpl in *.
  destruct (negb (isalpha c) && negb (isdigit c)
            && negb (bool_decide (c = underscore))); simpl; by rewrite IH.
Qed.

Lemma normalizeChars_valid s :
  Forall (fun c => isIdentChar c = true)
    (String.list_ascii_of_string (normalizeChars s).1).
Proof.
  induction s as [|c s IH]; simpl; [constructor|].
  destruct (normalizeChars s) as [r ch]; simpl in *.
  destruct (negb (isalpha c) && negb (isdigit c)
            && negb (bool_decide (c = underscore))) eqn:E; simpl.
  - constructor; [apply isIdentChar_underscore | done].
  - constructor; [|done]. unfold isIdentChar.
    destruct (isalpha c), (isdigit c), (bool_decide (c = underscore));
      simpl in *; congruence.
Qed.

Lemma normalizeChars_unchanged s :
  (normalizeChars s).2 = false -> (normalizeChars s).1 = s.
Proof.
  induction s as [|c s IH]; simpl; [done|].
  destruct (normalizeChars s) as [r ch]; simpl in *.
  destruct (negb (isalpha c) && negb (isdigit c)
            && negb (bool_decide (c = underscore))); simpl; [done|].
  intros ->. by rewrite IH.
Qed.

Lemma normalizeChars_fixpoint s :
  Forall (fun c => isIdentChar c = true) (String.list_ascii_of_string s) ->
  normalizeChars s = (s, false).
Proof.
  induction s as [|c s IH]; simpl; [done|].
  intros H. apply Forall_cons in H as [Hc Hs]. rewrite (IH Hs).
  unfold isIdentChar in Hc.
  destruct (isalpha c), (isdigit c), (bool_decide (c = underscore));
    simpl in *; congruence.
Qed.

Lemma normalizeChars_idempotent s :
  normalizeChars (normalizeChars s).1 = ((normalizeChars s).1, false).
Proof. apply normalizeChars_fixpoint, normalizeChars_valid. Qed.

Lemma getName_setName F v name : getName (setName v name F) v = name.
Proof. unfold getName, setName; simpl. by rewrite lookup_insert_eq. Qed.

(** C6. Name normalization is total, idempotent and length-preserving: on
    every value and in every state [normalizeName] returns; the name it
    leaves has the length of the name it found and consists of letters,
    digits and underscores only; and a second application changes
    nothing. *)
Theorem normalizeName_total_idempotent (v : Value) (g : LLVMIRGen) :
  exists g',
    normalizeName v g = Ok (tt, g')
    /\ String.length (getName (F_ g') v) = String.length (getName (F_ g) v)
    /\ Forall (fun c => isIdentChar c = true)
         (String.list_ascii_of_string (getName (F_ g') v))
    /\ getName (F_ g') v = (normalizeChars (getName (F_ g) v)).1
    /\ normalizeName v g' = Ok (tt, g').
Proof.
  pose proof (normalizeChars_length (getName (F_ g) v)) as Hlen.
  pose proof (normalizeChars_valid (getName (F_ g) v)) as Hval.
  pose proof (normalizeChars_unchanged (getName (F_ g) v)) as Hsame.
  pose proof (normalizeChars_idempotent (getName (F_ g) v)) as Hidem.
  unfold normalizeName at 1, bind, gets.
  destruct (normalizeChars (getName (F_ g) v)) as [name' changed] eqn:E;
    simpl in *.
  destruct changed.
  - eexists; split; [reflexivity|]. simpl.
    rewrite getName_setName. repeat split; try done.
    unfold normalizeName, bind, gets. simpl.
    rewrite getName_setName, Hidem. reflexivity.
  - exists g. rewrite (Hsame eq_refl) in *. repeat split; try done.
    unfold normalizeName, bind, gets. by rewrite E.
Qed.

(** ** The scan of the dump *)

Lemma to_size_t_small x : 0 <= x < 2 ^ 64 -> to_size_t x = x.
Proof. intros H. unfold to_size_t, wrap. by apply Z.mod_small. Qed.

Lemma findFirstInstrLineNo_found pre l post n :
  0 <= n ->
  n + Z.of_nat (length pre) + 2 < 2 ^ 64 ->
  Forall (fun s => String.substring 0 6 s <> "code {") pre ->
  String.substring 0 6 l = "code {" ->
  findFirstInstrLineNo (pre ++ l :: post) n
  = Some (n + Z.of_nat (length pre) + 2).
Proof.
  revert n. induction pre as [|s pre IH]; intros n Hn Hlt Hpre Hl.
  - simpl in *. unfold isCodeLine. rewrite bool_decide_eq_true_2 by done.
    rewrite (to_size_t_small (n + 1)) by lia.
    rewrite to_size_t_small by lia. f_equal. lia.
  - apply Forall_cons in Hpre as [Hs Hpre]. simpl length in Hlt.
    cbn [app findFirstInstrLineNo]. unfold isCodeLine at 1.
    rewrite bool_decide_eq_false_2 by done.
    rewrite (to_size_t_small (n + 1)) by lia.
    rewrite IH by (done || lia). f_equal. cbn [length]. lia.
Qed.

Lemma findFirstInstrLineNo_none ls n :
  Forall (fun s => String.substring 0 6 s <> "code {") ls ->
  findFirstInstrLineNo ls n = None.
Proof.
  revert n. induction ls as [|s ls IH]; intros n H; [done|].
  apply Forall_cons in H as [Hs Hls]. simpl. unfold isCodeLine.
  rewrite bool_decide_eq_false_2 by done. by apply IH.
Qed.

(** C2, as the code has it.  The first line of the dump whose first six
    characters are the marker "code {" (the line may go on after it)
    gives [mainFileFirstInstrLineNo_]: that line's number plus one.  If no
    line starts with the marker, the line number of the debug context
    stays as it was: the assertion aborts when that is zero, as it is in
    a new debug context, and the scan returns with the state unchanged
    when it is not. *)
Theorem scanForFirstInstr_first_marker_prefix
  (irContent : string) (g : LLVMIRGen) :
  Z.of_nat (length (getlines irContent)) + 2 < 2 ^ 64 ->
  (forall pre l post,
      getlines irContent = pre ++ l :: post ->
      Forall (fun s => String.substring 0 6 s <> "code {") pre ->
      String.substring 0 6 l = "code {" ->
      scanForFirstInstr irContent g
      = Ok (tt, set_dbgInfo
                  (set_mainFileFirstInstrLineNo
                     (Z.of_nat (length pre) + 1 + 1)) g))
  /\ (Forall (fun s => String.substring 0 6 s <> "code {")
        (getlines irContent) ->
      mainFileFirstInstrLineNo_ (dbgInfo_ g) = 0 ->
      scanForFirstInstr irContent g
      = Abort (AssertionFailed
                 "No IR code was found in the textual IR representation"))
  /\ (Forall (fun s => String.substring 0 6 s <> "code {")
        (getlines irContent) ->
      mainFileFirstInstrLineNo_ (dbgInfo_ g) <> 0 ->
      scanForFirstInstr irContent g = Ok (tt, g)).
Proof.
  intros Hlen. split_and!.
  - intros pre l post Hsplit Hpre Hl.
    unfold scanForFirstInstr. rewrite Hsplit in *.
    rewrite length_app in Hlen. simpl in Hlen.
    rewrite (findFirstInstrLineNo_found pre l post 0) by (done || lia).
    replace (0 + Z.of_nat (length pre) + 2)
      with (Z.of_nat (length pre) + 1 + 1) by lia.
    unfold bind, modify, gets. simpl.
    destruct (Z.eqb_spec (Z.of_nat (length pre) + 1 + 1) 0) as [E|E];
      [exfalso; lia|].
    reflexivity.
  - intros Hnone Hzero. unfold scanForFirstInstr.
    rewrite findFirstInstrLineNo_none by done.
    unfold bind, ret, gets. rewrite Hzero. reflexivity.
  - intros Hnone Hnz. unfold scanForFirstInstr.
    rewrite findFirstInstrLineNo_none by done.
    unfold bind, ret, gets, cassert.
    destruct (Z.eqb_spec (mainFileFirstInstrLineNo_ (dbgInfo_ g)) 0)
      as [E|E]; [done|reflexivity].
Qed.

(** C2 as stated fails on the code: a line that only starts with the
    marker is taken for it.  In [dump_two_markers] the marker is line 2,
    so the first instruction's line would be 3, and the scan stores 2;
    [dump_remark] has no marker line, and the scan stores 3 instead of
    aborting. *)
Lemma scanForFirstInstr_not_exact_match :
  spec_firstInstructionLine dump_two_markers = Some 3
  /\ scanForFirstInstr dump_two_markers
       (newLLVMIRGen true emptyIR noAllocations emptyModule)
     = Ok (tt, set_dbgInfo (set_mainFileFirstInstrLineNo 2)
                 (newLLVMIRGen true emptyIR noAllocations emptyModule))
  /\ spec_firstInstructionLine dump_remark = None
  /\ scanForFirstInstr dump_remark
       (newLLVMIRGen true emptyIR noAllocations emptyModule)
     = Ok (tt, set_dbgInfo (set_mainFileFirstInstrLineNo 3)
                 (newLLVMIRGen true emptyIR noAllocations emptyModule)).
Proof. repeat split; vm_compute; reflexivity. Qed.

(** ** The instruction locator *)

Lemma index_of_lookup (l : list ValueId) : forall (i : nat) x k,
  NoDup l -> l !! i = Some x -> index_of x l k = k + Z.of_nat i.
Proof.
  induction l as [|y l IH]; intros i x k Hnd Hi; [done|].
  apply NoDup_cons in Hnd as [Hy Hnd]. destruct i as [|i]; simpl in *.
  - simplify_eq. rewrite decide_True by done. lia.
  - rewrite decide_False.
    + rewrite (IH i x (k + 1)) by done. lia.
    + intros ->. apply Hy. by eapply list_elem_of_lookup_2.
Qed.

Lemma getInstrNumber_lookup (F : IRFunction) (i : nat) (instr : Value) :
  NoDup (valueId <$> ir_instrs F) ->
  ir_instrs F !! i = Some instr ->
  getInstrNumber (InstructionNumbering_new F) instr = Z.of_nat i.
Proof.
  intros Hnd Hi. unfold getInstrNumber, InstructionNumbering_new.
  rewrite (index_of_lookup _ i (valueId instr) 0); [lia | done |].
  by rewrite list_lookup_fmap, Hi.
Qed.

(** C1. With debug information switched on and the instructions of the
    entry function numbered [0..k-1] in their order, the location that
    [setCurrentDebugLocation] makes current for the [i]-th instruction has
    line [mainFileFirstInstrLineNo_ + i], column 0 and the scope
    [mainF_], the subprogram of the entry function; the line is an
    [unsigned], so the sum has to fit 32 bits. *)
Theorem setCurrentDebugLocation_line_column_scope
  (g : LLVMIRGen) (builder : IRBuilder) (instr : Value) (i : nat) :
  emitDebugInfo g = true ->
  instrNumbering_ g = InstructionNumbering_new (F_ g) ->
  NoDup (valueId <$> ir_instrs (F_ g)) ->
  ir_instrs (F_ g) !! i = Some instr ->
  0 <= mainFileFirstInstrLineNo_ (dbgInfo_ g) ->
  mainFileFirstInstrLineNo_ (dbgInfo_ g) + Z.of_nat i < 2 ^ 32 ->
  setCurrentDebugLocation g builder instr
  = {| b_insertPoint := b_insertPoint builder;
       b_currentDebugLoc :=
         Some {| loc_line :=
                   mainFileFirstInstrLineNo_ (dbgInfo_ g) + Z.of_nat i;
                 loc_column := 0;
                 loc_scope := mainF_ (dbgInfo_ g) |} |}.
Proof.
  intros Hflag Hnum Hnd Hi Hlo Hhi.
  unfold setCurrentDebugLocation. rewrite Hflag, Hnum. simpl.
  rewrite (getInstrNumber_lookup _ i) by done.
  unfold SetCurrentDebugLocation, DILocation_get. do 3 f_equal.
  unfold to_unsigned, to_size_t, wrap.
  rewrite (Z.mod_small _ (2 ^ 64)) by lia.
  apply Z.mod_small. lia.
Qed.

(** ** The sweep of [generateDebugInfo] *)

(** What the sweep does to one instruction of a function with a
    subprogram: an instruction without a location gets line 0 in the
    function's scope; one located in a scope of another name is kept; one
    located in a scope of the function's name is moved to line 0. *)
Lemma sweepInstruction_cases fname scope (instr : llvm_Instruction) g :
  sweepInstruction fname scope instr g
  = match i_debugLoc instr with
    | None => Ok (setDebugLoc (Some (DILocation_get 0 0 scope)) instr, g)
    | Some loc =>
        match loc_scope loc with
        | None => Abort NullDereference
        | Some _ =>
            if bool_decide (DIScope_getName (ctx_ g) (loc_scope loc) = fname)
            then Ok (setDebugLoc (Some (DILocation_get 0 0 scope)) instr, g)
            else Ok (instr, g)
        end
    end.
Proof.
  unfold sweepInstruction, bind, gets, ret, deref.
  destruct (i_debugLoc instr) as [[line col [s|]]|]; simpl; try done.
  by destruct (bool_decide _).
Qed.

(** C4 fails on the code.  In [swept] the first instruction of [main] is
    on line 11 of [main]'s own scope; the sweep of [generateDebugInfo]
    moves it to line 0, where the loop of [generateFunctionDebugInfo]
    over the same function keeps it. *)
Example sweepModule_overwrites_location :
  sweepModule swept
  = Ok (tt,
        set_llmodule (set_functions (fun _ =>
          [set_blocks (fun _ =>
             [[{| i_id := O; i_op := OtherOp 1;
                  i_debugLoc := Some (DILocation_get 0 0 (Some O)) |};
               {| i_id := 1%nat; i_op := OtherOp 2;
                  i_debugLoc := Some (DILocation_get 0 0 (Some O)) |}]])
             located_main])) swept)
  /\ fn_blocks (fillDebugLocs (Some O) located_main)
     = [[{| i_id := O; i_op := OtherOp 1;
            i_debugLoc := Some (DILocation_get 11 0 (Some O)) |};
         {| i_id := 1%nat; i_op := OtherOp 2;
            i_debugLoc := Some (DILocation_get 0 0 (Some O)) |}]].
Proof. split; vm_compute; reflexivity. Qed.

(** ** The activation flag *)

Lemma runCall_flag_off (c : Call) (g : LLVMIRGen) :
  emitDebugInfo g = false -> runCall c g = Ok (tt, g).
Proof.
  intros Hflag. destruct c as [|F|instr|]; simpl.
  - unfold initDebugInfo, bind, gets. by rewrite Hflag.
  - unfold generateFunctionDebugInfo, bind, gets. by rewrite Hflag.
  - unfold modify, setCurrentDebugLocation. rewrite Hflag. simpl.
    by destruct g as [? ? ? ? ? ? [] ? ? ? ? ?].
  - unfold generateDebugInfo, bind, gets. by rewrite Hflag.
Qed.

(** C9. With the flag off the subsystem is inert: each entry point of the
    file returns at once and leaves the code generator as it found it, so
    whatever sequence of them the code generator calls, the state (the
    metadata of the context, the module with its globals, flags and
    instructions, the files written, the names of the IR) is the one it
    started from. *)
Theorem flag_off_inert (cs : list Call) (g : LLVMIRGen) :
  emitDebugInfo g = false ->
  initDebugInfo g = Ok (tt, g)
  /\ (forall F, generateFunctionDebugInfo F g = Ok (tt, g))
  /\ (forall builder instr, setCurrentDebugLocation g builder instr = builder)
  /\ generateDebugInfo g = Ok (tt, g)
  /\ runCalls cs g = Ok (tt, g).
Proof.
  intros Hflag. split_and!.
  - apply (runCall_flag_off CallInitDebugInfo g Hflag).
  - intros F. apply (runCall_flag_off (CallGenerateFunctionDebugInfo F) g Hflag).
  - intros builder instr. unfold setCurrentDebugLocation. by rewrite Hflag.
  - apply (runCall_flag_off CallGenerateDebugInfo g Hflag).
  - unfold runCalls. induction cs as [|c cs IH]; simpl; [done|].
    unfold bind. by rewrite runCall_flag_off.
Qed.

(** ** The debug type cache *)

Ltac mstep :=
  unfold DIBuilder_call, bind, gets, deref, modify, ret, abort; simpl.

Lemma with_types_id g : with_types (ctx_ g) (DITypes_ (dbgInfo_ g)) g = g.
Proof. by destruct g as [? ? ? ? ? ? ? ? [] ? ? ?]. Qed.

Lemma getDebugType_cached ty g d :
  DITypes_ (dbgInfo_ g) !! ty = Some d -> getDebugType ty g = Ok (d, g).
Proof. intros H. destruct ty; simpl; unfold bind, gets; by rewrite H. Qed.

Lemma getDebugType_caches ty g d g' :
  getDebugType ty g = Ok (d, g') -> DITypes_ (dbgInfo_ g') !! ty = Some d.
Proof.
  intros H.
  destruct (DITypes_ (dbgInfo_ g) !! ty) as [d0|] eqn:E.
  - rewrite (getDebugType_cached _ _ _ E) in H. by simplify_eq.
  - destruct ty; simpl in H; unfold bind at 1, gets in H; rewrite E in H;
      apply bind_inv in H as (r & g1 & _ & H);
      unfold bind, modify, ret in H; simplify_eq; simpl;
      by rewrite lookup_insert_eq.
Qed.

Lemma getDebugType_twice ty g d g' :
  getDebugType ty g = Ok (d, g') -> getDebugType ty g' = Ok (d, g').
Proof. intros H. by apply getDebugType_cached, (getDebugType_caches ty g). Qed.

Lemma cache_closed_subtypes m ty :
  cache_closed m -> is_Some (m !! ty) -> subtypes ty ⊆ dom m.
Proof.
  intros Hc. induction ty as [| |w|e IH|n]; intros H; simpl;
    try (apply singleton_subseteq_l; by apply elem_of_dom).
  apply union_subseteq. split.
  - apply singleton_subseteq_l. by apply elem_of_dom.
  - apply IH, Hc, H.
Qed.

Lemma cache_closed_insert m ty d :
  cache_closed m ->
  (forall e, ty = PointerTy e -> is_Some (m !! e)) ->
  cache_closed (<[ty := d]> m).
Proof.
  intros Hc He e H. apply lookup_insert_is_Some'.
  apply lookup_insert_is_Some' in H as [->|H]; right;
    [by apply He | by apply Hc].
Qed.

Lemma cache_closed_empty : cache_closed ∅.
Proof. intros e [d H]. by rewrite lookup_empty in H. Qed.

Lemma subtypes_depth t ty : t ∈ subtypes ty -> (ty_depth t <= ty_depth ty)%nat.
Proof.
  induction ty as [| |w|e IH|n]; simpl; intros H;
    try (apply elem_of_singleton in H as ->; simpl; lia).
  apply elem_of_union in H as [H|H].
  - apply elem_of_singleton in H as ->. simpl. lia.
  - specialize (IH H). lia.
Qed.

Lemma pointer_not_subtype e : PointerTy e ∉ subtypes e.
Proof. intros H. apply subtypes_depth in H. simpl in H. lia. Qed.

Lemma newTypes_insert m ty d :
  m !! ty = None -> ty <> VoidTy -> newTypes m (<[ty := d]> m) = {[ty]}.
Proof.
  intros H Hv. unfold newTypes. rewrite dom_insert_L.
  apply not_elem_of_dom in H. set_solver.
Qed.

Lemma newTypes_insert_step m m1 ty d :
  m !! ty = None -> ty <> VoidTy -> m1 !! ty = None -> m ⊆ m1 ->
  newTypes m (<[ty := d]> m1) = {[ty]} ∪ newTypes m m1
  /\ ty ∉ newTypes m m1.
Proof.
  intros H Hv H1 Hsub. unfold newTypes. rewrite dom_insert_L.
  apply not_elem_of_dom in H. apply not_elem_of_dom in H1. set_solver.
Qed.

Lemma newTypes_same m : newTypes m m = ∅.
Proof. unfold newTypes. set_solver. Qed.

Lemma newTypes_void m d :
  newTypes m (<[VoidTy := d]> m) = ∅.
Proof. unfold newTypes. rewrite dom_insert_L. set_solver. Qed.

Ltac cache_miss_basic E :=
  split_and!;
  [ reflexivity
  | by rewrite lookup_insert_eq
  | by apply insert_subseteq
  | rewrite dom_insert_L; set_solver
  | rewrite newTypes_insert by done; by rewrite size_singleton
  | intros ?; split;
    [ rewrite dom_insert_L; set_solver
    | by apply cache_closed_insert ] ].

(** What a call on a supported type does: the cache grows by the types
    requested, and one node is created for each that is new. *)
Lemma getDebugType_spec_count ty : forall g b,
  supported ty = true ->
  DIBuilder_ g = Some b ->
  exists d new m',
    getDebugType ty g = Ok (d, with_types (ctx_ g ++ new) m' g)
    /\ m' !! ty = Some d
    /\ DITypes_ (dbgInfo_ g) ⊆ m'
    /\ dom m' ⊆ dom (DITypes_ (dbgInfo_ g)) ∪ subtypes ty
    /\ length new = size (newTypes (DITypes_ (dbgInfo_ g)) m')
    /\ (cache_closed (DITypes_ (dbgInfo_ g)) ->
        dom m' = dom (DITypes_ (dbgInfo_ g)) ∪ subtypes ty
        /\ cache_closed m').
Proof.
  induction ty as [| |w|e IH|n]; intros g b Hs Hb;
    (match goal with |- context [getDebugType ?t g] =>
       destruct (DITypes_ (dbgInfo_ g) !! t) as [d0|] eqn:E end;
     [ exists d0, [], (DITypes_ (dbgInfo_ g));
       rewrite (getDebugType_cached _ _ _ E), app_nil_r, with_types_id;
       split_and!;
         [ reflexivity | exact E | reflexivity | set_solver
         | by rewrite newTypes_same, size_empty | ];
       intros Hc; split; [|exact Hc];
       pose proof (cache_closed_subtypes _ _ Hc (mk_is_Some _ _ E));
       set_solver
     | ]).
  - exists None, [], (<[VoidTy := None]> (DITypes_ (dbgInfo_ g))).
    simpl; mstep; rewrite E; simpl. rewrite app_nil_r.
    split_and!;
      [ by destruct g | by rewrite lookup_insert_eq
      | by apply insert_subseteq | rewrite dom_insert_L; set_solver
      | by rewrite newTypes_void, size_empty | ].
    intros Hc; split;
      [rewrite dom_insert_L; set_solver | by apply cache_closed_insert].
  - eexists (Some (length (ctx_ g))), [_],
      (<[FloatTy := _]> (DITypes_ (dbgInfo_ g))).
    simpl; mstep; rewrite E; simpl. rewrite Hb. simpl. cache_miss_basic E.
  - destruct (decide (Z.of_N w = sizeof_size_t * 8)) as [Ew|Ew] eqn:Ed;
      eexists (Some (length (ctx_ g))), [_],
        (<[IntegerTy w := _]> (DITypes_ (dbgInfo_ g)));
      simpl; mstep; rewrite E; simpl; rewrite Ed; mstep; rewrite Hb; simpl;
      cache_miss_basic E.
  - simpl in Hs.
    destruct (IH g b Hs Hb)
      as (p & new1 & m1 & Hrun & Hp & Hsub & Hdomsub & Hcount & Hdom).
    assert (Hfresh : m1 !! PointerTy e = None).
    { apply not_elem_of_dom. intros Hin. apply Hdomsub in Hin.
      apply elem_of_union in Hin as [Hin|Hin].
      - by apply not_elem_of_dom in E.
      - by apply pointer_not_subtype in Hin. }
    exists (Some (length (ctx_ g ++ new1))),
      (new1 ++ [DIPointerType p (sizeof_pointer * 8)]),
      (<[PointerTy e := Some (length (ctx_ g ++ new1))]> m1).
    simpl. unfold bind at 1, gets. rewrite E.
    unfold bind at 1. unfold bind at 1. rewrite Hrun.
    mstep. rewrite Hb. simpl. rewrite app_assoc.
    split_and!; [reflexivity | by rewrite lookup_insert_eq | | | | ].
    + apply insert_subseteq_r; done.
    + rewrite dom_insert_L. set_solver.
    + pose proof (newTypes_insert_step (DITypes_ (dbgInfo_ g)) m1
                    (PointerTy e) (Some (length (ctx_ g ++ new1)))
                    E ltac:(done) Hfresh Hsub) as [Hnt Hnot].
      trans (size ({[PointerTy e]} ∪ newTypes (DITypes_ (dbgInfo_ g)) m1)).
      * rewrite size_union by set_solver.
        rewrite size_singleton, length_app, Hcount. simpl. lia.
      * f_equal. symmetry. exact Hnt.
    + intros Hc. destruct (Hdom Hc) as [Hd Hcl]. split.
      * rewrite dom_insert_L, Hd. set_solver.
      * apply cache_closed_insert; [done|]. intros e' [= <-]. by rewrite Hp.
  - done.
Qed.

Lemma newTypes_trans (m m1 m2 : gmap Ty (option MDRef)) :
  m ⊆ m1 -> m1 ⊆ m2 ->
  newTypes m m2 = newTypes m m1 ∪ newTypes m1 m2
  /\ newTypes m m1 ## newTypes m1 m2.
Proof.
  intros H1 H2. apply subseteq_dom in H1, H2. unfold newTypes.
  split; [|set_solver].
  apply set_eq. intros x. rewrite !elem_of_union, !elem_of_difference.
  destruct (decide (x ∈ dom m1)); set_solver.
Qed.

Lemma mapM_getDebugType_spec_count tys : forall g b,
  Forall (fun ty => supported ty = true) tys ->
  DIBuilder_ g = Some b ->
  exists ds new m',
    mapM tys getDebugType g = Ok (ds, with_types (ctx_ g ++ new) m' g)
    /\ Forall2 (fun ty d => m' !! ty = Some d) tys ds
    /\ DITypes_ (dbgInfo_ g) ⊆ m'
    /\ length new = size (newTypes (DITypes_ (dbgInfo_ g)) m')
    /\ (cache_closed (DITypes_ (dbgInfo_ g)) ->
        dom m' = dom (DITypes_ (dbgInfo_ g)) ∪ subtypes_list tys
        /\ cache_closed m').
Proof.
  induction tys as [|ty tys IH]; intros g b Hs Hb.
  - exists [], [], (DITypes_ (dbgInfo_ g)). simpl.
    rewrite app_nil_r, with_types_id.
    split_and!; [reflexivity | constructor | reflexivity
                | by rewrite newTypes_same, size_empty | ].
    intros Hc. split; [|done]. unfold subtypes_list. simpl. set_solver.
  - apply Forall_cons in Hs as [Hty Hs].
    destruct (getDebugType_spec_count ty g b Hty Hb)
      as (d & new1 & m1 & Hrun & Hd & Hsub & _ & Hcount & Hdom).
    destruct (IH (with_types (ctx_ g ++ new1) m1 g) b Hs Hb)
      as (ds & new2 & m2 & Hrun2 & Hds & Hsub2 & Hcount2 & Hdom2).
    simpl in Hrun2, Hsub2, Hdom2, Hcount2.
    exists (d :: ds), (new1 ++ new2), m2. simpl.
    unfold bind at 1. rewrite Hrun. unfold bind at 1. rewrite Hrun2.
    unfold ret. rewrite app_assoc. split_and!.
    + reflexivity.
    + constructor; [|done]. by eapply lookup_weaken.
    + by etrans.
    + destruct (newTypes_trans _ _ _ Hsub Hsub2) as [-> Hdisj].
      rewrite size_union by done. rewrite length_app. lia.
    + intros Hc. destruct (Hdom Hc) as [Hd1 Hc1].
      destruct (Hdom2 Hc1) as [Hd2 Hc2]. split; [|done].
      rewrite Hd2, Hd1. unfold subtypes_list. simpl. set_solver.
Qed.

(** On a supported type, with a [DIBuilder] at hand, [getDebugType]
    returns; it adds nodes and cache entries and touches nothing else. *)
Lemma getDebugType_spec ty : forall g b,
  supported ty = true ->
  DIBuilder_ g = Some b ->
  exists d new m',
    getDebugType ty g = Ok (d, with_types (ctx_ g ++ new) m' g)
    /\ m' !! ty = Some d
    /\ DITypes_ (dbgInfo_ g) ⊆ m'
    /\ (cache_closed (DITypes_ (dbgInfo_ g)) ->
        dom m' = dom (DITypes_ (dbgInfo_ g)) ∪ subtypes ty
        /\ cache_closed m').
Proof.
  intros g b Hs Hb.
  destruct (getDebugType_spec_count ty g b Hs Hb)
    as (d & new & m' & Hrun & Hd & Hsub & _ & _ & Hdom).
  by exists d, new, m'.
Qed.

(** A sequence of calls. *)
Lemma mapM_getDebugType_spec tys : forall g b,
  Forall (fun ty => supported ty = true) tys ->
  DIBuilder_ g = Some b ->
  exists ds new m',
    mapM tys getDebugType g = Ok (ds, with_types (ctx_ g ++ new) m' g)
    /\ Forall2 (fun ty d => m' !! ty = Some d) tys ds
    /\ DITypes_ (dbgInfo_ g) ⊆ m'
    /\ (cache_closed (DITypes_ (dbgInfo_ g)) ->
        dom m' = dom (DITypes_ (dbgInfo_ g)) ∪ subtypes_list tys
        /\ cache_closed m').
Proof.
  intros g b Hs Hb.
  destruct (mapM_getDebugType_spec_count tys g b Hs Hb)
    as (ds & new & m' & Hrun & Hds & Hsub & _ & Hdom).
  by exists ds, new, m'.
Qed.

(** C7. A second call of [getDebugType] with the same type returns the
    descriptor the first returned, from the cache, and changes nothing.
    After any sequence of calls on supported types, begun in a new debug
    context, the cache holds one entry for each type requested, by a
    call or by the recursion on a pointee, and no other; each holds the
    descriptor every call for that type returned; and one node was
    created for each of these types but [void], whose descriptor is
    null. *)
Theorem getDebugType_one_descriptor_per_type :
  (forall ty g d g',
      getDebugType ty g = Ok (d, g') ->
      getDebugType ty g' = Ok (d, g'))
  /\ (forall tys g b,
        forallb supported tys = true ->
        DIBuilder_ g = Some b ->
        DITypes_ (dbgInfo_ g) = ∅ ->
        exists ds g',
          mapM tys getDebugType g = Ok (ds, g')
          /\ Forall2 (fun ty d =>
                        DITypes_ (dbgInfo_ g') !! ty = Some d
                        /\ getDebugType ty g' = Ok (d, g')) tys ds
          /\ dom (DITypes_ (dbgInfo_ g')) = subtypes_list tys
          /\ size (DITypes_ (dbgInfo_ g')) = size (subtypes_list tys)
          /\ length (ctx_ g')
             = (length (ctx_ g) + size (subtypes_list tys ∖ {[VoidTy]}))%nat).
Proof.
  split; [apply getDebugType_twice|].
  intros tys g b Hs Hb Hempty.
  assert (Hs' : Forall (fun ty => supported ty = true) tys).
  { apply Forall_forall. intros ty Hin.
    rewrite forallb_forall in Hs. apply Hs. by apply list_elem_of_In. }
  destruct (mapM_getDebugType_spec_count tys g b Hs' Hb)
    as (ds & new & m' & Hrun & Hds & Hsub & Hcount & Hdom).
  rewrite Hempty in Hdom, Hcount.
  destruct (Hdom cache_closed_empty) as [Hd _].
  rewrite dom_empty_L, (left_id_L ∅ (∪)) in Hd.
  exists ds, (with_types (ctx_ g ++ new) m' g).
  split_and!; [done | | done | | ].
  - eapply Forall2_impl; [exact Hds|]. intros ty d Hty. simpl.
    split; [done|]. by apply getDebugType_cached.
  - simpl. by rewrite <- size_dom, Hd.
  - simpl. rewrite length_app, Hcount. f_equal. f_equal.
    unfold newTypes. rewrite Hd, dom_empty_L. set_solver.
Qed.

(** ** What a descriptor of a type is *)

(** The node the descriptor [d] of [ty] is, in a context with the nodes
    [nodes] and the cache [m]: none for [void], a basic type for a float
    and an integer (the 64-bit integer under the name of [size_t]), a
    pointer node on the cached descriptor of the pointee. *)
Definition describes (nodes : list DINode) (m : gmap Ty (option MDRef))
  (ty : Ty) (d : option MDRef) : Prop :=
  match ty with
  | VoidTy => d = None
  | FloatTy =>
      exists h : nat,
        d = Some h
        /\ nodes !! h = Some (DIBasicType "float" 32 DW_ATE_float)
  | IntegerTy w =>
      exists h : nat,
        d = Some h
        /\ nodes !! h
           = Some (if decide (Z.of_N w = 64)
                   then DIBasicType "size_t" 64 DW_ATE_unsigned
                   else DIBasicType ("int" +:+ to_string w) (Z.of_N w)
                          DW_ATE_unsigned)
  | PointerTy e =>
      exists (h : nat) p,
        d = Some h /\ m !! e = Some p
        /\ nodes !! h = Some (DIPointerType p 64)
  | OtherTy _ => False
  end.

Definition cache_describes (nodes : list DINode)
  (m : gmap Ty (option MDRef)) : Prop :=
  forall ty d, m !! ty = Some d -> describes nodes m ty d.

Lemma describes_mono nodes new m m' ty d :
  m ⊆ m' -> describes nodes m ty d -> describes (nodes ++ new) m' ty d.
Proof.
  intros Hsub. destruct ty as [| |w|e|n]; simpl; try done.
  - intros (h & -> & Hn). exists h. split; [done|].
    by apply lookup_app_l_Some.
  - intros (h & -> & Hn). exists h. split; [done|].
    by apply lookup_app_l_Some.
  - intros (h & p & -> & Hp & Hn). exists h, p. split_and!; [done | |].
    + by eapply lookup_weaken.
    + by apply lookup_app_l_Some.
Qed.

Lemma cache_describes_insert nodes n m ty :
  m !! ty = None ->
  cache_describes nodes m ->
  describes (nodes ++ [n]) (<[ty := Some (length nodes)]> m) ty
    (Some (length nodes)) ->
  cache_describes (nodes ++ [n]) (<[ty := Some (length nodes)]> m).
Proof.
  intros Hnone Hc Hd ty0 d0 H0.
  destruct (decide (ty0 = ty)) as [->|Hne].
  - rewrite lookup_insert_eq in H0. by simplify_eq.
  - rewrite lookup_insert_ne in H0 by done.
    eapply describes_mono; [by apply insert_subseteq | by apply Hc].
Qed.

Lemma cache_describes_empty nodes : cache_describes nodes ∅.
Proof. intros ty d H. by rewrite lookup_empty in H. Qed.

Lemma getDebugType_describes_cache ty : forall g b,
  supported ty = true ->
  DIBuilder_ g = Some b ->
  cache_describes (ctx_ g) (DITypes_ (dbgInfo_ g)) ->
  exists d new m',
    getDebugType ty g = Ok (d, with_types (ctx_ g ++ new) m' g)
    /\ DITypes_ (dbgInfo_ g) ⊆ m'
    /\ dom m' ⊆ dom (DITypes_ (dbgInfo_ g)) ∪ subtypes ty
    /\ m' !! ty = Some d
    /\ cache_describes (ctx_ g ++ new) m'.
Proof.
  induction ty as [| |w|e IH|n]; intros g b Hs Hb Hc;
    (match goal with |- context [getDebugType ?t g] =>
       destruct (DITypes_ (dbgInfo_ g) !! t) as [d0|] eqn:E end;
     [ exists d0, [], (DITypes_ (dbgInfo_ g));
       rewrite (getDebugType_cached _ _ _ E), app_nil_r, with_types_id;
       split_and!; [reflexivity | reflexivity | set_solver | exact E
                   | exact Hc]
     | ]).
  - exists None, [], (<[VoidTy := None]> (DITypes_ (dbgInfo_ g))).
    simpl; mstep; rewrite E; simpl. rewrite app_nil_r.
    split_and!; [by destruct g | by apply insert_subseteq
                | rewrite dom_insert_L; set_solver
                | by rewrite lookup_insert_eq | ].
    intros ty0 d0 H0. destruct (decide (ty0 = VoidTy)) as [->|Hne].
    + rewrite lookup_insert_eq in H0. by simplify_eq.
    + rewrite lookup_insert_ne in H0 by done.
      rewrite <- (app_nil_r (ctx_ g)).
      eapply describes_mono; [by apply insert_subseteq | by apply Hc].
  - eexists (Some (length (ctx_ g))), [_],
      (<[FloatTy := _]> (DITypes_ (dbgInfo_ g))).
    simpl; mstep; rewrite E; simpl. rewrite Hb. simpl.
    split_and!; [reflexivity | by apply insert_subseteq
                | rewrite dom_insert_L; set_solver
                | by rewrite lookup_insert_eq | ].
    apply cache_describes_insert; [done | done |].
    exists (length (ctx_ g)). split; [done|]. by apply list_lookup_middle.
  - destruct (decide (Z.of_N w = sizeof_size_t * 8)) as [Ew|Ew] eqn:Ed;
      eexists (Some (length (ctx_ g))), [_],
        (<[IntegerTy w := _]> (DITypes_ (dbgInfo_ g)));
      simpl; mstep; rewrite E; simpl; rewrite Ed; mstep; rewrite Hb; simpl;
      (split_and!; [reflexivity | by apply insert_subseteq
                   | rewrite dom_insert_L; set_solver
                   | by rewrite lookup_insert_eq | ]);
      (apply cache_describes_insert; [done | done |]);
      exists (length (ctx_ g)); (split; [done|]);
      rewrite list_lookup_middle by done; f_equal;
      unfold sizeof_size_t in Ew.
    + by rewrite decide_True by lia.
    + by rewrite decide_False by lia.
  - simpl in Hs.
    destruct (IH g b Hs Hb Hc)
      as (p & new1 & m1 & Hrun & Hsub & Hdom & Hp & Hc1).
    assert (m1 !! PointerTy e = None) as Hfresh.
    { apply not_elem_of_dom. intros Hin. apply Hdom in Hin.
      apply elem_of_union in Hin as [Hin|Hin].
      - apply elem_of_dom in Hin as [x Hx]. congruence.
      - by apply pointer_not_subtype in Hin. }
    exists (Some (length (ctx_ g ++ new1))),
      (new1 ++ [DIPointerType p (sizeof_pointer * 8)]),
      (<[PointerTy e := Some (length (ctx_ g ++ new1))]> m1).
    simpl. unfold bind at 1, gets. rewrite E.
    unfold bind at 1. unfold bind at 1. rewrite Hrun.
    mstep. rewrite Hb. simpl. rewrite app_assoc.
    split_and!; [reflexivity | | | by rewrite lookup_insert_eq | ].
    + by apply insert_subseteq_r.
    + rewrite dom_insert_L. set_solver.
    + apply cache_describes_insert; [done | done |].
      exists (length (ctx_ g ++ new1)), p. split_and!; [done | |].
      * rewrite lookup_insert_ne; [done|]. intros Heq.
        apply (f_equal ty_depth) in Heq. simpl in Heq. lia.
      * by apply list_lookup_middle.
  - done.
Qed.

(** ** The global-variable debug emitter *)

Lemma emit_run (val : Value) (g : LLVMIRGen) b kind num offset r d new m' :
  DIBuilder_ g = Some b ->
  getDebugType (getElementType (getOrigin val)) g
  = Ok (d, with_types (ctx_ g ++ new) m' g) ->
  valueNumbers_ (allocationsInfo_ g) !! valueId (getOrigin val)
  = Some (kind, num) ->
  allocatedAddressed_ (allocationsInfo_ g) !! valueId (getOrigin val)
  = Some offset ->
  baseAddressGV kind (dbgInfo_ g) = Some r ->
  let harr := length (ctx_ g ++ new) in
  let ty := getType (getOrigin val) in
  emitDebugGlobalVariableForValue val g
  = Ok (tt,
        set_llmodule
          (set_globals (alter (addDebugInfo (Some (S (S harr)))) r))
          (with_types
             (ctx_ g ++ new
              ++ [DIArrayType (to_uint64 (getSizeInBytes ty * 8))
                    sizeof_float d (to_int64 <$> dims ty);
                  DIExpression (addressOps offset);
                  DIGlobalVariableExpression
                    (compilationUnit_ (dbgInfo_ g)) (getName (F_ g) val)
                    "" (mainFile_ (dbgInfo_ g)) 0 (Some harr) false
                    (Some (S harr))])
             m' g)).
Proof.
  intros Hb Hrun Hk Ho Hr. cbv zeta.
  unfold emitDebugGlobalVariableForValue.
  unfold bind at 1, gets at 1. unfold bind at 1. rewrite Hrun.
  unfold valueNumbers_at, GlobalVariable_call.
  destruct g as [flag ctx F ai inum md bld dib dbg men od fs].
  simpl in *. subst dib. mstep. rewrite Hk. simpl. rewrite Ho. simpl.
  replace (baseAddressGV kind
             (set_DITypes (fun _ : gmap Ty (option MDRef) => m') dbg))
    with (Some r) by (by destruct kind).
  simpl. unfold with_types, set_llmodule, set_ctx, set_dbgInfo. simpl.
  rewrite !length_app. simpl. rewrite <- !app_assoc. simpl.
  rewrite !Nat.add_1_r. reflexivity.
Qed.









Lemma forM_skip (f : Value -> Gen unit) (l : list Value) :
  forall g,
    forM_ l (fun v =>
      if negb (isAllocActivationInst v) && negb (isTensorViewInst v)
      then ret tt
      else f v) g
    = forM_ (List.filter
               (fun v => isAllocActivationInst v || isTensorViewInst v) l)
        f g.
Proof.
  induction l as [|x l IH]; intros g; simpl; [done|].
  rewrite <- negb_orb.
  destruct (isAllocActivationInst x || isTensorViewInst x); simpl;
    unfold bind.
  - destruct (f x g) as [[[] g1]|e]; [apply IH | done].
  - unfold ret. apply IH.
Qed.


Lemma evalDwarf_addressOps (mem : Z -> option Z) (gvAddr base offset : Z) :
  mem gvAddr = Some base ->
  evalDwarf mem (addressOps offset) [gvAddr] = Some (to_uint64 (base + offset)).
Proof. intros Hmem. simpl. by rewrite Hmem. Qed.

(** *** The record of a value and the global it hangs on *)

(** Modelled from the spec: the base-pointer global of a storage class,
    [baseGlobal[storageClass]], under the name [initDebugInfo] gives it. *)
Definition spec_baseGlobalName (storageClass : ValueKind) : string :=
  match storageClass with
  | ConstantWeight => "constWeightsBaseAddress"
  | MutableWeight => "mutableWeightsBaseAddress"
  | Activation => "activationsBaseAddress"
  end.

(** The pointer [field] of the debug context points to a global of the
    name [name]. *)
Definition namedGlobal (g : LLVMIRGen) (field : option GVRef)
  (name : string) : Prop :=
  exists r gv,
    field = Some r /\ m_globals (llmodule_ g) !! r = Some gv
    /\ gv_name gv = name.

(** The debug context as [initDebugInfo] leaves it: each of its three
    pointers points to the global of its name. *)
Definition baseGlobalsNamed (g : LLVMIRGen) : Prop :=
  namedGlobal g (constWeightsBaseAddressGV_ (dbgInfo_ g))
    "constWeightsBaseAddress"
  /\ namedGlobal g (mutableWeightsBaseAddressGV_ (dbgInfo_ g))
       "mutableWeightsBaseAddress"
  /\ namedGlobal g (activationsBaseAddressGV_ (dbgInfo_ g))
       "activationsBaseAddress".

(** The global [gv] with one more record. *)
Definition withRecord (h : MDRef) (gv : llvm_GlobalVariable)
  : llvm_GlobalVariable :=
  {| gv_name := gv_name gv; gv_type := gv_type gv;
     gv_isConstant := gv_isConstant gv; gv_internal := gv_internal gv;
     gv_initializer := gv_initializer gv;
     gv_debugInfo := gv_debugInfo gv ++ [Some h] |}.

(** The address a debugger computes for the variable of the record [h],
    when [h] hangs on the global [r]: the address program of the record,
    run on the address of that global.  [globalAddr] places the globals
    in the memory [mem] of the running program. *)
Definition variableAddress (globalAddr : GVRef -> Z) (mem : Z -> option Z)
  (g : LLVMIRGen) (r : GVRef) (h : MDRef) : option Z :=
  match m_globals (llmodule_ g) !! r with
  | Some gv =>
      if bool_decide (Some h ∈ gv_debugInfo gv) then
        match ctx_ g !! h with
        | Some (DIGlobalVariableExpression _ _ _ _ _ _ _ (Some hexpr)) =>
            match ctx_ g !! hexpr with
            | Some (DIExpression ops) => evalDwarf mem ops [globalAddr r]
            | _ => None
            end
        | _ => None
        end
      else None
  | None => None
  end.

Lemma baseGlobal_of_kind (g : LLVMIRGen) (kind : ValueKind) :
  baseGlobalsNamed g ->
  exists r gv,
    baseAddressGV kind (dbgInfo_ g) = Some r
    /\ m_globals (llmodule_ g) !! r = Some gv
    /\ gv_name gv = spec_baseGlobalName kind.
Proof.
  intros ((c & gc & Hc & Hgc & Hnc) & (m & gm & Hm & Hgm & Hnm)
          & (a & ga & Ha & Hga & Hna)).
  destruct kind; simpl; eauto.
Qed.



(** What a call of the emitter does for a value whose origin the planner
    gave a number and an offset, after the call of [getDebugType] in
    it. *)
Lemma emit_attaches (val : Value) (g : LLVMIRGen) b kind num offset r gv
  d new m' :
  DIBuilder_ g = Some b ->
  getDebugType (getElementType (getOrigin val)) g
  = Ok (d, with_types (ctx_ g ++ new) m' g) ->
  valueNumbers_ (allocationsInfo_ g) !! valueId (getOrigin val)
  = Some (kind, num) ->
  allocatedAddressed_ (allocationsInfo_ g) !! valueId (getOrigin val)
  = Some offset ->
  baseAddressGV kind (dbgInfo_ g) = Some r ->
  m_globals (llmodule_ g) !! r = Some gv ->
  exists g' h harr hexpr rest,
    emitDebugGlobalVariableForValue val g = Ok (tt, g')
    /\ m_globals (llmodule_ g')
       = <[r := withRecord h gv]> (m_globals (llmodule_ g))
    /\ ctx_ g' = (ctx_ g ++ new) ++ rest
    /\ DITypes_ (dbgInfo_ g') = m'
    /\ ctx_ g' !! h
       = Some (DIGlobalVariableExpression
                 (compilationUnit_ (dbgInfo_ g)) (getName (F_ g) val) ""
                 (mainFile_ (dbgInfo_ g)) 0 (Some harr) false (Some hexpr))
    /\ ctx_ g' !! harr
       = Some (DIArrayType
                 (to_uint64 (getSizeInBytes (getType (getOrigin val)) * 8))
                 sizeof_float d
                 (to_int64 <$> dims (getType (getOrigin val))))
    /\ ctx_ g' !! hexpr = Some (DIExpression (addressOps offset)).
Proof.
  intros Hb Hty Hk Ho Hr Hgv.
  pose proof (emit_run val g b kind num offset r d new m' Hb Hty Hk Ho Hr)
    as Hrun.
  cbv zeta in Hrun.
  eexists _, (S (S (length (ctx_ g ++ new)))), (length (ctx_ g ++ new)),
    (S (length (ctx_ g ++ new))),
    [DIArrayType
       (to_uint64 (getSizeInBytes (getType (getOrigin val)) * 8))
       sizeof_float d (to_int64 <$> dims (getType (getOrigin val)));
     DIExpression (addressOps offset);
     DIGlobalVariableExpression
       (compilationUnit_ (dbgInfo_ g)) (getName (F_ g) val) ""
       (mainFile_ (dbgInfo_ g)) 0 (Some (length (ctx_ g ++ new))) false
       (Some (S (length (ctx_ g ++ new))))].
  split; [exact Hrun|]. clear Hrun Hty.
  destruct g as [flag ctx F ai inum md bld dib dbg men od fs].
  simpl in *. split_and!.
  - unfold GVRef in *.
    apply list_eq. intros i. destruct (decide (r = i)) as [<-|Hne].
    + rewrite list_lookup_alter_eq, Hgv. simpl.
      rewrite list_lookup_insert_eq; [done|]. by eapply lookup_lt_Some.
    + by rewrite list_lookup_alter_ne, list_lookup_insert_ne.
  - apply app_assoc.
  - done.
  - rewrite app_assoc. rewrite lookup_app_r by lia.
    replace (S (S (length (ctx ++ new))) - length (ctx ++ new))%nat
      with 2%nat by lia.
    reflexivity.
  - rewrite app_assoc. rewrite lookup_app_r by lia.
    rewrite Nat.sub_diag. reflexivity.
  - rewrite app_assoc. rewrite lookup_app_r by lia.
    replace (S (length (ctx ++ new)) - length (ctx ++ new))%nat
      with 1%nat by lia.
    reflexivity.
Qed.

(** C5. The record emitted for a tensor variable hangs on the
    base-pointer global of the storage class of the variable's origin,
    the global [initDebugInfo] made under the name of that class, and on
    no other; it holds the address program [deref; constu offset; plus],
    [offset] being what the planner assigned to the origin.  A debugger
    runs the program of a record on the address of the global the record
    hangs on: in a memory where that global holds the run-time base
    pointer of the class, the address of the variable is the base pointer
    plus the offset (an address of 64 bits). *)
Theorem emitted_address_is_base_plus_offset
  (val : Value) (g : LLVMIRGen) (b : DIBuilder) (kind : ValueKind)
  (num offset : Z) :
  DIBuilder_ g = Some b ->
  supported (getElementType (getOrigin val)) = true ->
  valueNumbers_ (allocationsInfo_ g) !! valueId (getOrigin val)
  = Some (kind, num) ->
  allocatedAddressed_ (allocationsInfo_ g) !! valueId (getOrigin val)
  = Some offset ->
  baseGlobalsNamed g ->
  exists g' r gv h hexpr ty,
    emitDebugGlobalVariableForValue val g = Ok (tt, g')
    /\ m_globals (llmodule_ g) !! r = Some gv
    /\ gv_name gv = spec_baseGlobalName kind
    /\ m_globals (llmodule_ g') !! r
       = Some {| gv_name := gv_name gv; gv_type := gv_type gv;
                 gv_isConstant := gv_isConstant gv;
                 gv_internal := gv_internal gv;
                 gv_initializer := gv_initializer gv;
                 gv_debugInfo := gv_debugInfo gv ++ [Some h] |}
    /\ (forall r' : nat,
          r' <> r ->
          m_globals (llmodule_ g') !! r' = m_globals (llmodule_ g) !! r')
    /\ ctx_ g' !! h
       = Some (DIGlobalVariableExpression (compilationUnit_ (dbgInfo_ g))
                 (getName (F_ g) val) "" (mainFile_ (dbgInfo_ g)) 0 ty false
                 (Some hexpr))
    /\ ctx_ g' !! hexpr
       = Some (DIExpression [DW_OP_deref; DW_OP_constu; offset; DW_OP_plus])
    /\ forall (globalAddr : GVRef -> Z) (mem : Z -> option Z) (base : Z),
         mem (globalAddr r) = Some base ->
         0 <= base -> 0 <= offset -> base + offset < 2 ^ 64 ->
         variableAddress globalAddr mem g' r h = Some (base + offset).
Proof.
  intros Hb Hs Hk Ho Hnamed.
  destruct (baseGlobal_of_kind g kind Hnamed) as (r & gv & Hr & Hgv & Hname).
  destruct (getDebugType_spec _ g b Hs Hb) as (d & new & m' & Hty & _).
  destruct (emit_attaches val g b kind num offset r gv d new m'
              Hb Hty Hk Ho Hr Hgv)
    as (g' & h & harr & hexpr & rest & Hrun & Hgvs & _ & _ & Hh & _ & He).
  exists g', r, gv, h, hexpr, (Some harr).
  assert (m_globals (llmodule_ g') !! r = Some (withRecord h gv)) as Hr'.
  { rewrite Hgvs. unfold GVRef in *. apply list_lookup_insert_eq.
    by eapply lookup_lt_Some. }
  split_and!; try done.
  - intros r' Hne. rewrite Hgvs. unfold GVRef in *.
    by apply list_lookup_insert_ne.
  - intros globalAddr mem base Hmem Hbase Hoff Hlt.
    unfold variableAddress. rewrite Hr'. simpl.
    rewrite bool_decide_eq_true_2 by (apply elem_of_app; right; left).
    rewrite Hh, He.
    rewrite (evalDwarf_addressOps mem (globalAddr r) base offset Hmem).
    unfold to_uint64, wrap. f_equal. apply Z.mod_small. lia.
Qed.


(** ** Subprograms of functions *)

Lemma with_types_with_types n1 m1 n2 m2 g :
  with_types n2 m2 (with_types n1 m1 g) = with_types n2 m2 g.
Proof. by destruct g as [? ? ? ? ? ? ? ? [] ? ? ?]. Qed.

(** Whatever its outcome, a call of [getDebugType] that returns has added
    nodes of types to the context and entries to the cache, and touched
    nothing else. *)
Lemma getDebugType_frame ty : forall g d g',
  getDebugType ty g = Ok (d, g') ->
  exists new m',
    g' = with_types (ctx_ g ++ new) m' g
    /\ Forall (fun n => isSubprogram n = false) new.
Proof.
  induction ty as [| |w|e IH|n]; intros g d g' H;
    (match type of H with context [getDebugType ?t g] =>
       destruct (DITypes_ (dbgInfo_ g) !! t) as [d0|] eqn:E end;
     [ rewrite (getDebugType_cached _ _ _ E) in H; simplify_eq;
       exists [], (DITypes_ (dbgInfo_ g'));
       by rewrite app_nil_r, with_types_id
     | ]);
    simpl in H; unfold bind at 1, gets at 1 in H; rewrite E in H.
  - revert H. mstep. intros H. simplify_eq.
    exists [], (<[VoidTy := None]> (DITypes_ (dbgInfo_ g))).
    rewrite app_nil_r. split; [by destruct g | done].
  - revert H. mstep. destruct (DIBuilder_ g) eqn:Hb; [|done].
    intros H. simplify_eq. eexists [_], _. split; [reflexivity|].
    by repeat constructor.
  - revert H. destruct (decide (Z.of_N w = sizeof_size_t * 8)); mstep;
      (destruct (DIBuilder_ g) eqn:Hb; [|done]);
      intros H; simplify_eq; (eexists [_], _; split; [reflexivity|]);
      by repeat constructor.
  - apply bind_inv in H as (r & g1 & H1 & H).
    apply bind_inv in H1 as (p & g2 & Hp & H1).
    destruct (IH _ _ _ Hp) as (new & m' & -> & Hnew).
    revert H1 H. mstep.
    destruct (DIBuilder_ g) eqn:Hb; [|done].
    intros H1 H. simplify_eq.
    eexists (new ++ [_]), _. split.
    + unfold with_types, set_ctx, set_dbgInfo. simpl.
      rewrite app_assoc. reflexivity.
    + apply Forall_app. split; [done|]. by repeat constructor.
  - done.
Qed.

Lemma mapM_getDebugType_frame tys : forall g ds g',
  mapM tys getDebugType g = Ok (ds, g') ->
  exists new m',
    g' = with_types (ctx_ g ++ new) m' g
    /\ Forall (fun n => isSubprogram n = false) new.
Proof.
  induction tys as [|ty tys IH]; intros g ds g' H; simpl in H.
  - unfold ret in H. simplify_eq. exists [], (DITypes_ (dbgInfo_ g')).
    by rewrite app_nil_r, with_types_id.
  - apply bind_inv in H as (d & g1 & Hd & H).
    apply bind_inv in H as (ds' & g2 & Hds & H).
    unfold ret in H. simplify_eq.
    destruct (getDebugType_frame _ _ _ _ Hd) as (new1 & m1 & -> & Hn1).
    destruct (IH _ _ _ Hds) as (new2 & m2 & -> & Hn2).
    exists (new1 ++ new2), m2. split.
    + rewrite with_types_with_types. f_equal.
      destruct g; simpl. by rewrite app_assoc.
    + by apply Forall_app.
Qed.

(** The three ways [getOrCreateFunctionDebugInfo] returns: null for a
    function without a name or of the [llvm.] namespace; the subprogram
    the function has; or a new subprogram, made after the nodes of the
    types of the signature and attached to the function. *)
Lemma getOrCreateFunctionDebugInfo_inv F scope file lineNo g r g1 :
  getOrCreateFunctionDebugInfo F scope file lineNo g = Ok (r, g1) ->
  exists fn,
    m_functions (llmodule_ g) !! F = Some fn
    /\ ((isInternalName (fn_name fn) = true /\ r = None /\ g1 = g)
        \/ (isInternalName (fn_name fn) = false
            /\ is_Some (fn_subprogram fn)
            /\ r = fn_subprogram fn /\ g1 = g)
        \/ (isInternalName (fn_name fn) = false
            /\ fn_subprogram fn = None
            /\ exists new m' tys,
                 Forall (fun n => isSubprogram n = false) new
                 /\ r = Some (S (length (ctx_ g ++ new)))
                 /\ g1 = set_llmodule
                           (set_functions
                              (alter
                                 (setSubprogram
                                    (Some (S (length (ctx_ g ++ new))))) F))
                           (with_types
                              (ctx_ g ++ new
                               ++ [DISubroutineType tys;
                                   DISubprogram scope (fn_name fn) "" file
                                     lineNo (Some (length (ctx_ g ++ new)))
                                     false true lineNo FlagPrototyped true])
                              m' g))).
Proof.
  intros H. unfold getOrCreateFunctionDebugInfo in H.
  apply bind_inv in H as (fn & g0 & Hfn & H).
  unfold theFunction, bind, gets, deref, ret, abort in Hfn.
  destruct (m_functions (llmodule_ g) !! F) as [fn'|] eqn:EF; [|done].
  assert (fn' = fn /\ g = g0) as [-> <-] by (by inversion Hfn).
  clear Hfn. exists fn. split; [done|].
  fold (isInternalName (fn_name fn)) in H.
  destruct (isInternalName (fn_name fn)) eqn:Eint.
  { unfold ret in H. simplify_eq. by left. }
  right. apply bind_inv in H as (DIFunction & g2 & Hcreate & H).
  destruct (fn_subprogram fn) as [sp|] eqn:Esp.
  - left. unfold ret in Hcreate. simplify_eq.
    unfold getSubprogram, theFunction, bind, gets, deref, ret in H.
    rewrite EF in H. simpl in H. rewrite Esp in H.
    rewrite bool_decide_eq_true_2 in H by done. simpl in H. by simplify_eq.
  - right. split; [done|]. split; [done|].
    apply bind_inv in Hcreate as (returnTy & g3 & Hret & Hcreate).
    apply bind_inv in Hcreate as (argTys & g4 & Hargs & Hcreate).
    destruct (getDebugType_frame _ _ _ _ Hret) as (new0 & m0 & -> & Hn0).
    destruct (mapM_getDebugType_frame _ _ _ _ Hargs)
      as (new1 & m1 & -> & Hn1).
    rewrite with_types_with_types in *.
    exists (new0 ++ new1), m1, (returnTy :: argTys).
    split; [by apply Forall_app|].
    clear Hret Hargs.
    destruct g as [flag ctx Fir ai inum md bld dib dbg men od fs].
    simpl in *. revert Hcreate H.
    unfold getSubprogram, theFunction, cassert. mstep.
    destruct dib as [b|]; [|done]. simpl.
    intros Hcreate. simplify_eq. simpl.
    unfold FuncRef in *. rewrite list_lookup_alter_eq, EF. simpl.
    rewrite bool_decide_eq_true_2 by done. simpl.
    intros H. simplify_eq.
    unfold with_types, set_llmodule, set_ctx, set_dbgInfo. simpl.
    rewrite !length_app. simpl. rewrite <- !app_assoc. simpl.
    rewrite ?Nat.add_1_r, ?Nat.add_assoc.
    split; reflexivity.
Qed.

Lemma getOrCreateFunctionDebugInfo_internal F scope file lineNo g fn :
  m_functions (llmodule_ g) !! F = Some fn ->
  isInternalName (fn_name fn) = true ->
  getOrCreateFunctionDebugInfo F scope file lineNo g = Ok (None, g).
Proof.
  intros HF Hint. unfold getOrCreateFunctionDebugInfo, theFunction.
  unfold bind, gets, deref, ret. rewrite HF. simpl.
  fold (isInternalName (fn_name fn)). by rewrite Hint.
Qed.

Lemma getOrCreateFunctionDebugInfo_existing F scope file lineNo g fn sp :
  m_functions (llmodule_ g) !! F = Some fn ->
  isInternalName (fn_name fn) = false ->
  fn_subprogram fn = Some sp ->
  getOrCreateFunctionDebugInfo F scope file lineNo g = Ok (Some sp, g).
Proof.
  intros HF Hint Hsp.
  unfold getOrCreateFunctionDebugInfo, getSubprogram, theFunction.
  unfold bind, gets, deref, ret, cassert. rewrite HF. simpl.
  fold (isInternalName (fn_name fn)). rewrite Hint, Hsp. simpl.
  rewrite HF. simpl. rewrite Hsp. by rewrite bool_decide_eq_true_2.
Qed.

Lemma getOrCreateFunctionDebugInfo_again F scope file lineNo g r g1 :
  getOrCreateFunctionDebugInfo F scope file lineNo g = Ok (r, g1) ->
  forall scope' file' lineNo',
    getOrCreateFunctionDebugInfo F scope' file' lineNo' g1 = Ok (r, g1).
Proof.
  intros H scope' file' lineNo'.
  destruct (getOrCreateFunctionDebugInfo_inv _ _ _ _ _ _ _ H)
    as (fn & HF & [(Hint & -> & ->)|[(Hint & [sp Hsp] & -> & ->)|
        (Hint & Hsp & new & m' & tys & Hnew & -> & ->)]]).
  - by eapply getOrCreateFunctionDebugInfo_internal.
  - rewrite Hsp. by eapply getOrCreateFunctionDebugInfo_existing.
  - eapply (getOrCreateFunctionDebugInfo_existing _ _ _ _ _
              (setSubprogram (Some (S (length (ctx_ g ++ new)))) fn));
      [|done|done].
    destruct g. simpl in *. unfold FuncRef in *.
    by rewrite list_lookup_alter_eq, HF.
Qed.

Lemma getOrCreateFunctionDebugInfo_creates F scope file lineNo g fn b :
  m_functions (llmodule_ g) !! F = Some fn ->
  isInternalName (fn_name fn) = false ->
  fn_subprogram fn = None ->
  DIBuilder_ g = Some b ->
  supported (fn_returnType fn) = true ->
  forallb supported (fn_paramTypes fn) = true ->
  exists r g1, getOrCreateFunctionDebugInfo F scope file lineNo g = Ok (r, g1).
Proof.
  intros HF Hint Hsp Hb Hret Hpar.
  destruct (getDebugType_spec _ g b Hret Hb) as (d0 & new0 & m0 & Hrun0 & _).
  destruct (mapM_getDebugType_spec (fn_paramTypes fn)
              (with_types (ctx_ g ++ new0) m0 g) b)
    as (ds & new1 & m1 & Hrun1 & _).
  { apply Forall_forall. intros ty Hty.
    rewrite forallb_forall in Hpar. apply Hpar. by apply list_elem_of_In. }
  { by destruct g. }
  unfold getOrCreateFunctionDebugInfo, theFunction.
  unfold bind at 1, gets at 1. unfold bind at 1. rewrite HF. simpl.
  fold (isInternalName (fn_name fn)). rewrite Hint, Hsp.
  unfold bind at 1. unfold bind at 1. rewrite Hrun0.
  unfold bind at 1. rewrite Hrun1.
  destruct g as [flag ctx Fir ai inum md bld dib dbg men od fs].
  simpl in *. subst dib.
  unfold getSubprogram, theFunction, cassert. mstep.
  unfold FuncRef in *. rewrite list_lookup_alter_eq, HF. simpl.
  rewrite bool_decide_eq_true_2 by done. simpl. eauto.
Qed.

Lemma subprograms_app (l1 l2 : list DINode) :
  subprograms (l1 ++ l2) = subprograms l1 ++ subprograms l2.
Proof. apply List.filter_app. Qed.

Lemma subprograms_none (l : list DINode) :
  Forall (fun n => isSubprogram n = false) l -> subprograms l = [].
Proof.
  induction 1 as [|n l Hn Hl IH]; [done|].
  unfold subprograms in *. simpl. by rewrite Hn.
Qed.

(** C8. [getOrCreateFunctionDebugInfo] returns null, and changes nothing,
    for a function whose name is empty or starts with [llvm.].  For any
    other function with supported types that has no subprogram yet, the
    first call creates one subprogram node, named after the function, and
    attaches it to the function.  Whatever a call returned, every later
    call for the function returns the same descriptor and leaves the
    state as it is: N calls create one descriptor. *)
Theorem getOrCreateFunctionDebugInfo_null_or_one_descriptor :
  (forall F scope file lineNo g fn,
      m_functions (llmodule_ g) !! F = Some fn ->
      fn_name fn = "" \/ startswith (fn_name fn) "llvm." = true ->
      getOrCreateFunctionDebugInfo F scope file lineNo g = Ok (None, g))
  /\ (forall F scope file lineNo g fn b,
        m_functions (llmodule_ g) !! F = Some fn ->
        fn_name fn <> "" ->
        startswith (fn_name fn) "llvm." = false ->
        fn_subprogram fn = None ->
        DIBuilder_ g = Some b ->
        supported (fn_returnType fn) = true ->
        forallb supported (fn_paramTypes fn) = true ->
        exists h ty g1,
          getOrCreateFunctionDebugInfo F scope file lineNo g
          = Ok (Some h, g1)
          /\ (length (ctx_ g) <= h)%nat
          /\ ctx_ g1 !! h
             = Some (DISubprogram scope (fn_name fn) "" file lineNo ty false
                       true lineNo FlagPrototyped true)
          /\ m_functions (llmodule_ g1) !! F
             = Some (setSubprogram (Some h) fn)
          /\ length (subprograms (ctx_ g1))
             = S (length (subprograms (ctx_ g))))
  /\ (forall F scope file lineNo g r g1,
        getOrCreateFunctionDebugInfo F scope file lineNo g = Ok (r, g1) ->
        forall (n : nat) scope' file' lineNo',
          mapM (replicate n F)
            (fun F => getOrCreateFunctionDebugInfo F scope' file' lineNo') g1
          = Ok (replicate n r, g1)).
Proof.
  split_and!.
  - intros F scope file lineNo g fn HF Hname.
    eapply getOrCreateFunctionDebugInfo_internal; [done|].
    unfold isInternalName. destruct Hname as [->| ->]; [done|].
    by rewrite orb_true_r.
  - intros F scope file lineNo g fn b HF Hne Hpre Hsp Hb Hret Hpar.
    assert (Hint : isInternalName (fn_name fn) = false).
    { unfold isInternalName. by rewrite bool_decide_eq_false_2, Hpre. }
    destruct (getOrCreateFunctionDebugInfo_creates F scope file lineNo g fn b)
      as (r & g1 & Hrun); try done.
    destruct (getOrCreateFunctionDebugInfo_inv _ _ _ _ _ _ _ Hrun)
      as (fn' & HF' & [(Hint' & _)|[(_ & [sp Hsp'] & _)|
          (_ & _ & new & m' & tys & Hnew & -> & ->)]]).
    + congruence.
    + congruence.
    + assert (fn' = fn) as -> by congruence.
      eexists (S (length (ctx_ g ++ new))), (Some (length (ctx_ g ++ new))), _.
      split; [exact Hrun|].
      destruct g as [flag ctx Fir ai inum md bld dib dbg men od fs].
      simpl in *. unfold FuncRef in *. split_and!.
      * rewrite length_app. lia.
      * rewrite app_assoc, lookup_app_r by lia.
        replace (S (length (ctx ++ new)) - length (ctx ++ new))%nat
          with 1%nat by lia.
        reflexivity.
      * by rewrite list_lookup_alter_eq, HF.
      * rewrite !subprograms_app, (subprograms_none new Hnew).
        rewrite !length_app. simpl. lia.
  - intros F scope file lineNo g r g1 Hrun n scope' file' lineNo'.
    pose proof (getOrCreateFunctionDebugInfo_again _ _ _ _ _ _ _ Hrun
                  scope' file' lineNo') as Hagain.
    induction n as [|n IH]; simpl; [done|].
    unfold bind at 1. rewrite Hagain.
    unfold bind at 1. rewrite IH. reflexivity.
Qed.

(** ** Shadows of the arguments *)

Lemma shadowArgs_snoc F scope tys vars ty var expr : forall j id,
  length tys = length vars ->
  shadowArgs F scope j id (tys ++ [ty]) (vars ++ [(var, expr)])
  = shadowArgs F scope j id tys vars
    ++ [{| i_id := (3 * length tys + id)%nat; i_op := Alloca ty;
           i_debugLoc := None |};
        {| i_id := S (S (3 * length tys + id)%nat);
           i_op := DbgDeclare (VInst ((3 * length tys + id)%nat)) var expr;
           i_debugLoc := DebugLoc_get 0 0 scope |};
        {| i_id := S ((3 * length tys + id)%nat);
           i_op := Store (VArg F (length tys + j)%nat) (VInst ((3 * length tys + id)%nat));
           i_debugLoc := None |}].
Proof.
  revert vars. induction tys as [|ty0 tys IH]; intros [|[v e] vars] j id Hlen;
    simpl in *; try done.
  rewrite IH by lia. repeat f_equal; lia.
Qed.

Lemma shadowArgs_ids F scope tys : forall vars j id,
  Forall (fun I => id <= i_id I < id + 3 * length tys)%nat
    (shadowArgs F scope j id tys vars).
Proof.
  induction tys as [|ty tys IH]; intros [|[v e] vars] j id; simpl;
    try by constructor.
  repeat (constructor; [simpl; lia|]).
  eapply Forall_impl; [apply IH|]. simpl. intros I HI. lia.
Qed.

Lemma shadowArgs_allocas F scope tys : forall vars j id,
  length tys = length vars ->
  length (List.filter isAlloca (shadowArgs F scope j id tys vars))
  = length tys.
Proof.
  induction tys as [|ty tys IH]; intros [|[v e] vars] j id Hlen;
    simpl in *; try done.
  f_equal. apply IH. lia.
Qed.

Lemma insert_before_fresh x ins (P : list llvm_Instruction) s tl :
  Forall (fun I => i_id I <> x) P ->
  i_id s = x ->
  insert_before x ins (P ++ s :: tl) = P ++ ins :: s :: tl.
Proof.
  intros HP Hs. induction HP as [|y P Hy HP IH]; simpl.
  - by rewrite decide_True.
  - rewrite decide_False by done. by rewrite IH.
Qed.

Lemma insert_at_head n0 ins (P entry : list llvm_Instruction) :
  Forall (fun I => n0 <= i_id I)%nat P ->
  Forall (fun I => i_id I < n0)%nat entry ->
  insert_at (i_id <$> head entry) ins (P ++ entry) = P ++ ins :: entry.
Proof.
  intros HP He. destruct entry as [|x0 tl]; simpl.
  - by rewrite app_nil_r.
  - apply Forall_cons in He as [Hx0 _]. apply insert_before_fresh; [|done].
    eapply Forall_impl; [exact HP|]. simpl. intros I HI. lia.
Qed.

Lemma lookup_Module_insert (m : llvm_Module) F fn blk rest before ins :
  m_functions m !! F = Some fn ->
  fn_blocks fn = blk :: rest ->
  m_functions (bump_nextInst (Module_insert (F, O, before) ins m)) !! F
  = Some (set_blocks (fun _ => insert_at before ins blk :: rest) fn).
Proof.
  intros HF Hb. simpl. unfold FuncRef in *.
  rewrite list_lookup_alter_eq, HF. simpl.
  unfold set_blocks. by rewrite Hb.
Qed.

Lemma m_nextInst_insert (m : llvm_Module) ip ins :
  m_nextInst (bump_nextInst (Module_insert ip ins m)) = S (m_nextInst m).
Proof. by destruct ip as [[F bb] before]. Qed.

Lemma m_globals_insert (m : llvm_Module) ip ins :
  m_globals (bump_nextInst (Module_insert ip ins m)) = m_globals m.
Proof. by destruct ip as [[F bb] before]. Qed.

(** The three insertions of a round: the slot and the store go before the
    first instruction of the old entry block, the declaration before the
    store. *)
Lemma lookup_three_inserts (m : llvm_Module) F fn P entry rest n0
  (a d s : llvm_Instruction) :
  m_functions m !! F = Some fn ->
  fn_blocks fn = (P ++ entry) :: rest ->
  Forall (fun I => n0 <= i_id I < i_id a)%nat P ->
  Forall (fun I => i_id I < n0)%nat entry ->
  (n0 <= i_id a)%nat ->
  i_id s = S (i_id a) ->
  m_functions
    (bump_nextInst
       (Module_insert (F, O, Some (i_id s)) d
          (bump_nextInst
             (Module_insert (F, O, i_id <$> head entry) s
                (bump_nextInst
                   (Module_insert (F, O, i_id <$> head entry) a m))))))
  !! F
  = Some (set_blocks (fun _ => (P ++ [a; d; s] ++ entry) :: rest) fn).
Proof.
  intros HF Hblk HP Hentry Ha Hs.
  erewrite lookup_Module_insert; cycle 1.
  { erewrite lookup_Module_insert; cycle 1.
    { by apply lookup_Module_insert. }
    { reflexivity. }
    reflexivity. }
  { reflexivity. }
  f_equal. unfold set_blocks. simpl. f_equal. f_equal.
  rewrite (insert_at_head n0) by
    (done || (eapply Forall_impl; [exact HP|]; simpl; intros; lia)).
  replace (P ++ a :: entry) with ((P ++ [a]) ++ entry)
    by (by rewrite <- app_assoc).
  rewrite (insert_at_head n0); [|
    apply Forall_app; split;
      [eapply Forall_impl; [exact HP|]; simpl; intros; lia
      |by repeat constructor] | done].
  simpl. rewrite insert_before_fresh; [by rewrite <- app_assoc | | done].
  apply Forall_app. split.
  - eapply Forall_impl; [exact HP|]. simpl. intros. lia.
  - repeat constructor. lia.
Qed.

#[local] Arguments Module_insert : simpl never.
#[local] Arguments bump_nextInst : simpl never.

Lemma shadowArgument_step F b fn entry rest sp file n0 k vars g :
  shadowInv F b fn entry rest sp file n0 k vars g ->
  (k < length (fn_paramTypes fn))%nat ->
  forallb supported (fn_paramTypes fn) = true ->
  Forall (fun I => i_id I < n0)%nat entry ->
  exists g' v,
    shadowArgument F fn
      {| b_insertPoint := Some (F, O, i_id <$> head entry);
         b_currentDebugLoc := None |} (Some sp) file 0 k g
    = Ok (tt, g')
    /\ shadowInv F b fn entry rest sp file n0 (S k) (vars ++ [v]) g'.
Proof.
  intros (Hb & Hnext & HF & Hlen & Hvars) Hk Hsup Hentry.
  destruct (lookup_lt_is_Some_2 _ _ Hk) as [ty Hty].
  assert (Hs : supported ty = true).
  { rewrite forallb_forall in Hsup. apply Hsup.
    apply list_elem_of_In. by eapply list_elem_of_lookup_2. }
  unfold shadowArgument. rewrite Hty.
  unfold bind at 1. unfold deref at 1, ret at 1.
  unfold bind at 1. unfold CreateAlloca, IRBuilder_Insert at 1.
  unfold bind at 1, gets at 1. cbn [b_insertPoint b_currentDebugLoc].
  unfold bind at 1, modify at 1, ret at 1.
  set (g2 := set_llmodule _ g).
  destruct (getDebugType_spec ty g2 b Hs) as (d & new & m' & Hrun & _).
  { by destruct g. }
  unfold bind at 1. rewrite Hrun.
  destruct g as [flag ctx Fir ai inum md bld dib dbg men od fs].
  subst g2. simpl in *. subst dib.
  unfold CreateStore, IRBuilder_Insert, insertDeclare. mstep.
  eexists _, (Some (length (ctx ++ new)),
              Some (length
                      ((ctx ++ new)
                       ++ [DILocalVariable (Some sp)
                             ("arg" +:+ to_string (N.of_nat (k + 1)))
                             (Z.of_nat (k + 1)) file 0 d true]))).
  split; [reflexivity|].
  assert (Htake : length (take k (fn_paramTypes fn)) = k)
    by (rewrite length_take; lia).
  unfold shadowInv. simpl. split_and!.
  - done.
  - rewrite Hnext. lia.
  - assert (HP : Forall (fun I => n0 <= i_id I < m_nextInst md)%nat
                   (shadowArgs F (Some sp) 0 n0
                      (take k (fn_paramTypes fn)) vars)).
    { rewrite Hnext.
      eapply Forall_impl; [apply shadowArgs_ids|]. simpl.
      intros I HI. rewrite Htake in HI. lia. }
    pose proof (lookup_three_inserts md F _ _ entry rest n0
      {| i_id := m_nextInst md; i_op := Alloca ty; i_debugLoc := None |}
      {| i_id := S (S (m_nextInst md));
         i_op := DbgDeclare (VInst (m_nextInst md))
                   (Some (length (ctx ++ new)))
                   (Some (length
                      ((ctx ++ new)
                       ++ [DILocalVariable (Some sp)
                             ("arg" +:+ to_string (N.of_nat (k + 1)))
                             (Z.of_nat (k + 1)) file 0 d true])));
         i_debugLoc := Some (DILocation_get 0 0 (Some sp)) |}
      {| i_id := S (m_nextInst md);
         i_op := Store (VArg F k) (VInst (m_nextInst md));
         i_debugLoc := None |}
      HF eq_refl HP Hentry ltac:(simpl; lia) eq_refl) as H3.
    simpl in H3. rewrite H3. clear H3.
    rewrite (take_S_r _ _ _ Hty).
    rewrite shadowArgs_snoc by lia.
    rewrite Htake. unfold set_blocks. simpl.
    rewrite <- (app_assoc (shadowArgs _ _ _ _ _ _)). simpl.
    rewrite <- Hnext, Nat.add_0_r. reflexivity.
  - rewrite length_app. simpl. lia.
  - intros j var expr Hj.
    destruct (decide (j < length vars)%nat) as [Hlt|Hge].
    + rewrite lookup_app_l in Hj by done.
      destruct (Hvars _ _ _ Hj) as (hv & dty & -> & Hhv).
      exists hv, dty. split; [done|].
      rewrite <- !app_assoc. apply lookup_app_l_Some. exact Hhv.
    + rewrite lookup_app_r in Hj by lia.
      assert (j = length vars) as ->.
      { apply lookup_lt_Some in Hj. simpl in Hj. lia. }
      rewrite Nat.sub_diag in Hj. simpl in Hj. simplify_eq.
      eexists _, d. split; [reflexivity|].
      rewrite lookup_app_l by (rewrite !length_app; simpl; lia).
      rewrite lookup_app_r by lia. rewrite Nat.sub_diag. reflexivity.
Qed.

Lemma shadowArguments_loop F b fn entry rest sp file n0 :
  forallb supported (fn_paramTypes fn) = true ->
  Forall (fun I => i_id I < n0)%nat entry ->
  forall (m k : nat) vars g,
    shadowInv F b fn entry rest sp file n0 k vars g ->
    (k + m <= length (fn_paramTypes fn))%nat ->
    exists g' vars',
      forM_ (seq k m)
        (shadowArgument F fn
           {| b_insertPoint := Some (F, O, i_id <$> head entry);
              b_currentDebugLoc := None |} (Some sp) file 0) g
      = Ok (tt, g')
      /\ shadowInv F b fn entry rest sp file n0 (k + m) vars' g'.
Proof.
  intros Hsup Hentry. induction m as [|m IH]; intros k vars g Hinv Hk.
  - exists g, vars. rewrite Nat.add_0_r. by split.
  - destruct (shadowArgument_step _ _ _ _ _ _ _ _ _ _ _ Hinv) as
      (g1 & v & Hrun & Hinv1); [lia | done | done |].
    destruct (IH (S k) (vars ++ [v]) g1 Hinv1) as (g2 & vars2 & Hrun2 & Hinv2);
      [lia|].
    exists g2, vars2. split.
    + simpl. unfold bind. by rewrite Hrun.
    + by replace (k + S m)%nat with (S k + m)%nat by lia.
Qed.

Lemma setSubprogram_same fn sp :
  fn_subprogram fn = Some sp -> setSubprogram (Some sp) fn = fn.
Proof. destruct fn. simpl. by intros ->. Qed.

Lemma set_blocks_same fn blocks :
  fn_blocks fn = blocks -> set_blocks (fun _ => blocks) fn = fn.
Proof. destruct fn. simpl. by intros ->. Qed.

(** What [getOrCreateFunctionDebugInfo] leaves for the loop over the
    parameters. *)
Lemma getOrCreateFunctionDebugInfo_for_loop F scope file lineNo g fn b
  entry rest :
  m_functions (llmodule_ g) !! F = Some fn ->
  isInternalName (fn_name fn) = false ->
  DIBuilder_ g = Some b ->
  fn_blocks fn = entry :: rest ->
  supported (fn_returnType fn) = true ->
  forallb supported (fn_paramTypes fn) = true ->
  exists sp g1,
    getOrCreateFunctionDebugInfo F scope file lineNo g = Ok (Some sp, g1)
    /\ emitDebugInfo g1 = emitDebugInfo g
    /\ mainFile_ (dbgInfo_ g1) = mainFile_ (dbgInfo_ g)
    /\ shadowInv F b (setSubprogram (Some sp) fn) entry rest sp
         (mainFile_ (dbgInfo_ g)) (m_nextInst (llmodule_ g)) 0 [] g1.
Proof.
  intros HF Hint Hb Hblk Hret Hpar.
  destruct (fn_subprogram fn) as [sp|] eqn:Hsp.
  - exists sp, g. split_and!; try done.
    + by eapply getOrCreateFunctionDebugInfo_existing.
    + unfold shadowInv. simpl. split_and!; try done.
      rewrite HF. f_equal. rewrite (setSubprogram_same _ _ Hsp).
      symmetry. by apply set_blocks_same.
  - destruct (getOrCreateFunctionDebugInfo_creates F scope file lineNo g fn b)
      as (r & g1 & Hrun); try done.
    destruct (getOrCreateFunctionDebugInfo_inv _ _ _ _ _ _ _ Hrun)
      as (fn' & HF' & [(Hint' & _)|[(_ & [sp Hsp'] & _)|
          (_ & _ & new & m' & tys & Hnew & -> & ->)]]); try congruence.
    assert (fn' = fn) as -> by congruence.
    eexists _, _. split; [exact Hrun|].
    destruct g as [flag ctx Fir ai inum md bld dib dbg men od fs].
    simpl in *. split_and!; try done.
    unfold shadowInv. simpl. split_and!; try done.
    unfold FuncRef in *. rewrite list_lookup_alter_eq, HF. simpl.
    f_equal. unfold set_blocks, setSubprogram. simpl. by rewrite Hblk.
Qed.

Lemma to_uint_nonnil (n : N) : N.to_uint n <> Decimal.Nil.
Proof.
  destruct n as [|p]; [discriminate|]. simpl.
  apply DecimalPos.Unsigned.to_uint_nonnil.
Qed.

(** [std::to_string] gives different numbers different strings. *)
Lemma to_string_inj (n m : N) : to_string n = to_string m -> n = m.
Proof.
  intros H. unfold to_string in H.
  assert (Some (N.to_uint n) = Some (N.to_uint m)) as [= E].
  { rewrite <- !NilZero.usu by apply to_uint_nonnil. by rewrite H. }
  by apply DecimalN.Unsigned.to_uint_inj.
Qed.

Lemma argName_one_based (i : nat) :
  "arg" +:+ to_string (N.of_nat (i + 1)) <> "arg0".
Proof.
  intros H. simpl in H. injection H as H.
  apply (to_string_inj _ 0%N) in H. lia.
Qed.

(** C10. For a function with debug information switched on, a body, a
    name of its own and supported types, [generateFunctionDebugInfo]
    returns, and the entry block then starts with the shadows of the [n]
    parameters, in their order: for parameter [i] a stack slot of its
    type, the declaration of its variable on that slot, and the store of
    the [i]-th incoming argument into that slot; [n] slots in all.  The
    variable of parameter [i] is a parameter variable of the function's
    subprogram with argument number [i + 1] and name [arg] followed by
    [i + 1]: [arg1] for the first, never [arg0].  The rest of the body
    follows, every instruction without a location now on line 0. *)
Theorem generateFunctionDebugInfo_shadows_arguments
  (F : FuncRef) (g : LLVMIRGen) (b : DIBuilder) (fn : llvm_Function)
  (entry : list llvm_Instruction) (rest : list (list llvm_Instruction)) :
  emitDebugInfo g = true ->
  DIBuilder_ g = Some b ->
  m_functions (llmodule_ g) !! F = Some fn ->
  fn_name fn <> "" ->
  startswith (fn_name fn) "llvm." = false ->
  fn_blocks fn = entry :: rest ->
  supported (fn_returnType fn) = true ->
  forallb supported (fn_paramTypes fn) = true ->
  Forall (fun I => i_id I < m_nextInst (llmodule_ g))%nat entry ->
  exists g' fn' sp vars,
    generateFunctionDebugInfo F g = Ok (tt, g')
    /\ m_functions (llmodule_ g') !! F = Some fn'
    /\ fn_subprogram fn' = Some sp
    /\ fn_blocks fn'
       = map (fillDebugLoc (Some sp))
           (shadowArgs F (Some sp) 0 (m_nextInst (llmodule_ g))
              (fn_paramTypes fn) vars ++ entry)
         :: map (map (fillDebugLoc (Some sp))) rest
    /\ length vars = length (fn_paramTypes fn)
    /\ length (List.filter isAlloca
                 (shadowArgs F (Some sp) 0 (m_nextInst (llmodule_ g))
                    (fn_paramTypes fn) vars))
       = length (fn_paramTypes fn)
    /\ forall i var expr,
         vars !! i = Some (var, expr) ->
         exists hv dty,
           var = Some hv
           /\ ctx_ g' !! hv
              = Some (DILocalVariable (Some sp)
                        ("arg" +:+ to_string (N.of_nat (i + 1)))
                        (Z.of_nat (i + 1)) (mainFile_ (dbgInfo_ g)) 0 dty
                        true)
           /\ "arg" +:+ to_string (N.of_nat (i + 1)) <> "arg0".
Proof.
  intros Hflag Hb HF Hne Hpre Hblk Hret Hpar Hentry.
  assert (Hint : isInternalName (fn_name fn) = false).
  { unfold isInternalName. by rewrite bool_decide_eq_false_2, Hpre. }
  destruct (getOrCreateFunctionDebugInfo_for_loop F
              (mainFile_ (dbgInfo_ g)) (mainFile_ (dbgInfo_ g)) 0 g fn b
              entry rest HF Hint Hb Hblk Hret Hpar)
    as (sp & g1 & Hrun1 & Hflag1 & Hfile1 & Hinv0).
  destruct (shadowArguments_loop F b (setSubprogram (Some sp) fn) entry rest
              sp (mainFile_ (dbgInfo_ g)) (m_nextInst (llmodule_ g))
              Hpar Hentry (length (fn_paramTypes fn)) 0 [] g1 Hinv0)
    as (g2 & vars & Hrun2 & Hinv2); [simpl; lia|].
  simpl in Hinv2. destruct Hinv2 as (Hb2 & Hnext2 & HF2 & Hlen2 & Hvars2).
  rewrite firstn_all in HF2.
  unfold generateFunctionDebugInfo.
  unfold bind at 1, gets at 1. rewrite Hflag. simpl.
  unfold bind at 1, gets at 1. unfold bind at 1. rewrite Hrun1.
  destruct Hinv0 as (Hb1 & _ & HF1 & _).
  unfold bind at 1. unfold theFunction at 1, bind at 1, gets at 1.
  rewrite HF1. simpl. unfold bind at 1. simpl.
  unfold bind at 1.
  change (forM_ (seq 0 (length (fn_paramTypes fn))) _ g1)
    with (forM_ (seq 0 (length (fn_paramTypes fn)))
            (shadowArgument F (setSubprogram (Some sp) fn)
               {| b_insertPoint := Some (F, O, i_id <$> head entry);
                  b_currentDebugLoc := None |} (Some sp)
               (mainFile_ (dbgInfo_ g)) 0) g1).
  rewrite Hrun2.
  unfold getSubprogram, theFunction. mstep. rewrite HF2. simpl.
  rewrite Hb2. simpl.
  eexists _, _, sp, vars. split; [reflexivity|].
  simpl. unfold FuncRef in *. rewrite list_lookup_alter_eq, HF2. simpl.
  split_and!; try done.
  - by apply shadowArgs_allocas.
  - intros i var expr Hi.
    destruct (Hvars2 _ _ _ Hi) as (hv & dty & -> & Hhv).
    exists hv, dty. split_and!; [done | done | apply argName_one_based].
Qed.

(** * Further properties of the code *)

(** ** [getDebugType]: unsupported types *)

(** A type none of whose parts is in the cache. *)
Definition uncached (m : gmap Ty (option MDRef)) (ty : Ty) : Prop :=
  forall t, t ∈ subtypes ty -> m !! t = None.

(** X1. A type [getDebugType] has no case for, reached through pointers only,
    aborts the call with [llvm_unreachable] when the cache holds none of
    the types on the way: the recursion on the pointee comes before any
    node is created, so this is so with or without a [DIBuilder]. *)
Theorem getDebugType_unsupported_aborts (ty : Ty) (g : LLVMIRGen) :
  supported ty = false ->
  uncached (DITypes_ (dbgInfo_ g)) ty ->
  getDebugType ty g
  = Abort (Unreachable "Cannot create DWARF debug type for an LLVM type").
Proof.
  revert g. induction ty as [| |w|e IH|n]; intros g Hs Hu; try done.
  - simpl in Hs. simpl. unfold bind at 1, gets at 1.
    rewrite (Hu (PointerTy e)) by (simpl; set_solver).
    unfold bind at 1. unfold bind at 1. rewrite IH; [done | done |].
    intros t Ht. apply Hu. simpl. set_solver.
  - simpl. unfold bind at 1, gets at 1.
    rewrite (Hu (OtherTy n)) by (simpl; set_solver). done.
Qed.

(** ** [getDebugType]: what a descriptor is *)

(** X2. In a context whose cache entries are what [describes] says (a new
    context is one), [getDebugType] on a supported type returns such a
    descriptor, and leaves such a cache: a float is "float" of 32 bits,
    the integer of 64 bits is "size_t", another integer of [w] bits is
    "int<w>", both unsigned, a pointer is 64 bits wide and points to the
    descriptor the cache holds for its pointee, and [void] has no
    descriptor. *)
Theorem getDebugType_describes (ty : Ty) (g : LLVMIRGen) b :
  supported ty = true ->
  DIBuilder_ g = Some b ->
  cache_describes (ctx_ g) (DITypes_ (dbgInfo_ g)) ->
  exists d g',
    getDebugType ty g = Ok (d, g')
    /\ describes (ctx_ g') (DITypes_ (dbgInfo_ g')) ty d
    /\ cache_describes (ctx_ g') (DITypes_ (dbgInfo_ g')).
Proof.
  intros Hs Hb Hc.
  destruct (getDebugType_describes_cache ty g b Hs Hb Hc)
    as (d & new & m' & Hrun & _ & _ & Hd & Hc').
  exists d, (with_types (ctx_ g ++ new) m' g).
  assert (ctx_ (with_types (ctx_ g ++ new) m' g) = ctx_ g ++ new) as ->
    by done.
  assert (DITypes_ (dbgInfo_ (with_types (ctx_ g ++ new) m' g)) = m') as ->
    by done.
  split_and!; [done | by apply Hc' | done].
Qed.

(** ** [generateDebugInfo]: functions without debug information *)

Lemma checkFunctionsHaveDebugInfo_body_aborts (fns : list llvm_Function)
  (g : LLVMIRGen) :
  Exists (fun fn => isDeclaration fn = false /\ fn_subprogram fn = None) fns ->
  forM_ fns (fun fn =>
    if isDeclaration fn then ret tt
    else if bool_decide (is_Some (fn_subprogram fn)) then ret tt
    else
      abort (Unreachable
        "Expected all functions to have debug information at this point")) g
  = Abort (Unreachable
      "Expected all functions to have debug information at this point").
Proof.
  induction fns as [|fn fns IH]; intros Hex.
  - by apply Exists_nil in Hex.
  - simpl. unfold bind.
    destruct (isDeclaration fn) eqn:Ed.
    + apply Exists_cons in Hex as [[Hd _]|Hex]; [congruence|].
      simpl. by apply IH.
    + destruct (fn_subprogram fn) as [sp|] eqn:Es.
      * apply Exists_cons in Hex as [[_ Hn]|Hex]; [congruence|].
        rewrite bool_decide_eq_true_2 by done. simpl. by apply IH.
      * rewrite bool_decide_eq_false_2; [done|]. by intros [x Hx].
Qed.

Lemma checkFunctionsHaveDebugInfo_body_passes (fns : list llvm_Function)
  (g : LLVMIRGen) :
  Forall (fun fn => isDeclaration fn = true \/ is_Some (fn_subprogram fn))
    fns ->
  forM_ fns (fun fn =>
    if isDeclaration fn then ret tt
    else if bool_decide (is_Some (fn_subprogram fn)) then ret tt
    else
      abort (Unreachable
        "Expected all functions to have debug information at this point")) g
  = Ok (tt, g).
Proof.
  induction fns as [|fn fns IH]; intros Hall; [done|].
  apply Forall_cons in Hall as [Hfn Hall]. simpl. unfold bind.
  destruct (isDeclaration fn) eqn:Ed; simpl; [by apply IH|].
  destruct Hfn as [Hfn|Hfn]; [congruence|].
  rewrite bool_decide_eq_true_2 by done. simpl. by apply IH.
Qed.

(** X3. With the flag on, [generateDebugInfo] aborts with [llvm_unreachable]
    when the module has a function with a body and no subprogram; when
    every function is a declaration or has a subprogram, the check passes
    and changes nothing. *)
Theorem generateDebugInfo_needs_all_subprograms (g : LLVMIRGen) :
  emitDebugInfo g = true ->
  (Exists (fun fn => isDeclaration fn = false /\ fn_subprogram fn = None)
     (m_functions (llmodule_ g)) ->
   generateDebugInfo g
   = Abort (Unreachable
       "Expected all functions to have debug information at this point"))
  /\ (Forall (fun fn => isDeclaration fn = true \/ is_Some (fn_subprogram fn))
        (m_functions (llmodule_ g)) ->
      checkFunctionsHaveDebugInfo g = Ok (tt, g)).
Proof.
  intros Hflag. split.
  - intros Hex. unfold generateDebugInfo, bind at 1, gets at 1.
    rewrite Hflag. simpl. unfold bind at 1.
    unfold checkFunctionsHaveDebugInfo, bind at 1, gets at 1.
    by rewrite checkFunctionsHaveDebugInfo_body_aborts.
  - intros Hall.
    unfold checkFunctionsHaveDebugInfo, bind at 1, gets at 1.
    by apply checkFunctionsHaveDebugInfo_body_passes.
Qed.

(** ** The two sweeps over the instructions *)

Lemma mapM_pure {A B} (R : A -> B -> Prop) (f : A -> Gen B) (l : list A) :
  forall g ys g',
  (forall x g y g', f x g = Ok (y, g') -> g' = g /\ R x y) ->
  mapM l f g = Ok (ys, g') ->
  g' = g /\ Forall2 R l ys.
Proof.
  induction l as [|x l IH]; intros g ys g' Hf Hrun; simpl in Hrun.
  - unfold ret in Hrun. simplify_eq. by split.
  - apply bind_inv in Hrun as (y & g1 & Hx & Hrun).
    apply bind_inv in Hrun as (ys' & g2 & Hl & Hrun).
    unfold ret in Hrun. simplify_eq.
    apply Hf in Hx as [-> Hxy]. apply (IH _ _ _ Hf) in Hl as [-> Hl].
    split; [done|]. by constructor.
Qed.

(** What a sweep may do to an instruction with a subprogram [scope] at
    hand: keep it, or give it line 0 of [scope]; the instruction itself
    stays. *)
Definition relocated (scope : option MDRef) (instr instr' : llvm_Instruction)
  : Prop :=
  i_id instr' = i_id instr
  /\ i_op instr' = i_op instr
  /\ is_Some (i_debugLoc instr')
  /\ (i_debugLoc instr = None ->
      i_debugLoc instr' = Some (DILocation_get 0 0 scope)).

Lemma sweepInstruction_relocated fname scope instr g instr' g' :
  sweepInstruction fname scope instr g = Ok (instr', g') ->
  g' = g /\ relocated scope instr instr'.
Proof.
  rewrite sweepInstruction_cases. unfold relocated.
  destruct (i_debugLoc instr) as [loc|] eqn:E.
  - destruct (loc_scope loc); [|done].
    destruct (bool_decide _); intros [= <- <-]; simpl; rewrite ?E;
      by split_and!.
  - intros [= <- <-]. simpl. by split_and!.
Qed.

(** What the sweep of [generateDebugInfo] makes of a function. *)
Definition sweptFunction (fn fn' : llvm_Function) : Prop :=
  fn_name fn' = fn_name fn
  /\ fn_returnType fn' = fn_returnType fn
  /\ fn_paramTypes fn' = fn_paramTypes fn
  /\ fn_subprogram fn' = fn_subprogram fn
  /\ (isDeclaration fn = true \/ fn_subprogram fn = None -> fn' = fn)
  /\ (isDeclaration fn = false -> is_Some (fn_subprogram fn) ->
      Forall2 (Forall2 (relocated (fn_subprogram fn)))
        (fn_blocks fn) (fn_blocks fn')).

Lemma sweepFunction_swept fn (g : LLVMIRGen) fn' g' :
  sweepFunction fn g = Ok (fn', g') -> g' = g /\ sweptFunction fn fn'.
Proof.
  intros Hfn. unfold sweepFunction in Hfn. unfold sweptFunction.
  destruct (isDeclaration fn) eqn:Ed.
  { unfold ret in Hfn. simplify_eq. split; [done|].
    split_and!; try done; intros; congruence. }
  destruct (fn_subprogram fn) as [sp|] eqn:Es.
  2:{ unfold ret in Hfn. simplify_eq. split; [done|].
      split_and!; try done; by intros _ [x Hx]. }
  apply bind_inv in Hfn as (blocks & g1 & Hblocks & Hfn).
  unfold ret in Hfn. simplify_eq.
  eapply (mapM_pure (Forall2 (relocated (Some sp)))) in Hblocks
    as [-> Hall].
  + split; [done|]. simpl.
    split_and!; try done; intros [?|?]; congruence.
  + clear. intros BB g BB' g' HBB.
    eapply (mapM_pure (relocated (Some sp))) in HBB as [-> Hall];
      [by split|].
    intros instr g0 instr' g0' Hi.
    by eapply sweepInstruction_relocated.
Qed.

(** X4. The sweep of [generateDebugInfo], when it returns, has changed nothing
    but debug locations: the functions, their names, signatures and
    subprograms, and the identity and operation of every instruction are
    as before. A declaration and a function without a subprogram are as
    they were; in every other function each instruction has a location,
    and one that had none is on line 0 of the function's subprogram. *)
Theorem sweepModule_changes_locations_only (g g' : LLVMIRGen) :
  sweepModule g = Ok (tt, g') ->
  g' = set_llmodule (set_functions (fun _ => m_functions (llmodule_ g'))) g
  /\ Forall2 sweptFunction
       (m_functions (llmodule_ g)) (m_functions (llmodule_ g')).
Proof.
  unfold sweepModule. intros Hrun.
  apply bind_inv in Hrun as (fns & g1 & Hg & Hrun).
  unfold gets in Hg. simplify_eq.
  apply bind_inv in Hrun as (fns' & g2 & Hmap & Hrun).
  unfold modify in Hrun. simplify_eq.
  eapply (mapM_pure sweptFunction) in Hmap as [-> Hall].
  - split; [reflexivity | exact Hall].
  - intros fn g0 fn' g0'. apply sweepFunction_swept.
Qed.

(** X5. The loop that ends [generateFunctionDebugInfo] (lines 114-122), on a
    function with a subprogram: every instruction comes out with a
    location, one that had a location keeps it, and one that had none is
    on line 0 of the subprogram. Without a subprogram the function is left
    as it is. *)
Theorem fillDebugLocs_covers_and_keeps (scope : option MDRef)
  (fn : llvm_Function) :
  (scope = None -> fn_blocks (fillDebugLocs scope fn) = fn_blocks fn)
  /\ (is_Some scope ->
      Forall2
        (Forall2 (fun instr instr' =>
           relocated scope instr instr'
           /\ (is_Some (i_debugLoc instr) -> instr' = instr)))
        (fn_blocks fn) (fn_blocks (fillDebugLocs scope fn))).
Proof.
  split.
  - intros ->. simpl. induction (fn_blocks fn) as [|BB l IH]; simpl;
      [done | by rewrite IH].
  - intros [sp ->]. simpl.
    induction (fn_blocks fn) as [|BB l IH]; simpl; constructor; [|done].
    clear. induction BB as [|instr BB IH]; simpl; constructor; [|done].
    unfold fillDebugLoc, relocated.
    destruct (i_debugLoc instr) as [loc|] eqn:E; simpl; rewrite ?E.
    + by split_and!.
    + split_and!; try done; by intros [x Hx].
Qed.

(** ** The emitter on values the planner left out *)

(** X6. A value whose origin has no offset in [allocatedAddressed_] aborts the
    emitter on its assertion, whether or not the planner numbered the
    origin (with a builder and a supported element type, which the calls
    before the assertion need). *)
Theorem emit_without_offset_aborts (val : Value) (g : LLVMIRGen) b :
  DIBuilder_ g = Some b ->
  supported (getElementType (getOrigin val)) = true ->
  allocatedAddressed_ (allocationsInfo_ g) !! valueId (getOrigin val) = None ->
  emitDebugGlobalVariableForValue val g
  = Abort (AssertionFailed "The weight should be in the map").
Proof.
  intros Hb Hs Ho.
  destruct (getDebugType_spec _ g b Hs Hb) as (d & new & m' & Hrun & _).
  unfold emitDebugGlobalVariableForValue.
  unfold bind at 1, gets at 1. unfold bind at 1. rewrite Hrun.
  unfold valueNumbers_at, GlobalVariable_call.
  destruct g as [flag ctx F ai inum md bld dib dbg men od fs].
  simpl in *. subst dib. mstep.
  destruct (valueNumbers_ ai !! valueId (getOrigin val)) as [[kind num]|];
    simpl; by rewrite Ho.
Qed.

(** X7. A value whose origin the planner gave an offset and no number is
    emitted all the same: [valueNumbers_[val]] inserts the zero entry for
    it, and the record, with the address program of the offset, is
    attached to the base-pointer global of the storage class numbered 0,
    and to no other global. *)
Theorem emit_without_number_defaults (val : Value) (g : LLVMIRGen) b offset :
  DIBuilder_ g = Some b ->
  supported (getElementType (getOrigin val)) = true ->
  valueNumbers_ (allocationsInfo_ g) !! valueId (getOrigin val) = None ->
  allocatedAddressed_ (allocationsInfo_ g) !! valueId (getOrigin val)
  = Some offset ->
  baseGlobalsNamed g ->
  exists g' (r : nat) gv h hexpr ty,
    emitDebugGlobalVariableForValue val g = Ok (tt, g')
    /\ valueNumbers_ (allocationsInfo_ g')
       = <[valueId (getOrigin val) := (ValueKind_zero, 0)]>
           (valueNumbers_ (allocationsInfo_ g))
    /\ allocatedAddressed_ (allocationsInfo_ g')
       = allocatedAddressed_ (allocationsInfo_ g)
    /\ m_globals (llmodule_ g) !! r = Some gv
    /\ gv_name gv = spec_baseGlobalName ValueKind_zero
    /\ m_globals (llmodule_ g')
       = <[r := {| gv_name := gv_name gv; gv_type := gv_type gv;
                   gv_isConstant := gv_isConstant gv;
                   gv_internal := gv_internal gv;
                   gv_initializer := gv_initializer gv;
                   gv_debugInfo := gv_debugInfo gv ++ [Some h] |}]>
           (m_globals (llmodule_ g))
    /\ ctx_ g' !! h
       = Some (DIGlobalVariableExpression (compilationUnit_ (dbgInfo_ g))
                 (getName (F_ g) val) "" (mainFile_ (dbgInfo_ g)) 0 ty false
                 (Some hexpr))
    /\ ctx_ g' !! hexpr = Some (DIExpression (addressOps offset)).
Proof.
  intros Hb Hs Hk Ho Hnamed.
  destruct (baseGlobal_of_kind g ValueKind_zero Hnamed)
    as (r & gv & Hr & Hgv & Hname).
  destruct (getDebugType_spec _ g b Hs Hb) as (d & new & m' & Hrun & _).
  unfold emitDebugGlobalVariableForValue.
  unfold bind at 1, gets at 1. unfold bind at 1. rewrite Hrun.
  unfold valueNumbers_at, GlobalVariable_call.
  destruct g as [flag ctx F ai inum md bld dib dbg men od fs].
  simpl in *. subst dib. mstep. rewrite Hk. simpl. rewrite Ho. simpl.
  replace (baseAddressGV ValueKind_zero
             (set_DITypes (fun _ : gmap Ty (option MDRef) => m') dbg))
    with (Some r) by (by destruct ValueKind_zero).
  simpl.
  eexists _, r, gv, (S (S (length (ctx ++ new)))),
    (S (length (ctx ++ new))), (Some (length (ctx ++ new))).
  split; [reflexivity|]. simpl.
  rewrite !length_app. simpl. rewrite ?Nat.add_1_r, <- ?length_app.
  split_and!; [done | done | done | done | | |].
  - unfold GVRef in *.
    apply list_eq. intros i. destruct (decide (i = r)) as [->|Hne].
    + rewrite list_lookup_alter, decide_True, Hgv by done. simpl.
      rewrite list_lookup_insert_eq; [done|]. by eapply lookup_lt_Some.
    + rewrite list_lookup_alter, decide_False by done.
      by rewrite list_lookup_insert_ne.
  - rewrite <- !app_assoc, app_assoc. rewrite lookup_app_r by lia.
    replace (S (S (length (ctx ++ new))) - length (ctx ++ new))%nat
      with 2%nat by lia.
    reflexivity.
  - rewrite <- !app_assoc, app_assoc. rewrite lookup_app_r by lia.
    replace (S (length (ctx ++ new)) - length (ctx ++ new))%nat
      with 1%nat by lia.
    reflexivity.
Qed.

(** ** Name normalization over the values of a function *)

Lemma normalizeName_step (v : Value) (g : LLVMIRGen) :
  exists g',
    normalizeName v g = Ok (tt, g')
    /\ g' = set_F (fun _ => F_ g') g
    /\ ir_weights (F_ g') = ir_weights (F_ g)
    /\ ir_instrs (F_ g') = ir_instrs (F_ g)
    /\ getName (F_ g') v = (normalizeChars (getName (F_ g) v)).1
    /\ forall w, valueId w <> valueId v ->
         ir_names (F_ g') !! valueId w = ir_names (F_ g) !! valueId w.
Proof.
  pose proof (normalizeChars_unchanged (getName (F_ g) v)) as Hsame.
  unfold normalizeName, bind, gets.
  destruct (normalizeChars (getName (F_ g) v)) as [name' changed] eqn:E.
  simpl in *. destruct changed.
  - eexists. split; [reflexivity|]. simpl.
    split_and!;
      [ by destruct g | done | done | apply getName_setName
      | intros w Hw; by rewrite lookup_insert_ne ].
  - exists g. split; [reflexivity|].
    split_and!;
      [ by destruct g | done | done | by rewrite Hsame | done ].
Qed.

Lemma forM_normalizeName (vals : list Value) (g : LLVMIRGen) :
  exists g',
    forM_ vals normalizeName g = Ok (tt, g')
    /\ g' = set_F (fun _ => F_ g') g
    /\ ir_weights (F_ g') = ir_weights (F_ g)
    /\ ir_instrs (F_ g') = ir_instrs (F_ g)
    /\ (forall w, valueId w ∈ valueId <$> vals ->
          getName (F_ g') w = (normalizeChars (getName (F_ g) w)).1)
    /\ (forall w, valueId w ∉ valueId <$> vals ->
          ir_names (F_ g') !! valueId w = ir_names (F_ g) !! valueId w).
Proof.
  revert g. induction vals as [|v vals IH]; intros g.
  - exists g. simpl.
    split_and!;
      [ done | by destruct g | done | done
      | intros w Hw; by apply elem_of_nil in Hw | done ].
  - destruct (normalizeName_step v g)
      as (g1 & Hrun1 & Hg1 & Hw1 & Hi1 & Hv1 & Ho1).
    destruct (IH g1) as (g2 & Hrun2 & Hg2 & Hw2 & Hi2 & Hin2 & Ho2).
    exists g2. simpl. unfold bind. rewrite Hrun1.
    split_and!; [exact Hrun2 | | congruence | congruence | |].
    + rewrite Hg2, Hg1. by destruct g.
    + intros w Hw. rewrite ?fmap_cons in Hw.
      assert (forall x, valueId x = valueId v ->
                getName (F_ g1) x = (normalizeChars (getName (F_ g) x)).1)
        as Hv1'.
      { intros x Hx. unfold getName in *. rewrite Hx. exact Hv1. }
      destruct (decide (valueId w ∈ valueId <$> vals)) as [Hin|Hnin].
      * rewrite (Hin2 w Hin).
        destruct (decide (valueId w = valueId v)) as [Heq|Hne].
        -- rewrite (Hv1' w Heq). by rewrite normalizeChars_idempotent.
        -- unfold getName. by rewrite (Ho1 w Hne).
      * apply elem_of_cons in Hw as [Heq|Hin]; [|done].
        unfold getName at 1. rewrite (Ho2 w Hnin).
        apply (Hv1' w Heq).
    + intros w Hw. rewrite ?fmap_cons in Hw.
      apply not_elem_of_cons in Hw as [Hne Hnin].
      by rewrite (Ho2 w Hnin), (Ho1 w Hne).
Qed.

(** ** Names that normalize to one identifier *)

Definition isWordChar (c : ascii) : bool := isalpha c || isdigit c.

(** Two names of one length that differ only where neither has a letter
    or a digit. *)
Fixpoint sameWordChars (s1 s2 : string) : bool :=
  match s1, s2 with
  | EmptyString, EmptyString => true
  | String c1 r1, String c2 r2 =>
      (bool_decide (c1 = c2) || negb (isWordChar c1) && negb (isWordChar c2))
      && sameWordChars r1 r2
  | _, _ => false
  end.

Lemma normalizeChars_cons c s :
  (normalizeChars (String c s)).1
  = String (if isWordChar c then c else underscore) (normalizeChars s).1.
Proof.
  simpl. destruct (normalizeChars s) as [r ch]. unfold isWordChar.
  destruct (isalpha c), (isdigit c); simpl; try done.
  case_bool_decide; simpl; by subst.
Qed.

Lemma isWordChar_underscore : isWordChar underscore = false.
Proof. reflexivity. Qed.

(** X8. Normalization is not injective, and this is when two names get the
    same identifier: they have one length and agree wherever either has a
    letter or a digit. So names that differ in punctuation only, or in
    punctuation against an underscore, share the name of their debug
    records. *)
Theorem normalizeChars_same_iff (s1 s2 : string) :
  (normalizeChars s1).1 = (normalizeChars s2).1
  <-> sameWordChars s1 s2 = true.
Proof.
  revert s2. induction s1 as [|c1 s1 IH]; intros [|c2 s2];
    rewrite ?normalizeChars_cons; simpl; try done.
  rewrite andb_true_iff, <- IH. split.
  - intros [= Hc Hs]. split; [|done].
    destruct (isWordChar c1) eqn:E1, (isWordChar c2) eqn:E2; simpl;
      try (by rewrite orb_true_r).
    + subst. by rewrite bool_decide_eq_true_2.
    + subst. by rewrite isWordChar_underscore in E1.
    + subst. by rewrite isWordChar_underscore in E2.
  - intros [Hc ->]. f_equal.
    apply orb_true_iff in Hc as [Hc|Hc].
    + apply bool_decide_eq_true in Hc. by subst.
    + apply andb_true_iff in Hc as [H1 H2].
      apply negb_true_iff in H1, H2. by rewrite H1, H2.
Qed.

(** ** [initDebugInfo] *)

(** X9. With the flag on and no function [main] in the module, [initDebugInfo]
    aborts on the null pointer, where it takes the arguments of [main];
    the test of [main] that ends the function is never reached with a null
    [main]. *)
Theorem initDebugInfo_without_main_aborts (g : LLVMIRGen) :
  emitDebugInfo g = true ->
  Module_getFunction "main" (llmodule_ g) = None ->
  initDebugInfo g = Abort NullDereference.
Proof.
  intros Hflag Hmain. unfold initDebugInfo.
  unfold bind at 1, gets at 1. rewrite Hflag. simpl.
  unfold bind at 1, modify at 1. unfold bind at 1, modify at 1.
  unfold bind at 1, gets at 1.
  assert (Module_getFunction "main"
            (llmodule_
               (set_llmodule (addModuleFlag "Dwarf Version" 4)
                  (set_llmodule
                     (addModuleFlag "Debug Info Version"
                        DEBUG_METADATA_VERSION) g))) = None) as ->
    by exact Hmain.
  unfold newGlobalVariable, GlobalVariable_call.
  unfold bind, gets, modify, ret, deref, abort. simpl. reflexivity.
Qed.

Lemma DIBuilder_call_returns n (g : LLVMIRGen) r g' :
  DIBuilder_call n g = Ok (r, g') ->
  r = Some (length (ctx_ g))
  /\ g' = set_ctx (fun nodes => nodes ++ [n]) g.
Proof.
  unfold DIBuilder_call, bind, gets, deref, modify, ret, abort.
  destruct (DIBuilder_ g); [|done]. by intros [= <- <-].
Qed.

Lemma forM_cast_WeightVar_returns (f : Value -> Gen unit) (l : list Value) :
  forall g g',
    forM_ l (fun v => w <- cast_WeightVar v ;; f w) g = Ok (tt, g') ->
    Forall (fun v => isWeightVar v = true) l /\ forM_ l f g = Ok (tt, g').
Proof.
  induction l as [|v l IH]; intros g g' Hrun; simpl in *; [by split|].
  apply bind_inv in Hrun as ([] & g1 & Hv & Hrun).
  apply bind_inv in Hv as (w & g2 & Hcast & Hv).
  unfold cast_WeightVar, bind, cassert in Hcast.
  destruct (isWeightVar v) eqn:E; [|done].
  unfold ret in Hcast. injection Hcast as <- <-.
  apply IH in Hrun as [Hall Hrun]. split; [by constructor|].
  unfold bind. by rewrite Hv.
Qed.

Lemma forM_app {A} (f : A -> Gen unit) (l1 l2 : list A) (g : LLVMIRGen) :
  forM_ (l1 ++ l2) f g = (forM_ l1 f ;;; forM_ l2 f) g.
Proof.
  revert g. induction l1 as [|x l1 IH]; intros g; simpl.
  - done.
  - unfold bind. destruct (f x g) as [[[] g1]|e]; [|done]. apply IH.
Qed.

Lemma scanForFirstInstr_returns irContent (g g' : LLVMIRGen) :
  scanForFirstInstr irContent g = Ok (tt, g') ->
  mainFileFirstInstrLineNo_ (dbgInfo_ g') <> 0
  /\ exists n, g' = set_dbgInfo (set_mainFileFirstInstrLineNo n) g.
Proof.
  unfold scanForFirstInstr. intros Hrun.
  apply bind_inv in Hrun as ([] & g1 & Hfind & Hrun).
  apply bind_inv in Hrun as (first & g2 & Hget & Hrun).
  unfold gets in Hget. injection Hget as <- <-.
  unfold cassert in Hrun.
  destruct (Z.eqb_spec (mainFileFirstInstrLineNo_ (dbgInfo_ g1)) 0)
    as [Hz|Hnz]; [done|].
  simpl in Hrun. unfold ret in Hrun. injection Hrun as <-.
  split; [done|].
  destruct (findFirstInstrLineNo (getlines irContent) 0) as [n|].
  - unfold modify in Hfind. injection Hfind as <-. by exists n.
  - unfold ret in Hfind. injection Hfind as <-.
    exists (mainFileFirstInstrLineNo_ (dbgInfo_ g)).
    by destruct g as [? ? ? ? ? ? ? ? [] ? ? ?].
Qed.

Lemma cassert_returns (b : bool) msg (g : LLVMIRGen) a g' :
  cassert b msg g = Ok (a, g') -> b = true /\ g' = g.
Proof. unfold cassert. destruct b; [|done]. by intros [= <- <-]. Qed.

Lemma find_function_name name fns : forall i F,
  find_function name fns i = Some F ->
  exists fn, fns !! (F - i)%nat = Some fn /\ fn_name fn = name /\ (i <= F)%nat.
Proof.
  induction fns as [|fn fns IH]; intros i F Hfind; simpl in Hfind; [done|].
  destruct (decide (fn_name fn = name)) as [Hname|Hname].
  - injection Hfind as <-. exists fn. rewrite Nat.sub_diag. by split_and!.
  - apply IH in Hfind as (fn' & Hl & Hn & Hle). exists fn'.
    replace (F - i)%nat with (S (F - S i)) by lia. split_and!; [done|done|lia].
Qed.

(** Steps of a run that returned, on the hypothesis that it did. *)
Ltac step_gets H :=
  let a := fresh "a" in
  let st := fresh "st" in
  let Hs := fresh "Hs" in
  apply bind_inv in H as (a & st & Hs & H);
  unfold gets at 1 in Hs;
  injection Hs as <- <-.

Ltac step_modify H :=
  let a := fresh "a" in
  let st := fresh "st" in
  let Hs := fresh "Hs" in
  apply bind_inv in H as (a & st & Hs & H);
  unfold modify at 1 in Hs;
  injection Hs as <- <-.

Ltac norm_state H :=
  match type of H with
  | ?k ?st = ?r =>
      let st' :=
        eval cbv beta iota delta
          [set_ctx set_F set_allocationsInfo set_llmodule set_DIBuilder
           set_dbgInfo set_files set_builder set_DITypes set_mainFile
           set_mainF set_compilationUnit set_baseAddressGVs
           set_mainFileFirstInstrLineNo set_functions set_globals
           addModuleFlag bump_nextInst
           emitDebugInfo ctx_ F_ allocationsInfo_ instrNumbering_ llmodule_
           builder_ DIBuilder_ dbgInfo_ mainEntryName outputDir files
           m_flags m_globals m_functions m_nextInst
           mainFile_ mainF_ mainFileFirstInstrLineNo_ compilationUnit_
           DITypes_ constWeightsBaseAddressGV_ mutableWeightsBaseAddressGV_
           activationsBaseAddressGV_] in st in
      change (k st' = r) in H
  end.

Ltac step_with H defs :=
  let a := fresh "a" in
  let st := fresh "st" in
  let Hs := fresh "Hs" in
  apply bind_inv in H as (a & st & Hs & H);
  defs Hs;
  unfold bind, gets, modify, ret, deref in Hs;
  injection Hs as <- <-.

(** The functions of a module with, possibly, more instructions. *)
Definition sameFunction (fn fn' : llvm_Function) : Prop :=
  fn_name fn' = fn_name fn
  /\ fn_returnType fn' = fn_returnType fn
  /\ fn_paramTypes fn' = fn_paramTypes fn
  /\ fn_subprogram fn' = fn_subprogram fn.

Lemma sameFunction_alter f (F : nat) (fns : list llvm_Function) :
  Forall2 sameFunction fns (alter (set_blocks f) F fns).
Proof.
  revert F. induction fns as [|fn fns IH]; intros F; [constructor|].
  destruct F as [|F]; simpl; constructor; try done.
  - clear. induction fns; by constructor.
  - apply IH.
Qed.

Lemma sameFunction_refl (fns : list llvm_Function) :
  Forall2 sameFunction fns fns.
Proof. induction fns; by constructor. Qed.

Lemma sameFunction_trans (l1 l2 l3 : list llvm_Function) :
  Forall2 sameFunction l1 l2 -> Forall2 sameFunction l2 l3 ->
  Forall2 sameFunction l1 l3.
Proof.
  intros H12. revert l3. induction H12 as [|x y l1 l2 Hxy _ IH];
    intros l3 H23; inversion H23; subst; constructor; [|by apply IH].
  destruct Hxy as (?&?&?&?).
  match goal with H : sameFunction y _ |- _ => destruct H as (?&?&?&?) end.
  unfold sameFunction. split_and!; congruence.
Qed.

Lemma Function_arg_returns F i (g : LLVMIRGen) v g' :
  Function_arg F i g = Ok (v, g') ->
  v = VArg F i /\ g' = g
  /\ exists fn,
       m_functions (llmodule_ g) !! F = Some fn
       /\ (i < length (fn_paramTypes fn))%nat.
Proof.
  unfold Function_arg, theFunction, bind, gets, deref, ret, abort.
  destruct (m_functions (llmodule_ g) !! F) as [fn|]; [|done].
  case_bool_decide; [|done]. intros [= <- <-]. split_and!; [done|done|].
  by exists fn.
Qed.

Lemma Function_arg_runs F i (g : LLVMIRGen) fn :
  m_functions (llmodule_ g) !! F = Some fn ->
  (i < length (fn_paramTypes fn))%nat ->
  Function_arg F i g = Ok (VArg F i, g).
Proof.
  intros Hfn Hi.
  unfold Function_arg, theFunction, bind, gets, deref, ret.
  rewrite Hfn. by rewrite bool_decide_eq_true_2.
Qed.

(** The blocks of the functions after the builder [b] has placed the
    instruction [ins]. *)
Definition insertedBlocks (b : IRBuilder) (ins : llvm_Instruction)
  (blocks : list (list (list llvm_Instruction)))
  : list (list (list llvm_Instruction)) :=
  match b_insertPoint b with
  | Some (F, bb, before) => alter (alter (insert_at before ins) bb) F blocks
  | None => blocks
  end.

(** The store of the argument [i] of [main] into the [i]-th of the globals
    made after the [gvs] there were, as the instruction numbered [next + i]
    at the builder's current location. *)
Definition storeOfArg (b : IRBuilder) (next gvs : nat) (mainFn : FuncRef)
  (i : nat) : llvm_Instruction :=
  {| i_id := (next + i)%nat;
     i_op := Store (VArg mainFn i) (VGlobal (gvs + i)%nat);
     i_debugLoc := b_currentDebugLoc b |}.

Lemma fn_blocks_alter f (F : nat) (fns : list llvm_Function) :
  fn_blocks <$> alter (set_blocks f) F fns = alter f F (fn_blocks <$> fns).
Proof. apply list_fmap_alter. by apply Forall_true. Qed.

Lemma fn_blocks_setSubprogram sp (F : nat) (fns : list llvm_Function) :
  fn_blocks <$> alter (setSubprogram sp) F fns = fn_blocks <$> fns.
Proof.
  apply list_eq. intros i. rewrite !list_lookup_fmap.
  destruct (decide (i = F)) as [->|Hne].
  - rewrite list_lookup_alter_eq. by destruct (fns !! F).
  - by rewrite list_lookup_alter_ne.
Qed.

Lemma CreateStore_returns builder val ptr (g : LLVMIRGen) a g1 :
  CreateStore builder val ptr g = Ok (a, g1) ->
  exists fns',
    Forall2 sameFunction (m_functions (llmodule_ g)) fns'
    /\ fn_blocks <$> fns'
       = insertedBlocks builder
           {| i_id := m_nextInst (llmodule_ g); i_op := Store val ptr;
              i_debugLoc := b_currentDebugLoc builder |}
           (fn_blocks <$> m_functions (llmodule_ g))
    /\ g1 = set_llmodule (fun m =>
               {| m_flags := m_flags m; m_globals := m_globals m;
                  m_functions := fns'; m_nextInst := S (m_nextInst m) |}) g.
Proof.
  unfold CreateStore, IRBuilder_Insert, bind, gets, modify, ret.
  intros [= <- <-]. unfold insertedBlocks.
  destruct (b_insertPoint builder) as [[[F bb] before]|].
  - eexists. split_and!; [apply sameFunction_alter | | reflexivity].
    apply fn_blocks_alter.
  - eexists. split_and!; [apply sameFunction_refl | done | reflexivity].
Qed.

Lemma alter_appended_three {A} (f : A -> A) (l : list A) (a b c : A) :
  alter f (length ((l ++ [a]) ++ [b]))
    (alter f (length (l ++ [a]))
       (alter f (length l) (((l ++ [a]) ++ [b]) ++ [c])))
  = l ++ [f a; f b; f c].
Proof.
  induction l as [|x l IH]; [done|].
  simpl. f_equal. exact IH.
Qed.

Lemma lookup_appended_three {A} (l : list A) (a b c : A) :
  (l ++ [a; b; c]) !! length l = Some a
  /\ (l ++ [a; b; c]) !! S (length l) = Some b
  /\ (l ++ [a; b; c]) !! S (S (length l)) = Some c.
Proof. induction l as [|x l IH]; [done|exact IH]. Qed.

Lemma lookup_behind_two {A} (l1 l2 : list A) (a b x y : A) :
  (l1 ++ a :: b :: l2 ++ [x; y]) !! S (S (S (length l1)) + length l2)
  = Some y.
Proof.
  induction l1 as [|c l1 IH]; [|exact IH].
  simpl. induction l2 as [|c l2 IH]; [done|exact IH].
Qed.

Lemma initDebugInfo_inv (g g' : LLVMIRGen) :
  emitDebugInfo g = true ->
  initDebugInfo g = Ok (tt, g') ->
  exists mainFn path h fn rest,
    Module_getFunction "main" (llmodule_ g) = Some mainFn
    /\ Forall (fun v => isWeightVar v = true) (ir_weights (F_ g))
    /\ ir_weights (F_ g') = ir_weights (F_ g)
    /\ ir_instrs (F_ g') = ir_instrs (F_ g)
    /\ (forall w, valueId w ∈ valueId <$> emittedValues (F_ g) ->
          getName (F_ g') w = (normalizeChars (getName (F_ g) w)).1)
    /\ (forall w, valueId w ∉ valueId <$> emittedValues (F_ g) ->
          ir_names (F_ g') !! valueId w = ir_names (F_ g) !! valueId w)
    /\ make_absolute (outputDir g) = Some path
    /\ canOpen (path +:+ "/" +:+ mainEntryName g +:+ ".glow") = true
    /\ files g'
       = <[path +:+ "/" +:+ mainEntryName g +:+ ".glow" := dump (F_ g')]>
           (files g)
    /\ mainFileFirstInstrLineNo_ (dbgInfo_ g') <> 0
    /\ m_flags (llmodule_ g')
       = m_flags (llmodule_ g)
         ++ [("Debug Info Version", DEBUG_METADATA_VERSION);
             ("Dwarf Version", 4)]
    /\ m_globals (llmodule_ g')
       = m_globals (llmodule_ g)
         ++ [baseAddressGlobal "constWeightsBaseAddress";
             baseAddressGlobal "mutableWeightsBaseAddress";
             baseAddressGlobal "activationsBaseAddress"]
    /\ constWeightsBaseAddressGV_ (dbgInfo_ g')
       = Some (length (m_globals (llmodule_ g)))
    /\ mutableWeightsBaseAddressGV_ (dbgInfo_ g')
       = Some (S (length (m_globals (llmodule_ g))))
    /\ activationsBaseAddressGV_ (dbgInfo_ g')
       = Some (S (S (length (m_globals (llmodule_ g)))))
    /\ DIBuilder_ g' = Some DIBuilder_new
    /\ emitDebugInfo g' = true
    /\ instrNumbering_ g' = instrNumbering_ g
    /\ allocationsInfo_ g' = allocationsInfo_ g
    /\ builder_ g' = builder_ g
    /\ (let store :=
          storeOfArg (builder_ g) (m_nextInst (llmodule_ g))
            (length (m_globals (llmodule_ g))) mainFn in
        fn_blocks <$> m_functions (llmodule_ g')
        = insertedBlocks (builder_ g) (store 2%nat)
            (insertedBlocks (builder_ g) (store 1%nat)
               (insertedBlocks (builder_ g) (store O)
                  (fn_blocks <$> m_functions (llmodule_ g)))))
    /\ ctx_ g'
       = ctx_ g
         ++ [DIFile (mainEntryName g +:+ ".glow") path;
             DICompileUnit DW_LANG_C (Some (length (ctx_ g)))
               "Glow Compiler" false "" 0 "" FullDebug 1 true false]
         ++ rest
    /\ mainFile_ (dbgInfo_ g') = Some (length (ctx_ g))
    /\ compilationUnit_ (dbgInfo_ g') = Some (S (length (ctx_ g)))
    /\ mainF_ (dbgInfo_ g') = Some h
    /\ m_functions (llmodule_ g') !! mainFn = Some fn
    /\ fn_name fn = "main"
    /\ (exists fn0,
          m_functions (llmodule_ g) !! mainFn = Some fn0
          /\ fn_paramTypes fn = fn_paramTypes fn0
          /\ (3 <= length (fn_paramTypes fn0))%nat)
    /\ fn_subprogram fn = Some h
    /\ ((exists fn0, m_functions (llmodule_ g) !! mainFn = Some fn0
                     /\ fn_subprogram fn0 = Some h /\ rest = [])
        \/ (exists fn0 ty, m_functions (llmodule_ g) !! mainFn = Some fn0
                     /\ fn_subprogram fn0 = None
                     /\ ctx_ g' !! h
                        = Some (DISubprogram (Some (length (ctx_ g))) "main"
                                  "" (Some (length (ctx_ g))) 0 ty false
                                  true 0 FlagPrototyped true))).
Proof.
  intros Hflag Hrun. unfold initDebugInfo in Hrun.
  destruct g as [flag ctx F ai inum [flags gvs fns next] bld dib
                   [mfile mf first cu types cwgv mwgv acgv] men od fs].
  simpl in Hflag. subst flag.
  step_gets Hrun. cbn [negb] in Hrun. cbv iota in Hrun.
  do 2 step_modify Hrun. step_gets Hrun.
  norm_state Hrun.
  do 3 (step_with Hrun ltac:(fun H => unfold newGlobalVariable in H);
        norm_state Hrun).
  step_modify Hrun.
  do 3 (step_with Hrun ltac:(fun H => unfold GlobalVariable_call in H);
        norm_state Hrun).
  step_gets Hrun. norm_state Hrun.
  apply bind_inv in Hrun as (mainFn & st & Hmain & Hrun).
  unfold Module_getFunction, addModuleFlag in Hmain.
  cbn [llmodule_ m_functions set_llmodule] in Hmain.
  destruct (find_function "main" fns O) as [mainFn'|] eqn:Emain;
    [|discriminate Hmain].
  unfold deref, ret in Hmain. injection Hmain as -> <-.
  apply bind_inv in Hrun as (a0 & st & Ha0 & Hrun).
  apply Function_arg_returns in Ha0 as (-> & -> & _).
  apply bind_inv in Hrun as (s1 & st & Hs1 & Hrun).
  apply CreateStore_returns in Hs1 as (fns1 & Hfns1 & Hb1 & ->).
  cbn in Hfns1. cbn [llmodule_ m_functions m_nextInst] in Hb1.
  norm_state Hrun.
  apply bind_inv in Hrun as (a1 & st & Ha1 & Hrun).
  apply Function_arg_returns in Ha1 as (-> & -> & _).
  apply bind_inv in Hrun as (s2 & st & Hs2 & Hrun).
  apply CreateStore_returns in Hs2 as (fns2 & Hfns2 & Hb2 & ->).
  cbn in Hfns2. cbn [llmodule_ m_functions m_nextInst] in Hb2.
  norm_state Hrun.
  apply bind_inv in Hrun as (a2 & st & Ha2 & Hrun).
  apply Function_arg_returns in Ha2 as (-> & -> & fa & Hfa & Hargs).
  cbn [llmodule_ m_functions] in Hfa.
  apply bind_inv in Hrun as (s3 & st & Hs3 & Hrun).
  apply CreateStore_returns in Hs3 as (fns3 & Hfns3 & Hb3 & ->).
  cbn in Hfns3. cbn [llmodule_ m_functions m_nextInst] in Hb3.
  norm_state Hrun.
  destruct (Forall2_lookup_l _ _ _ _ _ Hfns3 Hfa)
    as (fa3 & Hfa3 & _ & _ & Hparams & _).
  rewrite <- Hparams in Hargs. clear Hparams Hfa fa.
  pose proof (sameFunction_trans _ _ _ Hfns1
                (sameFunction_trans _ _ _ Hfns2 Hfns3)) as Hfns.
  rewrite Hb2, Hb1 in Hb3.
  clear Hfns1 Hfns2 Hfns3 Hb1 Hb2 s1 s2 s3.
  rewrite alter_appended_three in Hrun.
  step_modify Hrun. norm_state Hrun.
  step_gets Hrun. norm_state Hrun.
  (* the names *)
  apply bind_inv in Hrun as ([] & st1 & Hweights & Hrun).
  apply forM_cast_WeightVar_returns in Hweights as [Hww Hweights].
  apply bind_inv in Hrun as (instrs & st & Hget & Hrun).
  unfold gets at 1 in Hget. injection Hget as <- <-.
  apply bind_inv in Hrun as ([] & st2 & Hinstrs & Hrun).
  rewrite forM_skip in Hinstrs.
  match type of Hweights with forM_ _ _ ?stA = _ =>
    destruct (forM_normalizeName (ir_weights F) stA)
      as (st1' & Hrun1 & _ & _ & Hinstrs1 & _);
    rewrite Hrun1 in Hweights; injection Hweights as ->;
    cbn in Hinstrs1; rewrite Hinstrs1 in Hinstrs;
    destruct (forM_normalizeName (emittedValues F) stA)
      as (st2' & Hrun2 & Hst2 & Hw2 & Hi2 & Hin2 & Hout2);
    unfold emittedValues in Hrun2 at 1;
    rewrite forM_app in Hrun2; unfold bind in Hrun2;
    rewrite Hrun1 in Hrun2
  end.
  change (List.filter isAllocOrView (ir_instrs F))
    with (List.filter
            (fun v => isAllocActivationInst v || isTensorViewInst v)
            (ir_instrs F)) in Hrun2.
  rewrite Hinstrs in Hrun2. injection Hrun2 as <-.
  clear Hrun1 Hinstrs Hinstrs1.
  cbn in Hw2, Hi2, Hin2, Hout2.
  remember (F_ st2) as F1 eqn:HF1. clear HF1.
  rewrite Hst2 in Hrun. clear Hst2 st1. norm_state Hrun.
  (* the file *)
  do 3 step_gets Hrun. norm_state Hrun.
  apply bind_inv in Hrun as ([] & st & Habs & Hrun).
  apply cassert_returns in Habs as [Habs ->].
  apply bind_inv in Hrun as ([] & st & Hopen & Hrun).
  apply cassert_returns in Hopen as [Hopen ->].
  apply bool_decide_eq_true in Habs as [path Hpath].
  rewrite Hpath in Hrun, Hopen. cbn [default] in Hrun, Hopen.
  step_modify Hrun. norm_state Hrun.
  (* the scaffolding *)
  apply bind_inv in Hrun as ([] & st & Hscan & Hrun).
  apply scanForFirstInstr_returns in Hscan as [Hline [n ->]].
  cbn in Hline. norm_state Hrun.
  apply bind_inv in Hrun as (mainFile & st & Hfile & Hrun).
  apply DIBuilder_call_returns in Hfile as [-> ->].
  step_modify Hrun. norm_state Hrun.
  apply bind_inv in Hrun as (cu' & st & Hcu & Hrun).
  apply DIBuilder_call_returns in Hcu as [-> ->].
  step_modify Hrun. norm_state Hrun.
  apply bind_inv in Hrun as (mainF & st & HmainF & Hrun).
  unfold modify in Hrun. injection Hrun as <-.
  unfold Module_getFunction, addModuleFlag in HmainF.
  cbn [llmodule_ m_functions set_llmodule] in HmainF.
  rewrite Emain in HmainF.
  cbn [ctx_] in HmainF.
  apply getOrCreateFunctionDebugInfo_inv in HmainF as (fn & Hfn & Hcases).
  cbn [llmodule_ m_functions] in Hfn.
  destruct (find_function_name _ _ _ _ Emain) as (fn0 & Hfn0 & Hname0 & _).
  rewrite Nat.sub_0_r in Hfn0.
  destruct (Forall2_lookup_l _ _ _ _ _ Hfns Hfn0) as (fn3 & Hfn3 & Hsame).
  unfold FuncRef in *.
  rewrite Hfn in Hfn3. injection Hfn3 as <-.
  rewrite Hfn in Hfa3. injection Hfa3 as <-.
  destruct Hsame as (Hn & _ & Hpt & Hsp).
  assert (isInternalName (fn_name fn) = false) as Hint
    by (rewrite Hn, Hname0; by vm_compute).
  unfold id in Hopen.
  assert (fn_blocks <$> fns3
          = insertedBlocks bld (storeOfArg bld next (length gvs) mainFn 2)
              (insertedBlocks bld
                 (storeOfArg bld next (length gvs) mainFn 1)
                 (insertedBlocks bld
                    (storeOfArg bld next (length gvs) mainFn O)
                    (fn_blocks <$> fns)))) as Hblocks.
  { rewrite Hb3. unfold storeOfArg. rewrite !length_app. cbn [length].
    rewrite !Nat.add_0_r.
    replace (next + 1)%nat with (S next) by lia.
    replace (next + 2)%nat with (S (S next)) by lia.
    by replace (length gvs + 1 + 1)%nat with (length gvs + 2)%nat by lia. }
  clear Hb3.
  destruct Hcases
    as [(Hint' & _)
       |[(_ & [h Hh] & -> & ->)
        |(_ & Hnone & new & m' & tys & Hnew & -> & ->)]].
  - congruence.
  - exists mainFn, path, h, fn, [].
    simpl. rewrite ?length_app, <- ?app_assoc, ?app_nil_r. simpl.
    rewrite ?Nat.add_1_r.
    split_and!; try done.
    + by rewrite Hn.
    + exists fn0. split_and!; [done | done | rewrite <- Hpt; lia].
    + left. exists fn0. split_and!; [done | by rewrite <- Hsp | done].
  - eexists mainFn, path, _, (setSubprogram _ fn), _.
    unfold with_types. simpl.
    rewrite ?length_app, <- ?app_assoc. simpl.
    rewrite ?Nat.add_1_r.
    split_and!; try done.
    + by rewrite fn_blocks_setSubprogram.
    + by rewrite list_lookup_alter_eq, Hfn.
    + by rewrite Hn.
    + exists fn0. split_and!; [done | done | rewrite <- Hpt; lia].
    + right. exists fn0, (Some (S (S (length ctx)) + length new)%nat).
      split_and!; [done | by rewrite <- Hsp |].
      rewrite Hn, Hname0. apply lookup_behind_two.
Qed.

(** *** The run that returns *)

(** The dump has a marker line, and the number of the line after it is
    not zero. *)
Definition hasCodeMarker (irContent : string) : bool :=
  match findFirstInstrLineNo (getlines irContent) 0 with
  | Some n => negb (n =? 0)
  | None => false
  end.

Lemma bind_returns {A} (c : Gen A) (k : A -> Gen unit) st a st' :
  c st = Ok (a, st') ->
  (exists g', k a st' = Ok (tt, g')) ->
  exists g', bind c k st = Ok (tt, g').
Proof. intros Hc [g' Hk]. exists g'. by rewrite (bind_Ok _ _ _ _ _ Hc). Qed.

Lemma CreateStore_runs builder val ptr (g : LLVMIRGen) :
  exists a fns',
    Forall2 sameFunction (m_functions (llmodule_ g)) fns'
    /\ CreateStore builder val ptr g
       = Ok (a, set_llmodule (fun m =>
                  {| m_flags := m_flags m; m_globals := m_globals m;
                     m_functions := fns';
                     m_nextInst := S (m_nextInst m) |}) g).
Proof.
  destruct (CreateStore builder val ptr g) as [[a g1]|e] eqn:E.
  - destruct (CreateStore_returns _ _ _ _ _ _ E) as (fns' & Hfns & _ & ->).
    by exists a, fns'.
  - unfold CreateStore, IRBuilder_Insert, bind, gets, modify, ret in E.
    discriminate E.
Qed.

Lemma forM_cast_WeightVar_runs (f : Value -> Gen unit) (l : list Value) :
  Forall (fun v => isWeightVar v = true) l ->
  forall g, forM_ l (fun v => w <- cast_WeightVar v ;; f w) g = forM_ l f g.
Proof.
  induction 1 as [|v l Hv _ IH]; intros g; simpl; [done|].
  unfold cast_WeightVar, cassert. rewrite Hv. unfold bind at 2 3, ret.
  unfold bind. destruct (f v g) as [[[] g1]|e]; [apply IH|done].
Qed.

Lemma scanForFirstInstr_runs irContent (g : LLVMIRGen) :
  hasCodeMarker irContent = true ->
  exists n,
    scanForFirstInstr irContent g
    = Ok (tt, set_dbgInfo (set_mainFileFirstInstrLineNo n) g).
Proof.
  unfold hasCodeMarker, scanForFirstInstr. intros Hmarker.
  destruct (findFirstInstrLineNo (getlines irContent) 0) as [n|]; [|done].
  exists n. unfold bind, modify, gets, cassert. simpl.
  by rewrite Hmarker.
Qed.

Lemma DIBuilder_call_runs n (g : LLVMIRGen) b :
  DIBuilder_ g = Some b ->
  DIBuilder_call n g
  = Ok (Some (length (ctx_ g)), set_ctx (fun nodes => nodes ++ [n]) g).
Proof.
  intros Hb. unfold DIBuilder_call, bind, gets, deref, modify, ret.
  by rewrite Hb.
Qed.

Ltac fwd := eapply bind_returns; [reflexivity|]; cbv beta.

(** X10. With the flag on and a function [main] in the module,
    [initDebugInfo] returns when [main] has the three arguments it
    stores, its types are ones [getDebugType] has a case for, every
    variable of the graph has a [WeightVar], the output directory has an
    absolute path, the file can be opened, and the dump of the function
    has a marker line.  It does not return when [main] has fewer than
    three parameters: the stores read its arguments 0, 1 and 2. *)
Theorem initDebugInfo_returns (g : LLVMIRGen) mainFn fn path :
  emitDebugInfo g = true ->
  Module_getFunction "main" (llmodule_ g) = Some mainFn ->
  m_functions (llmodule_ g) !! mainFn = Some fn ->
  ((3 <= length (fn_paramTypes fn))%nat ->
   supported (fn_returnType fn) = true ->
   forallb supported (fn_paramTypes fn) = true ->
   Forall (fun v => isWeightVar v = true) (ir_weights (F_ g)) ->
   make_absolute (outputDir g) = Some path ->
   canOpen (path +:+ "/" +:+ mainEntryName g +:+ ".glow") = true ->
   (forall F',
      ir_weights F' = ir_weights (F_ g) ->
      ir_instrs F' = ir_instrs (F_ g) ->
      hasCodeMarker (dump F') = true) ->
   exists g', initDebugInfo g = Ok (tt, g'))
  /\ ((length (fn_paramTypes fn) < 3)%nat ->
      forall g', initDebugInfo g <> Ok (tt, g')).
Proof.
  intros Hflag Hmain Hfn. split.
  2:{ intros Hlt g' Hrun.
      destruct (initDebugInfo_inv g g' Hflag Hrun)
        as (mainFn' & path' & h & fn' & rest & Hmain' & _ & _ & _ & _ & _
            & _ & _ & _ & _ & _ & _ & _ & _ & _ & _ & Hflag' & _ & _ & _
            & _ & _ & _ & _ & HmainF & Hfn' & _ & (fn0 & Hfn0 & _ & Hargs)
            & _).
      rewrite Hmain in Hmain'. injection Hmain' as <-.
      unfold FuncRef in *. rewrite Hfn in Hfn0. injection Hfn0 as <-.
      lia. }
  intros Hargs Hret Hparams Hweights Habs Hopen Hmarker.
  unfold initDebugInfo.
  fwd. rewrite Hflag. cbn [negb].
  do 2 fwd.
  eapply (bind_returns _ _ _ (Some mainFn));
    [unfold gets; do 2 f_equal; exact Hmain|]. cbv beta.
  do 3 fwd. fwd. do 3 fwd. fwd. fwd.
  lazymatch goal with |- exists _, _ ?st = _ => set (stA := st) end.
  assert (F_ stA = F_ g) as HA_F by reflexivity.
  assert (outputDir stA = outputDir g) as HA_od by reflexivity.
  assert (mainEntryName stA = mainEntryName g) as HA_men by reflexivity.
  assert (m_functions (llmodule_ stA) = m_functions (llmodule_ g))
    as HA_fns by reflexivity.
  clearbody stA.
  (* the stores into the globals *)
  eapply bind_returns;
    [apply (Function_arg_runs _ _ _ fn); [by rewrite HA_fns | lia]|].
  cbv beta.
  lazymatch goal with
  | |- exists _, bind (CreateStore ?b ?v ?p) _ ?st = _ =>
      destruct (CreateStore_runs b v p st) as (? & fns1 & Hfns1 & Hs1)
  end.
  eapply bind_returns; [exact Hs1|]. clear Hs1. cbv beta.
  cbn [llmodule_ set_llmodule m_functions] in Hfns1.
  rewrite HA_fns in Hfns1.
  destruct (Forall2_lookup_l _ _ _ _ _ Hfns1 Hfn)
    as (f1 & Hf1 & _ & _ & Hp1 & _).
  eapply bind_returns;
    [apply (Function_arg_runs _ _ _ f1); [exact Hf1 | rewrite Hp1; lia]|].
  cbv beta.
  lazymatch goal with
  | |- exists _, bind (CreateStore ?b ?v ?p) _ ?st = _ =>
      destruct (CreateStore_runs b v p st) as (? & fns2 & Hfns2 & Hs2)
  end.
  eapply bind_returns; [exact Hs2|]. clear Hs2. cbv beta.
  cbn [llmodule_ set_llmodule m_functions] in Hfns2.
  destruct (Forall2_lookup_l _ _ _ _ _ Hfns2 Hf1)
    as (f2 & Hf2 & _ & _ & Hp2 & _).
  eapply bind_returns;
    [apply (Function_arg_runs _ _ _ f2);
     [exact Hf2 | rewrite Hp2, Hp1; lia]|].
  cbv beta.
  lazymatch goal with
  | |- exists _, bind (CreateStore ?b ?v ?p) _ ?st = _ =>
      destruct (CreateStore_runs b v p st) as (? & fns3 & Hfns3 & Hs3)
  end.
  eapply bind_returns; [exact Hs3|]. clear Hs3. cbv beta.
  cbn [llmodule_ set_llmodule m_functions] in Hfns3.
  clear Hf1 Hf2 Hp1 Hp2 f1 f2.
  pose proof (sameFunction_trans _ _ _ Hfns1
                (sameFunction_trans _ _ _ Hfns2 Hfns3)) as Hfns.
  clear Hfns1 Hfns2 Hfns3.
  fwd.
  lazymatch goal with |- exists _, _ ?st = _ => set (stB := st) end.
  assert (F_ stB = F_ g) as HB_F by exact HA_F.
  assert (outputDir stB = outputDir g) as HB_od by exact HA_od.
  assert (mainEntryName stB = mainEntryName g) as HB_men by exact HA_men.
  assert (m_functions (llmodule_ stB) = fns3) as HB_fns by reflexivity.
  assert (DIBuilder_ stB = Some DIBuilder_new) as HB_dib by reflexivity.
  clearbody stB. clear HA_F HA_od HA_men HA_fns stA fns1 fns2.
  (* the names *)
  fwd. rewrite HB_F.
  destruct (forM_normalizeName (ir_weights (F_ g)) stB)
    as (g1 & Hrun1 & Hg1 & Hw1 & Hi1 & _).
  eapply bind_returns;
    [rewrite forM_cast_WeightVar_runs by exact Hweights; exact Hrun1|].
  cbv beta. fwd.
  destruct (forM_normalizeName
              (List.filter
                 (fun v => isAllocActivationInst v || isTensorViewInst v)
                 (ir_instrs (F_ g1))) g1)
    as (g2 & Hrun2 & Hg2 & Hw2 & Hi2 & _).
  eapply bind_returns; [rewrite forM_skip; exact Hrun2|].
  cbv beta. clear Hrun1 Hrun2.
  assert (outputDir g2 = outputDir g) as H2_od
    by (rewrite Hg2, Hg1; exact HB_od).
  assert (mainEntryName g2 = mainEntryName g) as H2_men
    by (rewrite Hg2, Hg1; exact HB_men).
  assert (m_functions (llmodule_ g2) = fns3) as H2_fns
    by (rewrite Hg2, Hg1; exact HB_fns).
  assert (DIBuilder_ g2 = Some DIBuilder_new) as H2_dib
    by (rewrite Hg2, Hg1; exact HB_dib).
  assert (hasCodeMarker (dump (F_ g2)) = true) as H2_marker
    by (apply Hmarker; congruence).
  clear Hg1 Hg2 Hw1 Hw2 Hi1 Hi2 HB_F HB_od HB_men HB_fns HB_dib g1 stB.
  (* the file *)
  do 3 fwd. rewrite H2_od, H2_men, Habs. cbn [default]. unfold id.
  eapply bind_returns;
    [rewrite bool_decide_eq_true_2 by eauto; reflexivity|]. cbv beta.
  eapply bind_returns; [rewrite Hopen; reflexivity|]. cbv beta.
  fwd.
  (* the scaffolding *)
  lazymatch goal with
  | |- exists _, bind (scanForFirstInstr ?s) _ ?st = _ =>
      destruct (scanForFirstInstr_runs s st H2_marker) as [n Hscan]
  end.
  eapply bind_returns; [exact Hscan|]. clear Hscan. cbv beta.
  eapply bind_returns; [by apply (DIBuilder_call_runs _ _ DIBuilder_new)|].
  cbv beta. fwd.
  eapply bind_returns; [by apply (DIBuilder_call_runs _ _ DIBuilder_new)|].
  cbv beta. fwd.
  lazymatch goal with
  | |- exists _, bind _ _ ?st = _ => set (stD := st)
  end.
  assert (m_functions (llmodule_ stD) = fns3) as HD_fns by exact H2_fns.
  assert (DIBuilder_ stD = Some DIBuilder_new) as HD_dib by exact H2_dib.
  clearbody stD.
  destruct (find_function_name _ _ _ _ Hmain) as (fn0 & Hfn0 & Hname & _).
  rewrite Nat.sub_0_r in Hfn0. unfold FuncRef in *.
  rewrite Hfn in Hfn0. injection Hfn0 as <-.
  destruct (Forall2_lookup_l _ _ _ _ _ Hfns Hfn) as (fn3 & Hfn3 & Hsame).
  destruct Hsame as (Hn & Hr & Hp & _).
  rewrite <- HD_fns in Hfn3.
  assert (isInternalName (fn_name fn3) = false) as Hint
    by (rewrite Hn, Hname; by vm_compute).
  destruct (fn_subprogram fn3) as [sp|] eqn:Hsp.
  - eapply bind_returns;
      [by apply (getOrCreateFunctionDebugInfo_existing _ _ _ _ _ fn3 sp)|].
    eexists. reflexivity.
  - lazymatch goal with
    | |- exists _,
           bind (getOrCreateFunctionDebugInfo ?F ?sc ?fl ?ln) _ ?st = _ =>
        destruct (getOrCreateFunctionDebugInfo_creates F sc fl ln st fn3
                    DIBuilder_new)
          as (r & g3 & Hcreate); try done
    end.
    + by rewrite Hr.
    + by rewrite Hp.
    + eapply bind_returns; [exact Hcreate|]. eexists. reflexivity.
Qed.

(** *** What the run that returned has done *)

(** X11. When [initDebugInfo] returns with the flag on, the names are
    normalized before the function is dumped: every weight, activation and
    tensor view has the normalized form of its name, every other name and
    the weights and instructions are as before, and the file [<absolute
    output directory>/<entry name>.glow] holds the dump of the function
    with the new names. The line recorded for the first instruction is not
    zero. *)
Theorem initDebugInfo_names_then_dump (g g' : LLVMIRGen) :
  emitDebugInfo g = true ->
  initDebugInfo g = Ok (tt, g') ->
  Forall (fun v => isWeightVar v = true) (ir_weights (F_ g))
  /\ ir_weights (F_ g') = ir_weights (F_ g)
  /\ ir_instrs (F_ g') = ir_instrs (F_ g)
  /\ (forall w, valueId w ∈ valueId <$> emittedValues (F_ g) ->
        getName (F_ g') w = (normalizeChars (getName (F_ g) w)).1)
  /\ (forall w, valueId w ∉ valueId <$> emittedValues (F_ g) ->
        ir_names (F_ g') !! valueId w = ir_names (F_ g) !! valueId w)
  /\ (exists path,
        make_absolute (outputDir g) = Some path
        /\ files g'
           = <[path +:+ "/" +:+ mainEntryName g +:+ ".glow"
               := dump (F_ g')]> (files g))
  /\ mainFileFirstInstrLineNo_ (dbgInfo_ g') <> 0.
Proof.
  intros Hflag Hrun.
  destruct (initDebugInfo_inv g g' Hflag Hrun)
    as (mainFn & path & h & fn & rest & _ & Hww & Hw & Hi & Hin & Hout
        & Habs & _ & Hfiles & Hline & _).
  split_and!; try done. by exists path.
Qed.

(** X12. When [initDebugInfo] returns with the flag on, the module has the
    two flags and, after the globals it had, the three base-pointer
    globals, internal and initialized to null; each of the three pointers
    of the debug context points to the global of its name.  The metadata
    has, after the nodes it had, the file and the compile unit of that
    file: not optimized, with full debug emission, and, the call giving
    two [true] behind the emission kind, with [DWOId] 1 and split debug
    inlining, and without debug information for profiling.  [mainF_] is
    the subprogram of [main]: the one it had or, if it had none, a new
    one in the scope of the file. *)
Theorem initDebugInfo_module_and_metadata (g g' : LLVMIRGen) :
  emitDebugInfo g = true ->
  initDebugInfo g = Ok (tt, g') ->
  m_flags (llmodule_ g')
  = m_flags (llmodule_ g)
    ++ [("Debug Info Version", DEBUG_METADATA_VERSION); ("Dwarf Version", 4)]
  /\ m_globals (llmodule_ g')
     = m_globals (llmodule_ g)
       ++ [baseAddressGlobal "constWeightsBaseAddress";
           baseAddressGlobal "mutableWeightsBaseAddress";
           baseAddressGlobal "activationsBaseAddress"]
  /\ (exists c m a,
        constWeightsBaseAddressGV_ (dbgInfo_ g') = Some c
        /\ mutableWeightsBaseAddressGV_ (dbgInfo_ g') = Some m
        /\ activationsBaseAddressGV_ (dbgInfo_ g') = Some a
        /\ m_globals (llmodule_ g') !! c
           = Some (baseAddressGlobal "constWeightsBaseAddress")
        /\ m_globals (llmodule_ g') !! m
           = Some (baseAddressGlobal "mutableWeightsBaseAddress")
        /\ m_globals (llmodule_ g') !! a
           = Some (baseAddressGlobal "activationsBaseAddress"))
  /\ baseGlobalsNamed g'
  /\ DIBuilder_ g' = Some DIBuilder_new
  /\ (exists path rest,
        make_absolute (outputDir g) = Some path
        /\ ctx_ g'
           = ctx_ g
             ++ [DIFile (mainEntryName g +:+ ".glow") path;
                 DICompileUnit DW_LANG_C (Some (length (ctx_ g)))
                   "Glow Compiler" false "" 0 "" FullDebug 1 true false]
             ++ rest)
  /\ mainFile_ (dbgInfo_ g') = Some (length (ctx_ g))
  /\ compilationUnit_ (dbgInfo_ g') = Some (S (length (ctx_ g)))
  /\ exists mainFn fn0 fn h,
       Module_getFunction "main" (llmodule_ g) = Some mainFn
       /\ m_functions (llmodule_ g) !! mainFn = Some fn0
       /\ m_functions (llmodule_ g') !! mainFn = Some fn
       /\ fn_name fn = "main"
       /\ fn_subprogram fn = Some h
       /\ mainF_ (dbgInfo_ g') = Some h
       /\ (fn_subprogram fn0 = Some h
           \/ (fn_subprogram fn0 = None
               /\ exists ty,
                    ctx_ g' !! h
                    = Some (DISubprogram (Some (length (ctx_ g))) "main" ""
                              (Some (length (ctx_ g))) 0 ty false true 0
                              FlagPrototyped true))).
Proof.
  intros Hflag Hrun.
  destruct (initDebugInfo_inv g g' Hflag Hrun)
    as (mainFn & path & h & fn & rest & Hmain & _ & _ & _ & _ & _
        & Habs & _ & _ & _ & Hflags & Hgvs & Hc & Hm & Ha & Hdib
        & _ & _ & _ & _ & _ & Hctx
        & Hfile & Hcu & HmainF & Hfn & Hname & _ & Hsp & Hcases).
  clear Hrun Hflag.
  destruct (lookup_appended_three (m_globals (llmodule_ g))
              (baseAddressGlobal "constWeightsBaseAddress")
              (baseAddressGlobal "mutableWeightsBaseAddress")
              (baseAddressGlobal "activationsBaseAddress"))
    as (Hgc & Hgm & Hga).
  rewrite <- Hgvs in Hgc, Hgm, Hga.
  split_and!; try done.
  - by eexists _, _, _.
  - unfold baseGlobalsNamed, namedGlobal. split_and!; by eexists _, _.
  - by exists path, rest.
  - destruct Hcases
      as [(fn0 & Hfn0 & Hsp0 & _)|(fn0 & ty & Hfn0 & Hsp0 & Hnode)].
    + exists mainFn, fn0, fn, h. split_and!; try done. by left.
    + exists mainFn, fn0, fn, h. split_and!; try done. right.
      split; [done|]. by exists ty.
Qed.

(** X13. When [initDebugInfo] returns with the flag on, the instructions
    of the module are those of before and three stores, placed where the
    builder inserts ([builder_] keeps its insertion point): the arguments
    0, 1 and 2 of [main] are stored, in this order, into the base-address
    globals of the constant weights, of the mutable weights and of the
    activations.  A builder with no insertion point leaves every block as
    it was; one that appends to a block appends the three stores. *)
Theorem initDebugInfo_stores_arguments (g g' : LLVMIRGen) :
  emitDebugInfo g = true ->
  initDebugInfo g = Ok (tt, g') ->
  exists mainFn c m a s0 s1 s2,
    Module_getFunction "main" (llmodule_ g) = Some mainFn
    /\ baseAddressGV ConstantWeight (dbgInfo_ g') = Some c
    /\ baseAddressGV MutableWeight (dbgInfo_ g') = Some m
    /\ baseAddressGV Activation (dbgInfo_ g') = Some a
    /\ i_op <$> [s0; s1; s2]
       = [Store (VArg mainFn 0) (VGlobal c);
          Store (VArg mainFn 1) (VGlobal m);
          Store (VArg mainFn 2) (VGlobal a)]
    /\ i_id <$> [s0; s1; s2]
       = [m_nextInst (llmodule_ g); S (m_nextInst (llmodule_ g));
          S (S (m_nextInst (llmodule_ g)))]
    /\ i_debugLoc <$> [s0; s1; s2]
       = [b_currentDebugLoc (builder_ g); b_currentDebugLoc (builder_ g);
          b_currentDebugLoc (builder_ g)]
    /\ builder_ g' = builder_ g
    /\ (b_insertPoint (builder_ g) = None ->
        fn_blocks <$> m_functions (llmodule_ g')
        = fn_blocks <$> m_functions (llmodule_ g))
    /\ (forall F bb before,
          b_insertPoint (builder_ g) = Some (F, bb, before) ->
          fn_blocks <$> m_functions (llmodule_ g')
          = alter
              (alter
                 (fun blk =>
                    insert_at before s2
                      (insert_at before s1 (insert_at before s0 blk)))
                 bb)
              F (fn_blocks <$> m_functions (llmodule_ g)))
    /\ (forall F bb,
          b_insertPoint (builder_ g) = Some (F, bb, None) ->
          fn_blocks <$> m_functions (llmodule_ g')
          = alter (alter (fun blk => blk ++ [s0; s1; s2]) bb) F
              (fn_blocks <$> m_functions (llmodule_ g))).
Proof.
  intros Hflag Hrun.
  destruct (initDebugInfo_inv g g' Hflag Hrun)
    as (mainFn & path & h & fn & rest & Hmain & _ & _ & _ & _ & _
        & _ & _ & _ & _ & _ & _ & Hc & Hm & Ha & _ & _ & _ & _ & Hbld
        & Hblocks & _).
  cbv zeta in Hblocks.
  set (store := storeOfArg (builder_ g) (m_nextInst (llmodule_ g))
                  (length (m_globals (llmodule_ g))) mainFn) in Hblocks.
  assert (forall F bb before,
            b_insertPoint (builder_ g) = Some (F, bb, before) ->
            fn_blocks <$> m_functions (llmodule_ g')
            = alter
                (alter
                   (fun blk =>
                      insert_at before (store 2%nat)
                        (insert_at before (store 1%nat)
                           (insert_at before (store O) blk)))
                   bb)
                F (fn_blocks <$> m_functions (llmodule_ g))) as Hat.
  { intros F bb before Hip. rewrite Hblocks. unfold insertedBlocks.
    rewrite Hip. rewrite !list_alter_alter_eq.
    apply list_alter_ext; [|done]. intros blocks _. simpl.
    rewrite !list_alter_alter_eq. by apply list_alter_ext. }
  exists mainFn, (length (m_globals (llmodule_ g))),
    (S (length (m_globals (llmodule_ g)))),
    (S (S (length (m_globals (llmodule_ g))))),
    (store O), (store 1%nat), (store 2%nat).
  unfold baseAddressGV.
  split_and!; [done | done | done | done | | | done | done | | done |].
  - unfold store, storeOfArg. simpl.
    by rewrite Nat.add_0_r, Nat.add_1_r, (Nat.add_comm _ 2).
  - unfold store, storeOfArg. simpl.
    by rewrite Nat.add_0_r, Nat.add_1_r, (Nat.add_comm _ 2).
  - intros Hip. rewrite Hblocks. unfold insertedBlocks. by rewrite Hip.
  - intros F bb Hip. rewrite (Hat F bb None Hip).
    apply list_alter_ext; [|done]. intros blocks _.
    apply list_alter_ext; [|done]. intros blk _.
    simpl. by rewrite <- !app_assoc.
Qed.

(** X14. After [initDebugInfo] has returned with the flag on, every location
    [setCurrentDebugLocation] makes current is in column 0 of the
    subprogram of [main], which is not null. *)
Theorem initDebugInfo_then_setCurrentDebugLocation (g g' : LLVMIRGen)
  (builder : IRBuilder) (instr : Value) :
  emitDebugInfo g = true ->
  initDebugInfo g = Ok (tt, g') ->
  exists mainFn fn h loc,
    Module_getFunction "main" (llmodule_ g) = Some mainFn
    /\ m_functions (llmodule_ g') !! mainFn = Some fn
    /\ fn_subprogram fn = Some h
    /\ b_currentDebugLoc (setCurrentDebugLocation g' builder instr)
       = Some loc
    /\ loc_scope loc = Some h
    /\ loc_column loc = 0.
Proof.
  intros Hflag Hrun.
  destruct (initDebugInfo_inv g g' Hflag Hrun)
    as (mainFn & path & h & fn & rest & Hmain & _ & _ & _ & _ & _
        & _ & _ & _ & _ & _ & _ & _ & _ & _ & _ & Hflag' & _ & _ & _ & _
        & _ & _ & _ & HmainF & Hfn & _ & _ & Hsp & _).
  exists mainFn, fn, h. eexists.
  unfold setCurrentDebugLocation. rewrite Hflag', HmainF. simpl.
  by split_and!.
Qed.

(** ** [generateDebugInfo]: the run that returns *)

(** What the emitter of global variables leaves as it was: the functions,
    the builder, the Glow function and the files; the metadata only
    grows. *)
Definition emitterKeeps (g g' : LLVMIRGen) : Prop :=
  m_functions (llmodule_ g') = m_functions (llmodule_ g)
  /\ DIBuilder_ g' = DIBuilder_ g
  /\ F_ g' = F_ g
  /\ files g' = files g
  /\ exists new, ctx_ g' = ctx_ g ++ new.

Lemma emitterKeeps_refl g : emitterKeeps g g.
Proof. split_and!; try done. exists []. by rewrite app_nil_r. Qed.

Lemma emitterKeeps_trans g1 g2 g3 :
  emitterKeeps g1 g2 -> emitterKeeps g2 g3 -> emitterKeeps g1 g3.
Proof.
  intros (Hf1 & Hb1 & HF1 & Hfs1 & new1 & Hc1)
         (Hf2 & Hb2 & HF2 & Hfs2 & new2 & Hc2).
  split_and!; try congruence.
  exists (new1 ++ new2). by rewrite Hc2, Hc1, app_assoc.
Qed.

Lemma valueNumbers_at_returns val (g : LLVMIRGen) kn g' :
  valueNumbers_at val g = Ok (kn, g') ->
  exists f, g' = set_allocationsInfo f g.
Proof.
  unfold valueNumbers_at, bind, gets, modify, ret.
  destruct (valueNumbers_ (allocationsInfo_ g) !! valueId val).
  - intros [= <- <-]. exists (fun a => a). by destruct g.
  - intros [= <- <-]. by eexists.
Qed.

Lemma emit_returns_keeps val (g g' : LLVMIRGen) :
  emitDebugGlobalVariableForValue val g = Ok (tt, g') ->
  emitterKeeps g g'.
Proof.
  intros H. unfold emitDebugGlobalVariableForValue in H.
  apply bind_inv in H as (name & st & Hs & H).
  unfold gets in Hs. injection Hs as <- <-.
  apply bind_inv in H as (d & g1 & Hty & H).
  apply getDebugType_frame in Hty as (new & m' & -> & _).
  apply bind_inv in H as (arr & st & Harr & H).
  apply DIBuilder_call_returns in Harr as [-> ->].
  apply bind_inv in H as (kn & st & Hkn & H).
  apply valueNumbers_at_returns in Hkn as [f ->].
  apply bind_inv in H as (base & st & Hs & H).
  unfold gets in Hs. injection Hs as <- <-.
  apply bind_inv in H as (addr & st & Hs & H).
  unfold gets in Hs. injection Hs as <- <-.
  apply bind_inv in H as ([] & st & Hs & H).
  apply cassert_returns in Hs as [_ ->].
  apply bind_inv in H as (expr & st & Hexpr & H).
  apply DIBuilder_call_returns in Hexpr as [-> ->].
  apply bind_inv in H as (cu & st & Hs & H).
  unfold gets in Hs. injection Hs as <- <-.
  apply bind_inv in H as (mainFile & st & Hs & H).
  unfold gets in Hs. injection Hs as <- <-.
  apply bind_inv in H as (gv & st & Hgv & H).
  apply DIBuilder_call_returns in Hgv as [-> ->].
  unfold GlobalVariable_call in H.
  apply bind_inv in H as (r & st & Hr & H).
  unfold modify in H. injection H as <-.
  unfold deref in Hr.
  destruct (baseAddressGV _ _); [|discriminate Hr].
  unfold ret in Hr. injection Hr as <- <-.
  unfold emitterKeeps, with_types. simpl.
  split_and!; try done.
  eexists. rewrite <- !app_assoc. reflexivity.
Qed.

Lemma forM_keeps {A} (R : LLVMIRGen -> LLVMIRGen -> Prop)
  (f : A -> Gen unit) (l : list A) :
  (forall g, R g g) ->
  (forall g1 g2 g3, R g1 g2 -> R g2 g3 -> R g1 g3) ->
  (forall x g g', f x g = Ok (tt, g') -> R g g') ->
  forall g g', forM_ l f g = Ok (tt, g') -> R g g'.
Proof.
  intros Hrefl Htrans Hf.
  induction l as [|x l IH]; intros g g' Hrun; simpl in Hrun.
  - unfold ret in Hrun. injection Hrun as <-. apply Hrefl.
  - apply bind_inv in Hrun as ([] & g1 & Hx & Hrun).
    eapply Htrans; [by eapply Hf | by apply IH].
Qed.

Lemma emitDebugGlobalVariables_keeps (g g' : LLVMIRGen) :
  emitDebugGlobalVariables g = Ok (tt, g') -> emitterKeeps g g'.
Proof.
  unfold emitDebugGlobalVariables. intros H.
  apply bind_inv in H as (weights & st & Hs & H).
  unfold gets in Hs. injection Hs as <- <-.
  apply bind_inv in H as ([] & g1 & Hweights & H).
  apply forM_cast_WeightVar_returns in Hweights as [_ Hweights].
  apply bind_inv in H as (instrs & st & Hs & H).
  unfold gets in Hs. injection Hs as <- <-.
  rewrite forM_skip in H.
  eapply emitterKeeps_trans;
    (eapply forM_keeps;
     [ apply emitterKeeps_refl | apply emitterKeeps_trans
     | intros ? ? ?; apply emit_returns_keeps | eassumption ]).
Qed.

Lemma checkFunctionsHaveDebugInfo_inv (g g' : LLVMIRGen) :
  checkFunctionsHaveDebugInfo g = Ok (tt, g') ->
  g' = g
  /\ Forall (fun fn => isDeclaration fn = true \/ is_Some (fn_subprogram fn))
       (m_functions (llmodule_ g)).
Proof.
  unfold checkFunctionsHaveDebugInfo, bind at 1, gets at 1.
  induction (m_functions (llmodule_ g)) as [|fn fns IH]; simpl.
  - intros [= <-]. by split.
  - unfold bind at 1.
    destruct (isDeclaration fn) eqn:Ed; simpl.
    { intros H. apply IH in H as [-> H]. split; [done|].
      constructor; [by left|done]. }
    destruct (fn_subprogram fn) as [sp|] eqn:Es; simpl; [|done].
    intros H. apply IH in H as [-> H]. split; [done|].
    constructor; [right; by exists sp|done].
Qed.

Lemma relocated_located scope (l l' : list (list llvm_Instruction)) :
  Forall2 (Forall2 (relocated scope)) l l' ->
  Forall (Forall (fun instr => is_Some (i_debugLoc instr))) l'.
Proof.
  induction 1 as [|BB BB' l l' HBB _ IH]; constructor; [|done].
  clear IH. induction HBB as [|i i' BB BB' (_ & _ & Hloc & _) _ IH];
    by constructor.
Qed.

(** X15. With the flag on, a run of [generateDebugInfo] that returns found a
    subprogram on every function with a body, and leaves a module in which
    every instruction of every function has a debug location: the
    functions are those of the sweep, the emitter of global variables
    touches none of them. The builder is the one of before, finalized; the
    verifier found neither the module nor the debug information broken;
    the Glow function and the files are as before and the metadata has
    only grown. *)
Theorem generateDebugInfo_returns_located (g g' : LLVMIRGen) :
  emitDebugInfo g = true ->
  generateDebugInfo g = Ok (tt, g') ->
  Forall2 sweptFunction
    (m_functions (llmodule_ g)) (m_functions (llmodule_ g'))
  /\ Forall
       (fun fn' =>
          isDeclaration fn' = true
          \/ (is_Some (fn_subprogram fn')
              /\ Forall (Forall (fun instr => is_Some (i_debugLoc instr)))
                   (fn_blocks fn')))
       (m_functions (llmodule_ g'))
  /\ (exists b, DIBuilder_ g = Some b
                /\ DIBuilder_ g' = Some (DIBuilder_finalize b))
  /\ verifyModule (llmodule_ g') (ctx_ g') = (false, false)
  /\ F_ g' = F_ g
  /\ files g' = files g
  /\ exists new, ctx_ g' = ctx_ g ++ new.
Proof.
  intros Hflag Hrun. unfold generateDebugInfo in Hrun.
  apply bind_inv in Hrun as (flag & st & Hs & Hrun).
  unfold gets in Hs. injection Hs as <- <-.
  rewrite Hflag in Hrun. cbn [negb] in Hrun.
  apply bind_inv in Hrun as ([] & st & Hcheck & Hrun).
  apply checkFunctionsHaveDebugInfo_inv in Hcheck as [-> Hcheck].
  apply bind_inv in Hrun as ([] & g1 & Hsweep & Hrun).
  unfold sweepModule in Hsweep.
  apply bind_inv in Hsweep as (fns & st & Hs & Hsweep).
  unfold gets in Hs. injection Hs as <- <-.
  apply bind_inv in Hsweep as (fns' & st & Hmap & Hsweep).
  unfold modify in Hsweep. injection Hsweep as <-.
  eapply (mapM_pure sweptFunction) in Hmap as [-> Hswept];
    [|intros fn g0 fn' g0'; apply sweepFunction_swept].
  apply bind_inv in Hrun as ([] & g2 & Hemit & Hrun).
  apply emitDebugGlobalVariables_keeps in Hemit
    as (Hfns & Hdib & HF & Hfiles & new & Hctx).
  apply bind_inv in Hrun as (b' & st & Hs & Hrun).
  unfold gets in Hs. injection Hs as <- <-.
  apply bind_inv in Hrun as (b & st & Hb & Hrun).
  destruct (DIBuilder_ g2) as [b0|] eqn:Eb; [|discriminate Hb].
  unfold deref, ret in Hb. injection Hb as <- <-.
  apply bind_inv in Hrun as ([] & st & Hs & Hrun).
  unfold modify in Hs. injection Hs as <-.
  apply bind_inv in Hrun as (v & st' & Hs & Hrun).
  unfold gets in Hs. injection Hs as <- <-.
  apply bind_inv in Hrun as ([] & st' & Hv1 & Hrun).
  apply cassert_returns in Hv1 as [Hv1 ->].
  apply cassert_returns in Hrun as [Hv2 ->].
  apply negb_true_iff in Hv1, Hv2.
  simpl in *. rewrite Hfns.
  split_and!.
  - done.
  - clear -Hcheck Hswept.
    induction Hswept as [|fn fn' l l' (_ & _ & _ & Hsp & Hsame & Hloc) _ IH];
      [constructor|].
    apply Forall_cons in Hcheck as [Hfn Hcheck].
    constructor; [|by apply IH].
    destruct (isDeclaration fn) eqn:Ed.
    + left. rewrite (Hsame (or_introl eq_refl)). exact Ed.
    + right. destruct Hfn as [Hfn|Hfn]; [discriminate Hfn|].
      split; [by rewrite Hsp|].
      eapply relocated_located. by apply Hloc.
  - exists b0. split; [congruence|done].
  - by apply injective_projections.
  - done.
  - done.
  - by exists new.
Qed.

End Backend.

(** * The properties on concrete inputs *)


(** ** Witnesses *)

Lemma setCurrentDebugLocation_line_column_scope_witness :
  setCurrentDebugLocation locating (builder_ locating)
    (OtherInst 5%positive 3)
  = {| b_insertPoint := None;
       b_currentDebugLoc :=
         Some {| loc_line := 15; loc_column := 0;
                 loc_scope := Some 5%nat |} |}.
Proof.
  apply (setCurrentDebugLocation_line_column_scope locating
           (builder_ locating) (OtherInst 5%positive 3) 4).
  - reflexivity.
  - reflexivity.
  - apply (bool_decide_unpack _). vm_compute. exact I.
  - reflexivity.
  - vm_compute. discriminate.
  - vm_compute. reflexivity.
Defined.

Lemma scanForFirstInstr_first_marker_prefix_witness :
  scanForFirstInstr dump_plain
    (newLLVMIRGen true emptyIR noAllocations emptyModule)
  = Ok (tt, set_dbgInfo (set_mainFileFirstInstrLineNo 3)
              (newLLVMIRGen true emptyIR noAllocations emptyModule))
  /\ scanForFirstInstr "function main"
       (newLLVMIRGen true emptyIR noAllocations emptyModule)
     = Abort (AssertionFailed
                "No IR code was found in the textual IR representation")
  /\ scanForFirstInstr "function main"
       (set_dbgInfo (set_mainFileFirstInstrLineNo 7)
          (newLLVMIRGen true emptyIR noAllocations emptyModule))
     = Ok (tt, set_dbgInfo (set_mainFileFirstInstrLineNo 7)
                 (newLLVMIRGen true emptyIR noAllocations emptyModule)).
Proof.
  split_and!.
  - apply (proj1 (scanForFirstInstr_first_marker_prefix dump_plain
                    (newLLVMIRGen true emptyIR noAllocations emptyModule)
                    ltac:(vm_compute; reflexivity))
             ["function main"] "code {" ["  %1 = copy"; "}"]).
    + reflexivity.
    + repeat constructor. vm_compute. discriminate.
    + reflexivity.
  - apply (proj1 (proj2 (scanForFirstInstr_first_marker_prefix
                           "function main"
                           (newLLVMIRGen true emptyIR noAllocations
                              emptyModule)
                           ltac:(vm_compute; reflexivity)))).
    + repeat constructor. vm_compute. discriminate.
    + reflexivity.
  - apply (proj2 (proj2 (scanForFirstInstr_first_marker_prefix
                           "function main"
                           (set_dbgInfo (set_mainFileFirstInstrLineNo 7)
                              (newLLVMIRGen true emptyIR noAllocations
                                 emptyModule))
                           ltac:(vm_compute; reflexivity)))).
    + repeat constructor. vm_compute. discriminate.
    + vm_compute. discriminate.
Defined.

Lemma flag_off_inert_witness :
  runCalls example_dump example_getElementType example_getSizeInBytes
    ConstantWeight example_make_absolute example_canOpen
    example_verifyModule
    [CallInitDebugInfo; CallGenerateFunctionDebugInfo O;
     CallSetCurrentDebugLocation example_act; CallGenerateDebugInfo]
    (newLLVMIRGen false act_and_view noAllocations emptyModule)
  = Ok (tt, newLLVMIRGen false act_and_view noAllocations emptyModule).
Proof.
  apply (flag_off_inert example_dump example_getElementType
           example_getSizeInBytes ConstantWeight example_make_absolute
           example_canOpen example_verifyModule).
  reflexivity.
Defined.

Lemma emitted_address_is_base_plus_offset_witness :
  exists g' h hexpr ty,
    emitDebugGlobalVariableForValue example_getElementType
      example_getSizeInBytes ConstantWeight example_view emitting
    = Ok (tt, g')
    /\ m_globals (llmodule_ emitting) !! 2%nat
       = Some (baseAddressGlobal "activationsBaseAddress")
    /\ gv_debugInfo <$> m_globals (llmodule_ g') !! 2%nat = Some [Some h]
    /\ gv_debugInfo <$> m_globals (llmodule_ g') !! O = Some []
    /\ gv_debugInfo <$> m_globals (llmodule_ g') !! 1%nat = Some []
    /\ ctx_ g' !! h
       = Some (DIGlobalVariableExpression None "view" "" None 0 ty false
                 (Some hexpr))
    /\ ctx_ g' !! hexpr
       = Some (DIExpression [DW_OP_deref; DW_OP_constu; 64; DW_OP_plus])
    /\ forall (globalAddr : GVRef -> Z) (mem : Z -> option Z) (base : Z),
         mem (globalAddr 2%nat) = Some base ->
         0 <= base -> 0 <= 64 -> base + 64 < 2 ^ 64 ->
         variableAddress globalAddr mem g' 2%nat h = Some (base + 64).
Proof.
  destruct (emitted_address_is_base_plus_offset example_getElementType
              example_getSizeInBytes ConstantWeight example_view emitting
              DIBuilder_new Activation 0 64)
    as (g' & r & gv & h & hexpr & ty & Hrun & Hgv & Hname & Hr & Hother
        & Hh & He & Haddr).
  - reflexivity.
  - reflexivity.
  - reflexivity.
  - reflexivity.
  - unfold baseGlobalsNamed, namedGlobal.
    split_and!; eexists _, _; split_and!; reflexivity.
  - assert (r = 2%nat) as ->.
    { destruct r as [|[|[|r]]]; simpl in Hgv; try discriminate Hgv;
        injection Hgv as <-; simpl in Hname;
        (reflexivity || discriminate Hname). }
    simpl in Hgv. injection Hgv as <-.
    exists g', h, hexpr, ty.
    split_and!;
      [ exact Hrun | reflexivity | rewrite Hr; reflexivity
      | rewrite (Hother O); [reflexivity | discriminate]
      | rewrite (Hother 1%nat); [reflexivity | discriminate]
      | exact Hh | exact He | exact Haddr ].
Defined.


Lemma getOrCreateFunctionDebugInfo_null_or_one_descriptor_witness :
  exists h ty g1,
    getOrCreateFunctionDebugInfo O None None 0 describing = Ok (Some h, g1)
    /\ (length (ctx_ describing) <= h)%nat
    /\ ctx_ g1 !! h
       = Some (DISubprogram None "main" "" None 0 ty false true 0
                 FlagPrototyped true)
    /\ m_functions (llmodule_ g1) !! O
       = Some (setSubprogram (Some h) main_of_three_pointers)
    /\ length (subprograms (ctx_ g1))
       = S (length (subprograms (ctx_ describing))).
Proof.
  apply (proj1 (proj2 getOrCreateFunctionDebugInfo_null_or_one_descriptor)
           O None None 0 describing main_of_three_pointers DIBuilder_new);
    (reflexivity || discriminate).
Defined.

(** Three calls for [main] leave one subprogram node in the context, the
    one every call returns. *)
Example getOrCreateFunctionDebugInfo_three_calls :
  (fun r => match r with
            | Ok (hs, g) => Some (hs, subprograms (ctx_ g))
            | Abort _ => None
            end)
    (mapM [O; O; O]
       (fun F => getOrCreateFunctionDebugInfo F None None 0) describing)
  = Some ([Some 3%nat; Some 3%nat; Some 3%nat],
          [DISubprogram None "main" "" None 0 (Some 2%nat) false true 0
             FlagPrototyped true]).
Proof. vm_compute. reflexivity. Qed.

Lemma generateFunctionDebugInfo_shadows_arguments_witness :
  exists g' fn' sp vars,
    generateFunctionDebugInfo O describing = Ok (tt, g')
    /\ m_functions (llmodule_ g') !! O = Some fn'
    /\ fn_subprogram fn' = Some sp
    /\ fn_blocks fn'
       = map (fillDebugLoc (Some sp))
           (shadowArgs O (Some sp) 0 1%nat
              [Int8PtrTy; Int8PtrTy; Int8PtrTy] vars
            ++ [{| i_id := O; i_op := OtherOp 1; i_debugLoc := None |}])
         :: map (map (fillDebugLoc (Some sp))) []
    /\ length vars = 3%nat
    /\ length (List.filter isAlloca
                 (shadowArgs O (Some sp) 0 1%nat
                    [Int8PtrTy; Int8PtrTy; Int8PtrTy] vars))
       = 3%nat
    /\ forall i var expr,
         vars !! i = Some (var, expr) ->
         exists hv dty,
           var = Some hv
           /\ ctx_ g' !! hv
              = Some (DILocalVariable (Some sp)
                        ("arg" +:+ to_string (N.of_nat (i + 1)))
                        (Z.of_nat (i + 1)) None 0 dty true)
           /\ "arg" +:+ to_string (N.of_nat (i + 1)) <> "arg0".
Proof.
  apply (generateFunctionDebugInfo_shadows_arguments O describing
           DIBuilder_new main_of_three_pointers
           [{| i_id := O; i_op := OtherOp 1; i_debugLoc := None |}] []);
    try reflexivity.
  - discriminate.
  - repeat constructor.
Defined.

Example generateFunctionDebugInfo_main :
  (fun g => (parameterVariables (ctx_ g), entryBlockOf O g))
    <$> stateAfter (generateFunctionDebugInfo O describing)
  = Some
      ([("arg1", 1); ("arg2", 2); ("arg3", 3)],
       [Alloca Int8PtrTy;
        DbgDeclare (VInst 1%nat) (Some 4%nat) (Some 5%nat);
        Store (VArg O O) (VInst 1%nat);
        Alloca Int8PtrTy;
        DbgDeclare (VInst 4%nat) (Some 6%nat) (Some 7%nat);
        Store (VArg O 1%nat) (VInst 4%nat);
        Alloca Int8PtrTy;
        DbgDeclare (VInst 7%nat) (Some 8%nat) (Some 9%nat);
        Store (VArg O 2%nat) (VInst 7%nat);
        OtherOp 1]).
Proof. vm_compute. reflexivity. Qed.

(** ** Further inputs *)

Definition example_weight : Value := WeightVar 3%positive tensor_2x3.

(** A function whose names are not identifiers. *)
Definition dotted_names : IRFunction :=
  {| ir_weights := [example_weight];
     ir_instrs := [example_act; example_view; OtherInst 4%positive 1];
     ir_names :=
       <[1%positive := "act.0"]>
         (<[2%positive := "view-1"]>
            (<[3%positive := "conv.w"]> (<[4%positive := "copy.0"]> ∅))) |}.

Definition initializing : LLVMIRGen :=
  newLLVMIRGen true dotted_names noAllocations
    {| m_flags := []; m_globals := [];
       m_functions := [main_of_three_pointers]; m_nextInst := 1%nat |}.

(** The state of [emitting] with the function [located_main] and its
    subprogram. *)
Definition generating : LLVMIRGen :=
  set_ctx (fun _ =>
    [DISubprogram None "main" "" None 0 None false true 0 FlagPrototyped
       true])
    (set_llmodule (set_functions (fun _ => [located_main])) emitting).

(** The planner gave the activation an offset and no number. *)
Definition unnumbered : LLVMIRGen :=
  set_allocationsInfo (fun _ =>
    {| valueNumbers_ := ∅; allocatedAddressed_ := {[1%positive := 64]} |})
    emitting.

(** ** Witnesses of the further properties *)

Lemma getDebugType_unsupported_aborts_witness :
  getDebugType (PointerTy (OtherTy 7)) describing
  = Abort (Unreachable "Cannot create DWARF debug type for an LLVM type").
Proof.
  apply (getDebugType_unsupported_aborts (PointerTy (OtherTy 7)) describing).
  - reflexivity.
  - intros t _. reflexivity.
Defined.

Lemma getDebugType_describes_witness :
  exists d g',
    getDebugType (PointerTy FloatTy) describing = Ok (d, g')
    /\ describes (ctx_ g') (DITypes_ (dbgInfo_ g')) (PointerTy FloatTy) d
    /\ cache_describes (ctx_ g') (DITypes_ (dbgInfo_ g')).
Proof.
  apply (getDebugType_describes (PointerTy FloatTy) describing DIBuilder_new).
  - reflexivity.
  - reflexivity.
  - intros t d Ht. vm_compute in Ht. discriminate Ht.
Defined.

Lemma generateDebugInfo_needs_all_subprograms_witness :
  generateDebugInfo example_getElementType example_getSizeInBytes
    ConstantWeight example_verifyModule describing
  = Abort (Unreachable
      "Expected all functions to have debug information at this point")
  /\ checkFunctionsHaveDebugInfo swept = Ok (tt, swept).
Proof.
  split.
  - apply (proj1 (generateDebugInfo_needs_all_subprograms
                    example_getElementType example_getSizeInBytes
                    ConstantWeight example_verifyModule describing
                    eq_refl)).
    constructor. split; reflexivity.
  - apply (proj2 (generateDebugInfo_needs_all_subprograms
                    example_getElementType example_getSizeInBytes
                    ConstantWeight example_verifyModule swept eq_refl)).
    constructor; [right; eexists; reflexivity | constructor].
Defined.

Lemma sweepModule_changes_locations_only_witness :
  exists g',
    sweepModule swept = Ok (tt, g')
    /\ g' = set_llmodule
              (set_functions (fun _ => m_functions (llmodule_ g'))) swept
    /\ Forall2 sweptFunction
         (m_functions (llmodule_ swept)) (m_functions (llmodule_ g')).
Proof.
  eexists. split; [vm_compute; reflexivity|].
  apply (sweepModule_changes_locations_only swept).
  vm_compute. reflexivity.
Defined.

Lemma emit_without_offset_aborts_witness :
  emitDebugGlobalVariableForValue example_getElementType
    example_getSizeInBytes ConstantWeight
    (AllocActivationInst 5%positive tensor_2x3) emitting
  = Abort (AssertionFailed "The weight should be in the map").
Proof.
  apply (emit_without_offset_aborts example_getElementType
           example_getSizeInBytes ConstantWeight
           (AllocActivationInst 5%positive tensor_2x3) emitting
           DIBuilder_new);
    reflexivity.
Defined.

Lemma emit_without_number_defaults_witness :
  exists g' (r : nat) gv h hexpr ty,
    emitDebugGlobalVariableForValue example_getElementType
      example_getSizeInBytes ConstantWeight example_act unnumbered
    = Ok (tt, g')
    /\ valueNumbers_ (allocationsInfo_ g')
       = <[valueId (getOrigin example_act) := (ConstantWeight, 0)]>
           (valueNumbers_ (allocationsInfo_ unnumbered))
    /\ allocatedAddressed_ (allocationsInfo_ g')
       = allocatedAddressed_ (allocationsInfo_ unnumbered)
    /\ m_globals (llmodule_ unnumbered) !! r = Some gv
    /\ gv_name gv = "constWeightsBaseAddress"
    /\ m_globals (llmodule_ g')
       = <[r := {| gv_name := gv_name gv; gv_type := gv_type gv;
                   gv_isConstant := gv_isConstant gv;
                   gv_internal := gv_internal gv;
                   gv_initializer := gv_initializer gv;
                   gv_debugInfo := gv_debugInfo gv ++ [Some h] |}]>
           (m_globals (llmodule_ unnumbered))
    /\ ctx_ g' !! h
       = Some (DIGlobalVariableExpression None "act" "" None 0 ty false
                 (Some hexpr))
    /\ ctx_ g' !! hexpr
       = Some (DIExpression [DW_OP_deref; DW_OP_constu; 64; DW_OP_plus]).
Proof.
  apply (emit_without_number_defaults example_getElementType
           example_getSizeInBytes ConstantWeight example_act unnumbered
           DIBuilder_new 64).
  - reflexivity.
  - reflexivity.
  - reflexivity.
  - reflexivity.
  - unfold baseGlobalsNamed, namedGlobal.
    split_and!; eexists _, _; split_and!; reflexivity.
Defined.

Lemma initDebugInfo_without_main_aborts_witness :
  initDebugInfo example_dump example_make_absolute example_canOpen
    (newLLVMIRGen true dotted_names noAllocations emptyModule)
  = Abort NullDereference.
Proof.
  apply (initDebugInfo_without_main_aborts example_dump
           example_make_absolute example_canOpen
           (newLLVMIRGen true dotted_names noAllocations emptyModule));
    reflexivity.
Defined.

Lemma initDebugInfo_returns_witness :
  (exists g',
     initDebugInfo example_dump example_make_absolute example_canOpen
       initializing
     = Ok (tt, g'))
  /\ forall g',
       initDebugInfo example_dump example_make_absolute example_canOpen
         swept
       <> Ok (tt, g').
Proof.
  split.
  - apply (proj1 (initDebugInfo_returns example_dump example_make_absolute
                    example_canOpen initializing O main_of_three_pointers
                    "/out" eq_refl eq_refl eq_refl)).
    + simpl. lia.
    + reflexivity.
    + reflexivity.
    + repeat constructor.
    + reflexivity.
    + reflexivity.
    + intros F' _ _. vm_compute. reflexivity.
  - apply (proj2 (initDebugInfo_returns example_dump example_make_absolute
                    example_canOpen swept O located_main "/out"
                    eq_refl eq_refl eq_refl)).
    simpl. lia.
Defined.

Lemma initDebugInfo_names_then_dump_witness :
  exists g',
    initDebugInfo example_dump example_make_absolute example_canOpen
      initializing
    = Ok (tt, g')
    /\ Forall (fun v => isWeightVar v = true) (ir_weights (F_ initializing))
    /\ ir_weights (F_ g') = ir_weights (F_ initializing)
    /\ ir_instrs (F_ g') = ir_instrs (F_ initializing)
    /\ (forall w, valueId w ∈ valueId <$> emittedValues (F_ initializing) ->
          getName (F_ g') w
          = (normalizeChars (getName (F_ initializing) w)).1)
    /\ (forall w, valueId w ∉ valueId <$> emittedValues (F_ initializing) ->
          ir_names (F_ g') !! valueId w
          = ir_names (F_ initializing) !! valueId w)
    /\ (exists path,
          example_make_absolute (outputDir initializing) = Some path
          /\ files g'
             = <[path +:+ "/" +:+ mainEntryName initializing +:+ ".glow"
                 := example_dump (F_ g')]> (files initializing))
    /\ mainFileFirstInstrLineNo_ (dbgInfo_ g') <> 0.
Proof.
  eexists. split; [vm_compute; reflexivity|].
  apply (initDebugInfo_names_then_dump example_dump example_make_absolute
           example_canOpen initializing).
  - reflexivity.
  - vm_compute. reflexivity.
Defined.

(** The names of [dotted_names] after [initDebugInfo]: those of the
    weight, the activation and the view are identifiers, that of the
    other instruction is as it was; the file holds the dump, whose first
    instruction is on line 3. *)
Example initDebugInfo_on_dotted_names :
  (fun g => (ir_names (F_ g), files g,
             mainFileFirstInstrLineNo_ (dbgInfo_ g)))
    <$> stateAfter
          (initDebugInfo example_dump example_make_absolute example_canOpen
             initializing)
  = Some
      (<[1%positive := "act_0"]>
         (<[2%positive := "view_1"]>
            (<[3%positive := "conv_w"]> (<[4%positive := "copy.0"]> ∅))),
       {["/out/main.glow" := dump_plain]}, 3).
Proof. vm_compute. reflexivity. Qed.

Lemma initDebugInfo_module_and_metadata_witness :
  exists g',
    initDebugInfo example_dump example_make_absolute example_canOpen
      initializing
    = Ok (tt, g')
    /\ m_flags (llmodule_ g')
       = m_flags (llmodule_ initializing)
         ++ [("Debug Info Version", DEBUG_METADATA_VERSION);
             ("Dwarf Version", 4)]
    /\ m_globals (llmodule_ g')
       = m_globals (llmodule_ initializing)
         ++ [baseAddressGlobal "constWeightsBaseAddress";
             baseAddressGlobal "mutableWeightsBaseAddress";
             baseAddressGlobal "activationsBaseAddress"]
    /\ (exists c m a,
          constWeightsBaseAddressGV_ (dbgInfo_ g') = Some c
          /\ mutableWeightsBaseAddressGV_ (dbgInfo_ g') = Some m
          /\ activationsBaseAddressGV_ (dbgInfo_ g') = Some a
          /\ m_globals (llmodule_ g') !! c
             = Some (baseAddressGlobal "constWeightsBaseAddress")
          /\ m_globals (llmodule_ g') !! m
             = Some (baseAddressGlobal "mutableWeightsBaseAddress")
          /\ m_globals (llmodule_ g') !! a
             = Some (baseAddressGlobal "activationsBaseAddress"))
    /\ baseGlobalsNamed g'
    /\ DIBuilder_ g' = Some DIBuilder_new
    /\ (exists path rest,
          example_make_absolute (outputDir initializing) = Some path
          /\ ctx_ g'
             = ctx_ initializing
               ++ [DIFile (mainEntryName initializing +:+ ".glow") path;
                   DICompileUnit DW_LANG_C (Some O)
                     "Glow Compiler" false "" 0 "" FullDebug 1 true false]
               ++ rest)
    /\ mainFile_ (dbgInfo_ g') = Some O
    /\ compilationUnit_ (dbgInfo_ g') = Some 1%nat
    /\ exists mainFn fn0 fn h,
         Module_getFunction "main" (llmodule_ initializing) = Some mainFn
         /\ m_functions (llmodule_ initializing) !! mainFn = Some fn0
         /\ m_functions (llmodule_ g') !! mainFn = Some fn
         /\ fn_name fn = "main"
         /\ fn_subprogram fn = Some h
         /\ mainF_ (dbgInfo_ g') = Some h
         /\ (fn_subprogram fn0 = Some h
             \/ (fn_subprogram fn0 = None
                 /\ exists ty,
                      ctx_ g' !! h
                      = Some (DISubprogram (Some O) "main" ""
                                (Some O) 0 ty false true 0
                                FlagPrototyped true))).
Proof.
  eexists. split; [vm_compute; reflexivity|].
  apply (initDebugInfo_module_and_metadata example_dump
           example_make_absolute example_canOpen initializing).
  - reflexivity.
  - vm_compute. reflexivity.
Defined.

(** The builder appends to the entry block of [main]. *)
Definition storing : LLVMIRGen :=
  set_builder (fun _ =>
    {| b_insertPoint := Some (O, O, None); b_currentDebugLoc := None |})
    initializing.

Lemma initDebugInfo_stores_arguments_witness :
  exists g',
    initDebugInfo example_dump example_make_absolute example_canOpen storing
    = Ok (tt, g')
    /\ exists mainFn c m a s0 s1 s2,
      Module_getFunction "main" (llmodule_ storing) = Some mainFn
      /\ baseAddressGV ConstantWeight (dbgInfo_ g') = Some c
      /\ baseAddressGV MutableWeight (dbgInfo_ g') = Some m
      /\ baseAddressGV Activation (dbgInfo_ g') = Some a
      /\ i_op <$> [s0; s1; s2]
         = [Store (VArg mainFn 0) (VGlobal c);
            Store (VArg mainFn 1) (VGlobal m);
            Store (VArg mainFn 2) (VGlobal a)]
      /\ i_id <$> [s0; s1; s2]
         = [m_nextInst (llmodule_ storing);
            S (m_nextInst (llmodule_ storing));
            S (S (m_nextInst (llmodule_ storing)))]
      /\ i_debugLoc <$> [s0; s1; s2]
         = [b_currentDebugLoc (builder_ storing);
            b_currentDebugLoc (builder_ storing);
            b_currentDebugLoc (builder_ storing)]
      /\ builder_ g' = builder_ storing
      /\ (b_insertPoint (builder_ storing) = None ->
          fn_blocks <$> m_functions (llmodule_ g')
          = fn_blocks <$> m_functions (llmodule_ storing))
      /\ (forall F bb before,
            b_insertPoint (builder_ storing) = Some (F, bb, before) ->
            fn_blocks <$> m_functions (llmodule_ g')
            = alter
                (alter
                   (fun blk =>
                      insert_at before s2
                        (insert_at before s1 (insert_at before s0 blk)))
                   bb)
                F (fn_blocks <$> m_functions (llmodule_ storing)))
      /\ (forall F bb,
            b_insertPoint (builder_ storing) = Some (F, bb, None) ->
            fn_blocks <$> m_functions (llmodule_ g')
            = alter (alter (fun blk => blk ++ [s0; s1; s2]) bb) F
                (fn_blocks <$> m_functions (llmodule_ storing))).
Proof.
  eexists. split; [vm_compute; reflexivity|].
  apply (initDebugInfo_stores_arguments example_dump example_make_absolute
           example_canOpen storing).
  - reflexivity.
  - vm_compute. reflexivity.
Defined.

(** The entry block of [main] in [storing] after [initDebugInfo]: the
    instruction it had, then the three stores. *)
Example initDebugInfo_on_storing :
  (fun g => entryBlockOf O g)
    <$> stateAfter
          (initDebugInfo example_dump example_make_absolute example_canOpen
             storing)
  = Some
      [OtherOp 1;
       Store (VArg O O) (VGlobal O);
       Store (VArg O 1%nat) (VGlobal 1%nat);
       Store (VArg O 2%nat) (VGlobal 2%nat)].
Proof. vm_compute. reflexivity. Qed.

Lemma initDebugInfo_then_setCurrentDebugLocation_witness :
  exists g' mainFn fn h loc,
    initDebugInfo example_dump example_make_absolute example_canOpen
      initializing
    = Ok (tt, g')
    /\ Module_getFunction "main" (llmodule_ initializing) = Some mainFn
    /\ m_functions (llmodule_ g') !! mainFn = Some fn
    /\ fn_subprogram fn = Some h
    /\ b_currentDebugLoc
         (setCurrentDebugLocation g' (builder_ g') example_view)
       = Some loc
    /\ loc_scope loc = Some h
    /\ loc_column loc = 0.
Proof.
  eexists.
  destruct (initDebugInfo_then_setCurrentDebugLocation example_dump
              example_make_absolute example_canOpen initializing _
              (builder_ initializing) example_view eq_refl
              ltac:(vm_compute; reflexivity))
    as (mainFn & fn & h & loc & H).
  exists mainFn, fn, h, loc. split; [vm_compute; reflexivity|exact H].
Defined.

Lemma generateDebugInfo_returns_located_witness :
  exists g',
    generateDebugInfo example_getElementType example_getSizeInBytes
      ConstantWeight example_verifyModule generating
    = Ok (tt, g')
    /\ Forall2 sweptFunction
         (m_functions (llmodule_ generating)) (m_functions (llmodule_ g'))
    /\ Forall
         (fun fn' =>
            isDeclaration fn' = true
            \/ (is_Some (fn_subprogram fn')
                /\ Forall (Forall (fun instr => is_Some (i_debugLoc instr)))
                     (fn_blocks fn')))
         (m_functions (llmodule_ g'))
    /\ (exists b, DIBuilder_ generating = Some b
                  /\ DIBuilder_ g' = Some (DIBuilder_finalize b))
    /\ example_verifyModule (llmodule_ g') (ctx_ g') = (false, false)
    /\ F_ g' = F_ generating
    /\ files g' = files generating
    /\ exists new, ctx_ g' = ctx_ generating ++ new.
Proof.
  eexists. split; [vm_compute; reflexivity|].
  apply (generateDebugInfo_returns_located example_getElementType
           example_getSizeInBytes ConstantWeight example_verifyModule
           generating).
  - reflexivity.
  - vm_compute. reflexivity.
Defined.

(** The module of [generating] after [generateDebugInfo]: both
    instructions of [main] are on line 0 of its subprogram, the one that
    was on line 11 too, and the activations global has the records of the
    activation and of its view. *)
Example generateDebugInfo_on_generating :
  (fun g => (map (map i_debugLoc) <$> (fn_blocks <$> m_functions (llmodule_ g)),
             debugRecords (llmodule_ g),
             di_finalized <$> DIBuilder_ g))
    <$> stateAfter
          (generateDebugInfo example_getElementType example_getSizeInBytes
             ConstantWeight example_verifyModule generating)
  = Some
      ([[[Some (DILocation_get 0 0 (Some O));
          Some (DILocation_get 0 0 (Some O))]]],
       [Some 4%nat; Some 7%nat], Some true).
Proof. vm_compute. reflexivity. Qed.
